(** * LibvirtController: a shallow embedding of
    [discovery-infra/test_infra/controllers/node_controllers/libvirt_controller.py]

    The controller is a thin adapter over a hypervisor session.  The
    hypervisor, the DOM library and the polling library are environment;
    they are modelled here by executable definitions, and every method of
    [LibvirtController] that the properties below talk about is transcribed
    statement by statement on top of them, in a state-and-exception monad
    over the session.  To follow exceptions whatever the environment
    answers, every method is also given as a script of its calls, [raise]
    statements and [try] blocks, run against an arbitrary hypervisor. *)

From Stdlib Require Import List String Ascii Bool ZArith Lia Arith.
From Stdlib Require Import DecimalString Decimal DecimalZ.
Import ListNotations.
Local Open Scope string_scope.
Local Open Scope list_scope.

Set Implicit Arguments.

(* ------------------------------------------------------------------ *)
(** ** Python strings *)

Module Py.

(** [needle in hay] on Python [str]: substring test. *)
Fixpoint contains (needle hay : string) : bool :=
  if String.prefix needle hay then true
  else match hay with
       | EmptyString => false
       | String _ rest => contains needle rest
       end.

(** Truthiness of a [str]: non-empty. *)
Definition truthy_str (s : string) : bool :=
  match s with EmptyString => false | _ => true end.

Fixpoint all_chars (p : ascii -> bool) (s : string) : bool :=
  match s with
  | EmptyString => true
  | String c rest => p c && all_chars p rest
  end.

(** A [str] is held as its UTF-8 encoding.  [decode] gives its code
    points; it refuses byte sequences that encode no [str] (stray or
    missing continuation bytes, overlong forms, surrogates, values above
    U+10FFFF). *)
Definition continuation (b : ascii) : option N :=
  let n := N_of_ascii b in
  if N.leb 128 n && N.ltb n 192 then Some (n - 128)%N else None.

Definition in_range (lo hi cp : N) : option N :=
  if N.leb lo cp && N.leb cp hi then Some cp else None.

Fixpoint decode (s : string) : option (list N) :=
  match s with
  | EmptyString => Some []
  | String b0 r0 =>
      let n0 := N_of_ascii b0 in
      if N.ltb n0 128 then option_map (cons n0) (decode r0)
      else if N.ltb n0 192 then None
      else if N.ltb n0 224 then
        match r0 with
        | String b1 r1 =>
            match continuation b1 with
            | Some c1 =>
                match in_range 128 2047 ((n0 - 192) * 64 + c1)%N with
                | Some cp => option_map (cons cp) (decode r1)
                | None => None
                end
            | None => None
            end
        | _ => None
        end
      else if N.ltb n0 240 then
        match r0 with
        | String b1 (String b2 r2) =>
            match continuation b1, continuation b2 with
            | Some c1, Some c2 =>
                let cp := (((n0 - 224) * 64 + c1) * 64 + c2)%N in
                match in_range 2048 65535 cp, in_range 55296 57343 cp with
                | Some _, None => option_map (cons cp) (decode r2)
                | _, _ => None
                end
            | _, _ => None
            end
        | _ => None
        end
      else if N.ltb n0 248 then
        match r0 with
        | String b1 (String b2 (String b3 r3)) =>
            match continuation b1, continuation b2, continuation b3 with
            | Some c1, Some c2, Some c3 =>
                match in_range 65536 1114111
                        ((((n0 - 240) * 64 + c1) * 64 + c2) * 64 + c3)%N with
                | Some cp => option_map (cons cp) (decode r3)
                | None => None
                end
            | _, _, _ => None
            end
        | _ => None
        end
      else None
  end.

(** The code points [c] with [chr(c).isdigit()], as inclusive ranges
    (Unicode 14.0, the character database of CPython 3.11): the decimal
    digits of every script and the other characters of numeric type
    digit, such as superscripts and circled digits. *)
Definition digit_ranges : list (N * N) :=
  [(48, 57); (178, 179); (185, 185); (1632, 1641); (1776, 1785);
   (1984, 1993); (2406, 2415); (2534, 2543); (2662, 2671); (2790, 2799);
   (2918, 2927); (3046, 3055); (3174, 3183); (3302, 3311); (3430, 3439);
   (3558, 3567); (3664, 3673); (3792, 3801); (3872, 3881); (4160, 4169);
   (4240, 4249); (4969, 4977); (6112, 6121); (6160, 6169); (6470, 6479);
   (6608, 6618); (6784, 6793); (6800, 6809); (6992, 7001); (7088, 7097);
   (7232, 7241); (7248, 7257); (8304, 8304); (8308, 8313); (8320, 8329);
   (9312, 9320); (9332, 9340); (9352, 9360); (9450, 9450); (9461, 9469);
   (9471, 9471); (10102, 10110); (10112, 10120); (10122, 10130);
   (42528, 42537); (43216, 43225); (43264, 43273); (43472, 43481);
   (43504, 43513); (43600, 43609); (44016, 44025); (65296, 65305);
   (66720, 66729); (68160, 68163); (68912, 68921); (69216, 69224);
   (69714, 69722); (69734, 69743); (69872, 69881); (69942, 69951);
   (70096, 70105); (70384, 70393); (70736, 70745); (70864, 70873);
   (71248, 71257); (71360, 71369); (71472, 71481); (71904, 71913);
   (72016, 72025); (72784, 72793); (73040, 73049); (73120, 73129);
   (92768, 92777); (92864, 92873); (93008, 93017); (120782, 120831);
   (123200, 123209); (123632, 123641); (125264, 125273); (127232, 127242);
   (130032, 130041)]%N.

Definition is_digit_cp (cp : N) : bool :=
  existsb (fun r => N.leb (fst r) cp && N.leb cp (snd r)) digit_ranges.

(** [s.isdigit()]: at least one character, and every character a digit. *)
Definition isdigit (s : string) : bool :=
  match decode s with
  | Some (c :: cs) => forallb is_digit_cp (c :: cs)
  | _ => false
  end.

Definition is_space (c : ascii) : bool :=
  let n := nat_of_ascii c in
  Nat.eqb n 32 || (Nat.leb 9 n && Nat.leb n 13) || (Nat.leb 28 n && Nat.leb n 31).

(** Cut [s] at every character satisfying [p]: adjacent cuts give empty
    fields and the result always has at least one field. *)
Fixpoint split_by (p : ascii -> bool) (s : string) : list string :=
  match s with
  | EmptyString => [EmptyString]
  | String c rest =>
      if p c then EmptyString :: split_by p rest
      else match split_by p rest with
           | [] => [String c EmptyString]
           | w :: ws => String c w :: ws
           end
  end.

(** [s.split(sep)] for a one-character separator. *)
Definition split (sep : ascii) (s : string) : list string :=
  split_by (fun c => Ascii.eqb c sep) s.

(** [s.split()]: the white-space-delimited words of ASCII text. *)
Definition words (s : string) : list string :=
  filter truthy_str (split_by is_space s).

End Py.

(* ------------------------------------------------------------------ *)
(** ** Exceptions and the controller monad *)

Inductive exn : Type :=
| LibvirtError (what : string)     (* libvirt.libvirtError *)
| TimeoutExpired                   (* waiting.exceptions.TimeoutExpired *)
| ValueError (msg : string)
| IndexError
| AttributeError
| TypeError
| NotFoundErr                      (* xml.dom.NotFoundErr *)
| PlainException (msg : string)    (* raise Exception(...) *)
| RuntimeError (msg : string).

Inductive result (A : Type) : Type :=
| Ok (a : A)
| Raise (e : exn).
Arguments Ok {A} a.
Arguments Raise {A} e.

(** Is [e] caught by [except waiting.exceptions.TimeoutExpired]? *)
Definition is_timeout (e : exn) : bool :=
  match e with TimeoutExpired => true | _ => false end.

(* ------------------------------------------------------------------ *)
(** ** Python integers as text *)

Module PyInt.

(** [str(z)] for an [int]. *)
Definition str (z : Z) : string := NilZero.string_of_int (Z.to_int z).

Definition is_space := Py.is_space.

Fixpoint lstrip (s : string) : string :=
  match s with
  | String c rest => if is_space c then lstrip rest else s
  | EmptyString => EmptyString
  end.

Fixpoint rstrip (s : string) : string :=
  match s with
  | EmptyString => EmptyString
  | String c rest =>
      match rstrip rest with
      | EmptyString => if is_space c then EmptyString else String c EmptyString
      | r => String c r
      end
  end.

(** [int(s)] for a [str]: surrounding white space is ignored, then an
    optional minus sign and decimal digits are read; anything else is a
    [ValueError] ([None] here).  The [+] sign, the digit-group underscores
    and the non-ASCII digits and white space that [int] also accepts are
    never produced by [str] and are left out: where [parse] gives a
    number, [int] gives the same one. *)
Definition parse (s : string) : option Z :=
  option_map Z.of_int (NilZero.int_of_string (rstrip (lstrip s))).

End PyInt.

(* ------------------------------------------------------------------ *)
(** ** The part of [xml.dom.minidom] the controller uses

    A parsed descriptor is a tree of elements and text nodes.  Node
    identity, which [removeChild] relies on, is recovered where it is
    needed by tagging the children of an element with their positions. *)

Module Dom.

Local Set Warnings "-register-all".

Inductive node : Type :=
| Element (tag : string) (attrs : list (string * string)) (children : list node)
| Text (data : string).

Definition is_element_named (t : string) (n : node) : bool :=
  match n with
  | Element t' _ _ => String.eqb t' t
  | Text _ => false
  end.

Definition is_text (n : node) : bool :=
  match n with Text _ => true | Element _ _ _ => false end.

Definition childNodes (n : node) : list node :=
  match n with Element _ _ cs => cs | Text _ => [] end.

Fixpoint assoc (k : string) (l : list (string * string)) : option string :=
  match l with
  | [] => None
  | (k', v) :: rest => if String.eqb k' k then Some v else assoc k rest
  end.

(** [el.getAttribute(name)]: the empty string when the attribute is absent. *)
Definition getAttribute (name : string) (n : node) : string :=
  match n with
  | Element _ attrs _ =>
      match assoc name attrs with Some v => v | None => EmptyString end
  | Text _ => EmptyString
  end.

(** All elements named [t] in the subtree rooted at [n], [n] included, in
    document order.  This is what [Document.getElementsByTagName] returns
    when [n] is the document element. *)
Fixpoint elements_by_tag (t : string) (n : node) : list node :=
  match n with
  | Text _ => []
  | Element t' _ cs =>
      (if String.eqb t' t then [n] else [])
        ++ flat_map (elements_by_tag t) cs
  end.

(** [el.getElementsByTagName(t)]: the proper descendants of [el] named [t],
    in document order.  minidom builds the list once; it is not live. *)
Definition getElementsByTagName (t : string) (el : node) : list node :=
  flat_map (elements_by_tag t) (childNodes el).

(** The same list, each entry with its identity relative to [el]:
    [Some i] for the child at position [i] of [el], [None] for a deeper
    descendant. *)
Fixpoint tagged_from (t : string) (i : nat) (cs : list node)
  : list (option nat * node) :=
  match cs with
  | [] => []
  | c :: rest =>
      ((if is_element_named t c then [(Some i, c)] else [])
         ++ map (fun d => (None, d))
                (flat_map (elements_by_tag t) (childNodes c)))
        ++ tagged_from t (S i) rest
  end.

Definition getElementsByTagName_ids (t : string) (el : node)
  : list (option nat * node) :=
  tagged_from t 0 (childNodes el).

(** Apply [upd] to the first node of [l] it applies to. *)
Fixpoint update_in (upd : node -> option (result node)) (l : list node)
  : option (result (list node)) :=
  match l with
  | [] => None
  | c :: rest =>
      match upd c with
      | Some (Ok c') => Some (Ok (c' :: rest))
      | Some (Raise e) => Some (Raise e)
      | None =>
          match update_in upd rest with
          | Some (Ok rest') => Some (Ok (c :: rest'))
          | Some (Raise e) => Some (Raise e)
          | None => None
          end
      end
  end.

(** Rewrite the first element named [t] of the subtree (document order,
    root included) with [f].  [None]: there is no such element.  This
    stands for [doc.getElementsByTagName(t)[0]] followed by in-place
    mutation of that element. *)
Fixpoint update_first (t : string) (f : node -> result node) (n : node)
  : option (result node) :=
  match n with
  | Text _ => None
  | Element t' attrs cs =>
      if String.eqb t' t then Some (f n)
      else
        match update_in (update_first t f) cs with
        | Some (Ok cs') => Some (Ok (Element t' attrs cs'))
        | Some (Raise e) => Some (Raise e)
        | None => None
        end
  end.

Definition tag_of (n : node) : option string :=
  match n with Element t _ _ => Some t | Text _ => None end.

(** The data of the first child when it is a text node. *)
Definition head_text (n : node) : option string :=
  match childNodes n with Text s :: _ => Some s | _ => None end.

(** [doc.getElementsByTagName(t)[0]], read-only. *)
Definition first_by_tag (t : string) (doc : node) : option node :=
  hd_error (elements_by_tag t doc).

End Dom.

(* ------------------------------------------------------------------ *)
(** ** The hypervisor session

    The session is the only state there is.  It holds the domains in
    enumeration order, each with its persistent descriptor and with the
    answers its next lease queries will give, the hypervisor's verdict on
    descriptors submitted for definition, the shell's answers to
    inspection commands, and a log of the calls that reached it. *)

Record iface_addr : Type := mk_addr { addr : string; prefix : nat }.

(** One value of the dict returned by [interfaceAddresses]:
    [val['addrs']] (possibly [None]) and [val['hwaddr']]. *)
Record iface : Type := mk_iface { addrs : option (list iface_addr); hwaddr : string }.

(** The dict itself, in iteration order; [None] stands for a Python [None]. *)
Definition interfaces : Type := option (list (string * iface)).

Inductive poll_outcome : Type :=
| Leases (i : interfaces)
| Fault (e : exn).

Record domain : Type := mk_domain {
  dom_name : string;
  dom_uuid : string;
  dom_active : bool;
  dom_xml : Dom.node;
  dom_polls : list poll_outcome
}.

Inductive event : Type :=
| EvCreate (name : string)
| EvDestroy (name : string)
| EvDefineXML (doc : Dom.node)
| EvInterfaceAddresses (name : string)
| EvRunCommand (command : string)
| EvClose.

Record conn : Type := mk_conn {
  domains : list domain;
  accepts : Dom.node -> bool;
  files : list string;                          (* paths that exist *)
  shell : string -> result string;              (* stdout of a command *)
  close_error : option exn;
  trace : list event                            (* oldest call first *)
}.

Definition M (A : Type) : Type := conn -> result A * conn.

Definition ret {A} (a : A) : M A := fun c => (Ok a, c).
Definition raise {A} (e : exn) : M A := fun c => (Raise e, c).
Definition bind {A B} (m : M A) (k : A -> M B) : M B :=
  fun c => match m c with
           | (Ok a, c') => k a c'
           | (Raise e, c') => (Raise e, c')
           end.

(** [try: body except <handles>: handler] *)
Definition try_except {A} (body : M A) (handles : exn -> bool)
    (handler : exn -> M A) : M A :=
  fun c => match body c with
           | (Raise e, c') => if handles e then handler e c' else (Raise e, c')
           | r => r
           end.

Declare Scope ctl_scope.
Delimit Scope ctl_scope with ctl.
Notation "x <- m ;; k" := (bind m (fun x => k))
  (at level 61, m at next level, right associativity) : ctl_scope.
Notation "m ;; k" := (bind m (fun _ => k))
  (at level 61, right associativity) : ctl_scope.
Local Open Scope ctl_scope.

Definition log (ev : event) : M unit :=
  fun c => (Ok tt, mk_conn (domains c) (accepts c) (files c) (shell c)
                           (close_error c) (trace c ++ [ev])).

Definition set_domains (ds : list domain) : M unit :=
  fun c => (Ok tt, mk_conn ds (accepts c) (files c) (shell c)
                           (close_error c) (trace c)).

Module Hv.

Fixpoint find_domain (name : string) (ds : list domain) : option domain :=
  match ds with
  | [] => None
  | d :: rest => if String.eqb (dom_name d) name then Some d
                 else find_domain name rest
  end.

(** Replace the first domain called [name]. *)
Fixpoint put_domain (name : string) (d' : domain) (ds : list domain)
  : list domain :=
  match ds with
  | [] => []
  | d :: rest => if String.eqb (dom_name d) name then d' :: rest
                 else d :: put_domain name d' rest
  end.

Definition no_domain : exn := LibvirtError "Domain not found".

(** A domain handle is the name it was looked up by; every call on a
    handle reaches the live domain of that name. *)
Definition handle : Type := string.

Definition listAllDomains : M (list handle) :=
  fun c => (Ok (map dom_name (domains c)), c).

Definition lookupByName (name : string) : M handle :=
  fun c => match find_domain name (domains c) with
           | Some _ => (Ok name, c)
           | None => (Raise no_domain, c)
           end.

Definition get (h : handle) : M domain :=
  fun c => match find_domain h (domains c) with
           | Some d => (Ok d, c)
           | None => (Raise no_domain, c)
           end.

Definition isActive (h : handle) : M bool :=
  d <- get h ;; ret (dom_active d).

Definition XMLDesc (h : handle) : M Dom.node :=
  d <- get h ;; ret (dom_xml d).

Definition UUIDString (h : handle) : M string :=
  d <- get h ;; ret (dom_uuid d).

Definition set_active (b : bool) (d : domain) : domain :=
  mk_domain (dom_name d) (dom_uuid d) b (dom_xml d) (dom_polls d).

(** [domain.create()]: power on; refused for a running domain. *)
Definition create (h : handle) : M unit :=
  log (EvCreate h) ;;
  d <- get h ;;
  if dom_active d then raise (LibvirtError "domain is already running")
  else fun c => set_domains (put_domain h (set_active true d) (domains c)) c.

(** [domain.destroy()]: forced power off; refused for a stopped domain. *)
Definition destroy (h : handle) : M unit :=
  log (EvDestroy h) ;;
  d <- get h ;;
  if dom_active d
  then fun c => set_domains (put_domain h (set_active false d) (domains c)) c
  else raise (LibvirtError "domain is not running").

(** [domain.interfaceAddresses(SRC_LEASE)]: the next scripted answer; an
    exhausted script answers with an empty dict. *)
Definition interfaceAddresses (h : handle) : M interfaces :=
  log (EvInterfaceAddresses h) ;;
  d <- get h ;;
  match dom_polls d with
  | [] => ret (Some [])
  | o :: rest =>
      (fun c => set_domains
                  (put_domain h (mk_domain (dom_name d) (dom_uuid d)
                                           (dom_active d) (dom_xml d) rest)
                              (domains c)) c) ;;
      match o with
      | Leases i => ret i
      | Fault e => raise e
      end
  end.

(** The domain a descriptor defines: the text of the [name] child of its
    root element. *)
Definition name_of (doc : Dom.node) : option string :=
  match find (Dom.is_element_named "name") (Dom.childNodes doc) with
  | Some el => Dom.head_text el
  | None => None
  end.

(** [conn.defineXML(xml)]: the domain object, or [None] when the
    descriptor is refused.  An accepted descriptor replaces the persistent
    descriptor of the domain it names, or defines a new stopped domain. *)
Definition defineXML (doc : Dom.node) : M (option handle) :=
  log (EvDefineXML doc) ;;
  fun c =>
    match name_of doc with
    | Some n =>
        if accepts c doc then
          match find_domain n (domains c) with
          | Some d =>
              bind (set_domains
                      (put_domain n (mk_domain (dom_name d) (dom_uuid d)
                                               (dom_active d) doc (dom_polls d))
                                  (domains c)))
                   (fun _ => ret (Some n)) c
          | None =>
              bind (set_domains (domains c ++ [mk_domain n "" false doc []]))
                   (fun _ => ret (Some n)) c
          end
        else (Ok None, c)
    | None => (Ok None, c)
    end.

(** [conn.close()] *)
Definition close : M unit :=
  log EvClose ;;
  fun c => match close_error c with
           | Some e => (Raise e, c)
           | None => (Ok tt, c)
           end.

End Hv.

(* ------------------------------------------------------------------ *)
(** ** Collaborators whose code is outside the file *)

Module consts.
Module NodeRoles.

(** Modelled from the spec: the class [consts.NodeRoles] is not part of
    the source file; the specification names the role marker ["master"]. *)
Definition MASTER : string := "master".

(** Modelled from the spec: the class [consts.NodeRoles] is not part of
    the source file; the specification names the role marker ["worker"]. *)
Definition WORKER : string := "worker".

End NodeRoles.
End consts.

Module waiting.

(** [waiting.wait(predicate, timeout_seconds, sleep_seconds,
    expected_exceptions=Exception)]: poll, treating an exception of the
    predicate as "not yet", until the predicate holds or the time is up.
    Time is counted in polls: [polls] is the number of polls that fit in
    the timeout. *)
Fixpoint wait (predicate : M bool) (polls : nat) : M unit :=
  match polls with
  | O => raise TimeoutExpired
  | S k =>
      r <- try_except predicate (fun _ => true) (fun _ => ret false) ;;
      if (r : bool) then ret tt else wait predicate k
  end.

(** Polls at 0, [sleep], 2*[sleep], ... up to [timeout] seconds. *)
Definition polls_within (timeout sleep : nat) : nat := S (timeout / sleep).

End waiting.

Module utils.
(** Modelled from the spec: [utils.run_command] is not part of the source
    file; it runs the command in a shell and returns a tuple whose first
    component is the command's standard output, failing when the command
    fails. *)
Definition run_command (command : string) : M string :=
  log (EvRunCommand command) ;;
  fun c => (shell c command, c).
End utils.

Module os_path.
Definition exists_ (p : string) : M bool :=
  fun c => (Ok (existsb (String.eqb p) (files c)), c).
End os_path.

(* ------------------------------------------------------------------ *)
(** ** [class LibvirtController] *)

Module LibvirtController.

Import consts.

(** [__del__]: [with suppress(Exception): self.libvirt_connection.close()] *)
Definition __del__ : M unit :=
  try_except Hv.close (fun _ => true) (fun _ => ret tt).

(** Truthiness of [name_filter], which is [None] or a [str]. *)
Definition truthy_filter (name_filter : option string) : bool :=
  match name_filter with
  | None => false
  | Some s => Py.truthy_str s
  end.

Definition filter_text (name_filter : option string) : string :=
  match name_filter with Some s => s | None => EmptyString end.

(** The [for domain in domains] loop of [list_nodes_with_name_filter];
    [nodes] is the list built so far. *)
Fixpoint list_nodes_loop (name_filter : option string)
    (domains : list Hv.handle) (nodes : list Hv.handle) : list Hv.handle :=
  match domains with
  | [] => nodes
  | domain :: rest =>
      let domain_name := domain in
      if truthy_filter name_filter
         && negb (Py.contains (filter_text name_filter) domain_name)
      then list_nodes_loop name_filter rest nodes            (* continue *)
      else if Py.contains NodeRoles.MASTER domain_name
              || Py.contains NodeRoles.WORKER domain_name
      then list_nodes_loop name_filter rest (nodes ++ [domain])
      else list_nodes_loop name_filter rest nodes
  end.

Definition list_nodes_with_name_filter (name_filter : option string)
  : M (list Hv.handle) :=
  domains <- Hv.listAllDomains ;;
  ret (list_nodes_loop name_filter domains []).

Definition list_nodes : M (list Hv.handle) :=
  list_nodes_with_name_filter None.

Definition shutdown_node (node_name : string) : M unit :=
  node <- Hv.lookupByName node_name ;;
  active <- Hv.isActive node ;;
  if (active : bool) then Hv.destroy node else ret tt.

Fixpoint for_each {A} (f : A -> M unit) (l : list A) : M unit :=
  match l with
  | [] => ret tt
  | x :: rest => f x ;; for_each f rest
  end.

Definition shutdown_all_nodes : M unit :=
  nodes <- list_nodes ;;
  for_each shutdown_node nodes.

(** The loops of [_get_domain_ips_and_macs], appending to [ips] and [macs]. *)
Fixpoint addrs_loop (hw : string) (l : list iface_addr)
    (acc : list string * list string) : list string * list string :=
  match l with
  | [] => acc
  | a :: rest => addrs_loop hw rest (fst acc ++ [addr a], snd acc ++ [hw])
  end.

Fixpoint interfaces_loop (items : list (string * iface))
    (acc : list string * list string) : list string * list string :=
  match items with
  | [] => acc
  | (_, val) :: rest =>
      match addrs val with
      | Some (a :: l) => interfaces_loop rest (addrs_loop (hwaddr val) (a :: l) acc)
      | _ => interfaces_loop rest acc
      end
  end.

(** The part of [_get_domain_ips_and_macs] after the hypervisor's answer. *)
Definition ips_and_macs_of (i : interfaces) : list string * list string :=
  match i with
  | Some (item :: items) => interfaces_loop (item :: items) ([], [])
  | _ => ([], [])
  end.

Definition _get_domain_ips_and_macs (domain : Hv.handle)
  : M (list string * list string) :=
  i <- Hv.interfaceAddresses domain ;;
  ret (ips_and_macs_of i).

Definition get_node_ips_and_macs (node_name : string)
  : M (list string * list string) :=
  node <- Hv.lookupByName node_name ;;
  _get_domain_ips_and_macs node.

Definition _get_domain_ips (domain : Hv.handle) : M (list string) :=
  r <- _get_domain_ips_and_macs domain ;;
  ret (fst r).

(** [lambda: len(self._get_domain_ips(domain)) > 0] *)
Definition has_ips (domain : Hv.handle) : M bool :=
  ips <- _get_domain_ips domain ;; ret (Nat.ltb 0 (List.length ips)).

Definition _wait_till_domain_has_ips_for (domain : Hv.handle)
    (timeout interval : nat) : M unit :=
  waiting.wait (has_ips domain) (waiting.polls_within timeout interval).

(** With the default arguments [timeout=360, interval=5]. *)
Definition _wait_till_domain_has_ips (domain : Hv.handle) : M unit :=
  _wait_till_domain_has_ips_for domain 360 5.

Definition start_node (node_name : string) : M unit :=
  node <- Hv.lookupByName node_name ;;
  active <- Hv.isActive node ;;
  if negb active then
    try_except
      (Hv.create node ;; _wait_till_domain_has_ips node)
      is_timeout
      (fun _ =>
         shutdown_node node_name ;;
         Hv.create node ;;
         _wait_till_domain_has_ips node)
  else ret tt.

Definition start_all_nodes : M (list Hv.handle) :=
  nodes <- list_nodes ;;
  for_each start_node nodes ;;
  ret nodes.

Definition restart_node (node_name : string) : M unit :=
  shutdown_node node_name ;;
  start_node node_name.

Definition is_active (node_name : string) : M bool :=
  node <- Hv.lookupByName node_name ;;
  Hv.isActive node.

Definition get_host_id (node_name : string) : M string :=
  dom <- Hv.lookupByName node_name ;;
  Hv.UUIDString dom.

Definition format_disk (disk_path : string) : M unit :=
  present <- os_path.exists_ disk_path ;;
  if negb present then ret tt
  else
    let command :=
      ("qemu-img info " ++ disk_path ++ " | grep 'virtual size'")%string in
    output0 <- utils.run_command command ;;
    match nth_error (Py.split " " output0) 2 with
    | None => raise IndexError
    | Some image_size =>
        (* Fix for libvirt 6.0.0 *)
        let image_size :=
          if Py.isdigit image_size then (image_size ++ "G")%string
          else image_size in
        let command :=
          ("qemu-img create -f qcow2 " ++ disk_path ++ " " ++ image_size)%string in
        utils.run_command command ;;
        ret tt
    end.

(** [minidom.parseString(dom.XMLDesc(0))].  Serialising a tree, handing
    the text to the hypervisor and parsing what it gives back are taken
    to preserve the tree: descriptors live in the session as trees. *)
Definition _get_xml (node_name : string) : M Dom.node :=
  dom <- Hv.lookupByName node_name ;;
  Hv.XMLDesc dom.

Definition boot_devices : list string := ["cdrom"; "hd"].

Definition known_boot_device (dev : string) : bool :=
  existsb (String.eqb dev) boot_devices.

Definition number {A} (l : list A) : list (nat * A) :=
  combine (seq 0 (List.length l)) l.

Definition is_child (i : nat) (kids : list (nat * Dom.node)) : bool :=
  existsb (fun k => Nat.eqb (fst k) i) kids.

Definition drop_child (i : nat) (kids : list (nat * Dom.node))
  : list (nat * Dom.node) :=
  filter (fun k => negb (Nat.eqb (fst k) i)) kids.

(** The loop [for el in os_element.getElementsByTagName('boot')]; [kids]
    are the current children of [os_element], each with its identity. *)
Fixpoint boot_loop (els : list (option nat * Dom.node))
    (kids : list (nat * Dom.node)) : result (list (nat * Dom.node)) :=
  match els with
  | [] => Ok kids
  | (id, el) :: rest =>
      let dev := Dom.getAttribute "dev" el in
      if known_boot_device dev then
        (* os_element.removeChild(el) *)
        match id with
        | Some i => if is_child i kids then boot_loop rest (drop_child i kids)
                    else Raise NotFoundErr
        | None => Raise NotFoundErr
        end
      else Raise (ValueError ("Found unexpected boot device: '" ++ dev ++ "'")%string)
  end.

Definition new_boot (dev : string) : Dom.node :=
  Dom.Element "boot" [("dev", dev)] [].

(** What [set_boot_order] does to [os_element]. *)
Definition reorder_boot (cd_first : bool) (os_element : Dom.node)
  : result Dom.node :=
  match os_element with
  | Dom.Text _ => Raise AttributeError
  | Dom.Element t attrs cs =>
      match boot_loop (Dom.getElementsByTagName_ids "boot" os_element)
                      (number cs) with
      | Raise e => Raise e
      | Ok kids =>
          let first := new_boot (if cd_first then "cdrom" else "hd") in
          let second := new_boot (if cd_first then "hd" else "cdrom") in
          Ok (Dom.Element t attrs (map snd kids ++ [first] ++ [second]))
      end
  end.

(** Lift a rewrite of the first element named [t] into the monad;
    [xml.getElementsByTagName(t)[0]] fails with [IndexError] when there is
    no such element. *)
Definition with_first (t : string) (f : Dom.node -> result Dom.node)
    (xml : Dom.node) : M Dom.node :=
  match Dom.update_first t f xml with
  | None => raise IndexError
  | Some (Raise e) => raise e
  | Some (Ok xml') => ret xml'
  end.

Definition set_boot_order (node_name : string) (cd_first : bool) : M unit :=
  node <- Hv.lookupByName node_name ;;
  xml <- Hv.XMLDesc node ;;
  xml <- with_first "os" (reorder_boot cd_first) xml ;;
  dom <- Hv.defineXML xml ;;
  match dom with
  | None => raise (PlainException "Failed to set boot order")
  | Some _ => ret tt
  end.

(** [int(element.firstChild.nodeValue)] *)
Definition int_of_first_child (el : Dom.node) : result Z :=
  match Dom.childNodes el with
  | [] => Raise AttributeError            (* firstChild is None *)
  | Dom.Element _ _ _ :: _ => Raise TypeError   (* nodeValue is None *)
  | Dom.Text s :: _ =>
      match PyInt.parse s with
      | Some z => Ok z
      | None => Raise (ValueError "invalid literal for int()")
      end
  end.

Definition read_first (t : string) (xml : Dom.node) : M Z :=
  match Dom.first_by_tag t xml with
  | None => raise IndexError
  | Some el => fun c => (int_of_first_child el, c)
  end.

Definition get_cpu_cores (node_name : string) : M Z :=
  xml <- _get_xml node_name ;;
  read_first "vcpu" xml.

Definition get_ram_kib (node_name : string) : M Z :=
  xml <- _get_xml node_name ;;
  read_first "currentMemory" xml.

Fixpoint drop_text (l : list Dom.node) : list Dom.node :=
  match l with
  | Dom.Text _ :: rest => drop_text rest
  | _ => l
  end.

(** [element.firstChild.replaceWholeText(ram_kib)] for an [int]: the text
    nodes that follow the first child are removed; a falsy value removes
    the first child too, any other value becomes its data. *)
Definition replace_first_text (ram_kib : Z) (el : Dom.node) : result Dom.node :=
  match el with
  | Dom.Element t attrs (Dom.Text _ :: rest) =>
      if Z.eqb ram_kib 0 then Ok (Dom.Element t attrs (drop_text rest))
      else Ok (Dom.Element t attrs (Dom.Text (PyInt.str ram_kib) :: drop_text rest))
  | _ => Raise AttributeError
  end.

Definition set_ram_kib (node_name : string) (ram_kib : Z) : M unit :=
  xml <- _get_xml node_name ;;
  xml <- with_first "memory" (replace_first_text ram_kib) xml ;;
  xml <- with_first "currentMemory" (replace_first_text ram_kib) xml ;;
  dom <- Hv.defineXML xml ;;
  match dom with
  | None => raise (PlainException "Failed to set memory")
  | Some _ => ret tt
  end.

End LibvirtController.

(* ------------------------------------------------------------------ *)
(** * The controller as a script

    To say where an exception goes, the control flow of every method is
    also written down as data: the calls that leave the file, the [raise]
    statements and the [try] blocks, in the order of the source.  A script
    runs against any hypervisor, that is, against any answer, normal or
    exceptional, to each call. *)

Unset Implicit Arguments.

Module Api.

Definition network : Type := string.                (* a network handle *)
Definition lease : Type := list (string * string).  (* one dict of DHCPLeases() *)

(** The calls a method makes out of the file. *)
Inductive call : Type -> Type :=
| open_ (uri : string) : call unit                     (* libvirt.open *)
| close : call unit
| listAllDomains : call (list Hv.handle)
| listAllNetworks : call (list network)
| networkLookupByName (network_name : string) : call network
| DHCPLeases (net : network) : call (list lease)
| lookupByName (name : string) : call Hv.handle
| isActive (h : Hv.handle) : call bool
| create (h : Hv.handle) : call unit
| destroy (h : Hv.handle) : call unit
| interfaceAddresses (h : Hv.handle) : call interfaces
| XMLDesc (h : Hv.handle) : call Dom.node
| UUIDString (h : Hv.handle) : call string
| setVcpusFlags (h : Hv.handle) (core_count : Z) : call unit
| defineXML (doc : Dom.node) : call (option Hv.handle)
| path_exists (p : string) : call bool                 (* os.path.exists *)
| run_command (command : string) : call string         (* utils.run_command *)
| format_node_disk (node_name : string) : call unit.   (* self.format_node_disk,
                                                          defined outside the file *)

End Api.

Module Script.

(** The [except] clauses of the file. *)
Inductive catch : Type :=
| CatchException         (* suppress(Exception), expected_exceptions=Exception *)
| CatchTimeoutExpired.   (* except waiting.exceptions.TimeoutExpired *)

Definition handles (k : catch) : exn -> bool :=
  match k with
  | CatchException => fun _ => true
  | CatchTimeoutExpired => is_timeout
  end.

Inductive script (A : Type) : Type :=
| Ret (a : A)
| Throw (e : exn)
| Call (X : Type) (p : Api.call X) (rest : X -> script A)
| Try (X : Type) (body : script X) (k : catch) (handler : exn -> script X)
      (rest : X -> script A).
Arguments Ret {A} a.
Arguments Throw {A} e.
Arguments Call {A X} p rest.
Arguments Try {A X} body k handler rest.

(** A hypervisor (with the shell and the file system): an answer to every
    call, in every session. *)
Definition hypervisor : Type := forall X, Api.call X -> M X.

Fixpoint run (hv : hypervisor) (A : Type) (s : script A) {struct s} : M A :=
  match s with
  | Ret a => ret a
  | Throw e => raise e
  | Call p rest => bind (hv _ p) (fun x => run hv A (rest x))
  | Try body k handler rest =>
      bind (try_except (run hv _ body) (handles k)
                       (fun e => run hv _ (handler e)))
           (fun x => run hv A (rest x))
  end.
Arguments run hv {A} s.

(** Where a statement stands: in the body of a [try] with clause [k], or
    in the handler of that clause.  A handler is not guarded by its own
    clause. *)
Inductive frame : Type :=
| InTry (k : catch)
| InHandler (k : catch).

(** What raised: a call out of the file, or the code itself, by a [raise]
    statement, a failing expression or the timeout of [waiting.wait]. *)
Inductive origin : Type :=
| Called (X : Type) (p : Api.call X)
| Raised.
Arguments Called {X} p.

Definition from_close (o : origin) : bool :=
  match o with Called Api.close => true | _ => false end.

Definition from_lease_query (o : origin) : bool :=
  match o with Called (Api.interfaceAddresses _) => true | _ => false end.

Definition from_power_on (o : origin) : bool :=
  match o with Called (Api.create _) => true | _ => false end.

Definition from_code (o : origin) : bool :=
  match o with Raised => true | _ => false end.

(** One exception raised while a script runs: by what, what, in which
    session, and the frames around the place, innermost first. *)
Definition raising : Type := origin * exn * conn * list frame.

Definition inside (f : frame) (r : raising) : raising :=
  match r with (o, e, c, under) => (o, e, c, under ++ [f]) end.

(** Every exception raised during the run of [s] from [c], in order of
    time, caught or not. *)
Fixpoint raised (hv : hypervisor) (A : Type) (s : script A) (c : conn)
    {struct s} : list raising :=
  match s with
  | Ret _ => []
  | Throw e => [(Raised, e, c, [])]
  | Call p rest =>
      match hv _ p c with
      | (Ok x, c1) => raised hv A (rest x) c1
      | (Raise e, c1) => [(Called p, e, c1, [])]
      end
  | Try body k handler rest =>
      map (inside (InTry k)) (raised hv _ body c)
      ++ match run hv body c with
         | (Ok x, c1) => raised hv A (rest x) c1
         | (Raise e, c1) =>
             if handles k e then
               map (inside (InHandler k)) (raised hv _ (handler e) c1)
               ++ match run hv (handler e) c1 with
                  | (Ok x, c2) => raised hv A (rest x) c2
                  | (Raise _, _) => []
                  end
             else []
         end
  end.
Arguments raised hv {A} s c.

Fixpoint sbind {A B : Type} (s : script A) (f : A -> script B) : script B :=
  match s with
  | Ret a => f a
  | Throw e => Throw e
  | Call p rest => Call p (fun x => sbind (rest x) f)
  | Try body k handler rest => Try body k handler (fun x => sbind (rest x) f)
  end.

Definition call {X : Type} (p : Api.call X) : script X := Call p Ret.

Definition try_ {A : Type} (body : script A) (k : catch)
    (handler : exn -> script A) : script A :=
  Try body k handler Ret.

Definition lift {A : Type} (r : result A) : script A :=
  match r with Ok a => Ret a | Raise e => Throw e end.

End Script.
Import Script.

Declare Scope script_scope.
Delimit Scope script_scope with script.
Notation "x <- m ;; k" := (sbind m (fun x => k))
  (at level 61, m at next level, right associativity) : script_scope.
Notation "m ;; k" := (sbind m (fun _ => k))
  (at level 61, right associativity) : script_scope.

(** The methods, statement by statement as in [LibvirtController] above. *)
Module Scripted.
Import consts.
Local Open Scope script_scope.

Definition __init__ : script unit :=
  call (Api.open_ "qemu:///system").

Definition __del__ : script unit :=
  try_ (call Api.close) CatchException (fun _ => Ret tt).

Definition list_nodes_with_name_filter (name_filter : option string)
  : script (list Hv.handle) :=
  domains <- call Api.listAllDomains ;;
  Ret (LibvirtController.list_nodes_loop name_filter domains []).

Definition list_nodes : script (list Hv.handle) :=
  list_nodes_with_name_filter None.

Definition list_networks : script (list Api.network) :=
  call Api.listAllNetworks.

Definition list_leases (network_name : string) : script (list Api.lease) :=
  net <- call (Api.networkLookupByName network_name) ;;
  call (Api.DHCPLeases net).

Definition shutdown_node (node_name : string) : script unit :=
  node <- call (Api.lookupByName node_name) ;;
  active <- call (Api.isActive node) ;;
  if (active : bool) then call (Api.destroy node) else Ret tt.

Fixpoint for_each {A : Type} (f : A -> script unit) (l : list A)
  : script unit :=
  match l with
  | [] => Ret tt
  | x :: rest => f x ;; for_each f rest
  end.

Definition shutdown_all_nodes : script unit :=
  nodes <- list_nodes ;;
  for_each shutdown_node nodes.

Definition _get_domain_ips_and_macs (domain : Hv.handle)
  : script (list string * list string) :=
  i <- call (Api.interfaceAddresses domain) ;;
  Ret (LibvirtController.ips_and_macs_of i).

Definition get_node_ips_and_macs (node_name : string)
  : script (list string * list string) :=
  node <- call (Api.lookupByName node_name) ;;
  _get_domain_ips_and_macs node.

Definition _get_domain_ips (domain : Hv.handle) : script (list string) :=
  r <- _get_domain_ips_and_macs domain ;;
  Ret (fst r).

Definition has_ips (domain : Hv.handle) : script bool :=
  ips <- _get_domain_ips domain ;; Ret (Nat.ltb 0 (List.length ips)).

(** [waiting.wait] with [expected_exceptions=Exception]. *)
Fixpoint wait (predicate : script bool) (polls : nat) : script unit :=
  match polls with
  | O => Throw TimeoutExpired
  | S k =>
      r <- try_ predicate CatchException (fun _ => Ret false) ;;
      if (r : bool) then Ret tt else wait predicate k
  end.

Definition _wait_till_domain_has_ips_for (domain : Hv.handle)
    (timeout interval : nat) : script unit :=
  wait (has_ips domain) (waiting.polls_within timeout interval).

Definition _wait_till_domain_has_ips (domain : Hv.handle) : script unit :=
  _wait_till_domain_has_ips_for domain 360 5.

Definition start_node (node_name : string) : script unit :=
  node <- call (Api.lookupByName node_name) ;;
  active <- call (Api.isActive node) ;;
  if negb active then
    try_
      (call (Api.create node) ;; _wait_till_domain_has_ips node)
      CatchTimeoutExpired
      (fun _ =>
         shutdown_node node_name ;;
         call (Api.create node) ;;
         _wait_till_domain_has_ips node)
  else Ret tt.

Definition start_all_nodes : script (list Hv.handle) :=
  nodes <- list_nodes ;;
  for_each start_node nodes ;;
  Ret nodes.

Definition format_disk (disk_path : string) : script unit :=
  present <- call (Api.path_exists disk_path) ;;
  if negb present then Ret tt
  else
    let command :=
      ("qemu-img info " ++ disk_path ++ " | grep 'virtual size'")%string in
    output0 <- call (Api.run_command command) ;;
    match nth_error (Py.split " " output0) 2 with
    | None => Throw IndexError
    | Some image_size =>
        let image_size :=
          if Py.isdigit image_size then (image_size ++ "G")%string
          else image_size in
        let command :=
          ("qemu-img create -f qcow2 " ++ disk_path ++ " " ++ image_size)%string in
        call (Api.run_command command) ;;
        Ret tt
    end.

Definition restart_node (node_name : string) : script unit :=
  shutdown_node node_name ;;
  start_node node_name.

Definition format_all_node_disks : script unit :=
  nodes <- list_nodes ;;
  for_each (fun node => call (Api.format_node_disk node)) nodes.

Definition destroy_all_nodes : script unit :=
  shutdown_all_nodes ;;
  format_all_node_disks.

Definition prepare_nodes : script unit :=
  destroy_all_nodes.

Definition is_active (node_name : string) : script bool :=
  node <- call (Api.lookupByName node_name) ;;
  call (Api.isActive node).

Definition get_host_id (node_name : string) : script string :=
  dom <- call (Api.lookupByName node_name) ;;
  call (Api.UUIDString dom).

Definition _get_xml (node_name : string) : script Dom.node :=
  dom <- call (Api.lookupByName node_name) ;;
  call (Api.XMLDesc dom).

Definition with_first (t : string) (f : Dom.node -> result Dom.node)
    (xml : Dom.node) : script Dom.node :=
  match Dom.update_first t f xml with
  | None => Throw IndexError
  | Some r => lift r
  end.

Definition set_boot_order (node_name : string) (cd_first : bool)
  : script unit :=
  node <- call (Api.lookupByName node_name) ;;
  xml <- call (Api.XMLDesc node) ;;
  xml <- with_first "os" (LibvirtController.reorder_boot cd_first) xml ;;
  dom <- call (Api.defineXML xml) ;;
  match dom with
  | None => Throw (PlainException "Failed to set boot order")
  | Some _ => Ret tt
  end.

Definition read_first (t : string) (xml : Dom.node) : script Z :=
  match Dom.first_by_tag t xml with
  | None => Throw IndexError
  | Some el => lift (LibvirtController.int_of_first_child el)
  end.

Definition get_cpu_cores (node_name : string) : script Z :=
  xml <- _get_xml node_name ;;
  read_first "vcpu" xml.

Definition set_cpu_cores (node_name : string) (core_count : Z)
  : script unit :=
  dom <- call (Api.lookupByName node_name) ;;
  call (Api.setVcpusFlags dom core_count).

Definition get_ram_kib (node_name : string) : script Z :=
  xml <- _get_xml node_name ;;
  read_first "currentMemory" xml.

Definition set_ram_kib (node_name : string) (ram_kib : Z) : script unit :=
  xml <- _get_xml node_name ;;
  xml <- with_first "memory" (LibvirtController.replace_first_text ram_kib) xml ;;
  xml <- with_first "currentMemory"
           (LibvirtController.replace_first_text ram_kib) xml ;;
  dom <- call (Api.defineXML xml) ;;
  match dom with
  | None => Throw (PlainException "Failed to set memory")
  | Some _ => Ret tt
  end.

End Scripted.

(** The methods of the class, each with its arguments. *)
Module Op.

Inductive operation : Type -> Type :=
| __init__ : operation unit
| __del__ : operation unit
| list_nodes : operation (list Hv.handle)
| list_nodes_with_name_filter (name_filter : option string)
  : operation (list Hv.handle)
| list_networks : operation (list Api.network)
| list_leases (network_name : string) : operation (list Api.lease)
| shutdown_node (node_name : string) : operation unit
| shutdown_all_nodes : operation unit
| start_node (node_name : string) : operation unit
| start_all_nodes : operation (list Hv.handle)
| format_disk (disk_path : string) : operation unit
| restart_node (node_name : string) : operation unit
| format_all_node_disks : operation unit
| prepare_nodes : operation unit
| destroy_all_nodes : operation unit
| is_active (node_name : string) : operation bool
| get_node_ips_and_macs (node_name : string)
  : operation (list string * list string)
| _get_domain_ips_and_macs (domain : Hv.handle)
  : operation (list string * list string)
| _get_domain_ips (domain : Hv.handle) : operation (list string)
| _wait_till_domain_has_ips (domain : Hv.handle) (timeout interval : nat)
  : operation unit
| set_boot_order (node_name : string) (cd_first : bool) : operation unit
| get_host_id (node_name : string) : operation string
| get_cpu_cores (node_name : string) : operation Z
| set_cpu_cores (node_name : string) (core_count : Z) : operation unit
| get_ram_kib (node_name : string) : operation Z
| set_ram_kib (node_name : string) (ram_kib : Z) : operation unit
| _get_xml (node_name : string) : operation Dom.node.

Definition script_of {A : Type} (op : operation A) : script A :=
  match op in operation A return script A with
  | __init__ => Scripted.__init__
  | __del__ => Scripted.__del__
  | list_nodes => Scripted.list_nodes
  | list_nodes_with_name_filter f => Scripted.list_nodes_with_name_filter f
  | list_networks => Scripted.list_networks
  | list_leases n => Scripted.list_leases n
  | shutdown_node n => Scripted.shutdown_node n
  | shutdown_all_nodes => Scripted.shutdown_all_nodes
  | start_node n => Scripted.start_node n
  | start_all_nodes => Scripted.start_all_nodes
  | format_disk p => Scripted.format_disk p
  | restart_node n => Scripted.restart_node n
  | format_all_node_disks => Scripted.format_all_node_disks
  | prepare_nodes => Scripted.prepare_nodes
  | destroy_all_nodes => Scripted.destroy_all_nodes
  | is_active n => Scripted.is_active n
  | get_node_ips_and_macs n => Scripted.get_node_ips_and_macs n
  | _get_domain_ips_and_macs d => Scripted._get_domain_ips_and_macs d
  | _get_domain_ips d => Scripted._get_domain_ips d
  | _wait_till_domain_has_ips d t i =>
      Scripted._wait_till_domain_has_ips_for d t i
  | set_boot_order n cd => Scripted.set_boot_order n cd
  | get_host_id n => Scripted.get_host_id n
  | get_cpu_cores n => Scripted.get_cpu_cores n
  | set_cpu_cores n k => Scripted.set_cpu_cores n k
  | get_ram_kib n => Scripted.get_ram_kib n
  | set_ram_kib n k => Scripted.set_ram_kib n k
  | _get_xml n => Scripted._get_xml n
  end.

(** The same method in the monad of the session model, where the model
    has it: networks, virtual CPU flags, the opening of the session and
    the inherited [format_node_disk] are outside the model. *)
Definition in_session {A : Type} (op : operation A) : option (M A) :=
  match op in operation A return option (M A) with
  | __del__ => Some LibvirtController.__del__
  | list_nodes => Some LibvirtController.list_nodes
  | list_nodes_with_name_filter f =>
      Some (LibvirtController.list_nodes_with_name_filter f)
  | shutdown_node n => Some (LibvirtController.shutdown_node n)
  | shutdown_all_nodes => Some LibvirtController.shutdown_all_nodes
  | start_node n => Some (LibvirtController.start_node n)
  | start_all_nodes => Some LibvirtController.start_all_nodes
  | format_disk p => Some (LibvirtController.format_disk p)
  | restart_node n => Some (LibvirtController.restart_node n)
  | is_active n => Some (LibvirtController.is_active n)
  | get_node_ips_and_macs n => Some (LibvirtController.get_node_ips_and_macs n)
  | _get_domain_ips_and_macs d =>
      Some (LibvirtController._get_domain_ips_and_macs d)
  | _get_domain_ips d => Some (LibvirtController._get_domain_ips d)
  | _wait_till_domain_has_ips d t i =>
      Some (LibvirtController._wait_till_domain_has_ips_for d t i)
  | set_boot_order n cd => Some (LibvirtController.set_boot_order n cd)
  | get_host_id n => Some (LibvirtController.get_host_id n)
  | get_cpu_cores n => Some (LibvirtController.get_cpu_cores n)
  | get_ram_kib n => Some (LibvirtController.get_ram_kib n)
  | set_ram_kib n k => Some (LibvirtController.set_ram_kib n k)
  | _get_xml n => Some (LibvirtController._get_xml n)
  | __init__ | list_networks | list_leases _ | format_all_node_disks
  | prepare_nodes | destroy_all_nodes | set_cpu_cores _ _ => None
  end.

(** The teardown. *)
Definition is_teardown {A : Type} (op : operation A) : bool :=
  match op with __del__ => true | _ => false end.

(** The methods that power a node on: they hold the one [try] of the file
    that has an [except] clause. *)
Definition starts {A : Type} (op : operation A) : bool :=
  match op with
  | start_node _ | start_all_nodes | restart_node _ => true
  | _ => false
  end.

(** The wait for an address itself. *)
Definition waits {A : Type} (op : operation A) : bool :=
  match op with
  | _wait_till_domain_has_ips _ _ _ => true
  | _ => false
  end.

End Op.

(* ------------------------------------------------------------------ *)
(** * Vocabulary of the properties *)

Unset Implicit Arguments.

Module Listing.
Import LibvirtController consts.
Local Open Scope bool_scope.

(** A name carries a role marker. *)
Definition has_role (name : string) : bool :=
  Py.contains NodeRoles.MASTER name || Py.contains NodeRoles.WORKER name.

(** The test one domain passes to be listed under [name_filter]. *)
Definition listed (name_filter : option string) (name : string) : bool :=
  negb (truthy_filter name_filter
        && negb (Py.contains (filter_text name_filter) name))
  && has_role name.

End Listing.

Module Leased.

Definition addrs_of (val : iface) : list iface_addr :=
  match addrs val with Some l => l | None => [] end.

Definition items_of (i : interfaces) : list (string * iface) :=
  match i with Some l => l | None => [] end.

(** Every leased address with the MAC of the interface it is leased on,
    interfaces in dict order and addresses in list order. *)
Definition leased_pairs (i : interfaces) : list (string * string) :=
  flat_map (fun item => map (fun a => (addr a, hwaddr (snd item)))
                            (addrs_of (snd item)))
           (items_of i).

(** The hypervisor's next answer to a lease query on [d]. *)
Definition next_answer (d : domain) : poll_outcome :=
  match dom_polls d with
  | [] => Leases (Some [])
  | o :: _ => o
  end.

End Leased.

Module Boot.
Import LibvirtController.

Definition is_boot : Dom.node -> bool := Dom.is_element_named "boot".

Definition dev : Dom.node -> string := Dom.getAttribute "dev".

(** Device kinds of all the boot elements below [os], document order. *)
Definition kinds (os : Dom.node) : list string :=
  map dev (Dom.getElementsByTagName "boot" os).

(** Every boot element below [os] is of kind [cdrom] or [hd]. *)
Definition all_known (os : Dom.node) : bool :=
  forallb known_boot_device (kinds os).

(** The boot elements below [os] are all children of [os]. *)
Definition flat (os : Dom.node) : bool :=
  forallb (fun c => match Dom.getElementsByTagName "boot" c with
                    | [] => true
                    | _ => false
                    end)
          (Dom.childNodes os).

(** The children of [os] that are not boot elements. *)
Definition others (os : Dom.node) : list Dom.node :=
  filter (fun c => negb (is_boot c)) (Dom.childNodes os).

Definition order (cd_first : bool) : list string :=
  if cd_first then ["cdrom"; "hd"] else ["hd"; "cdrom"].

End Boot.

Module Calls.

Definition is_power_on (name : string) (ev : event) : bool :=
  match ev with EvCreate n => String.eqb n name | _ => false end.

Definition is_power_off (name : string) (ev : event) : bool :=
  match ev with EvDestroy n => String.eqb n name | _ => false end.

Definition is_lease_query (ev : event) : bool :=
  match ev with EvInterfaceAddresses _ => true | _ => false end.

Definition is_define (ev : event) : bool :=
  match ev with EvDefineXML _ => true | _ => false end.

(** How many power-on calls for [name] a log holds. *)
Definition power_ons (name : string) (tr : list event) : nat :=
  List.length (filter (is_power_on name) tr).

(** How many forced power-off calls for [name] a log holds. *)
Definition power_offs (name : string) (tr : list event) : nat :=
  List.length (filter (is_power_off name) tr).

(** The active-state of [name] in a session, if the domain exists. *)
Definition power_state (name : string) (c : conn) : option bool :=
  option_map dom_active (Hv.find_domain name (domains c)).

(** The persistent descriptor of [name] in a session. *)
Definition descriptor (name : string) (c : conn) : option Dom.node :=
  option_map dom_xml (Hv.find_domain name (domains c)).

End Calls.

Module Rewrite.

(** What [update_first] does, in terms of the first element named [t]. *)
Definition update_spec {A} (t : string) (f : Dom.node -> result Dom.node)
    (found : list Dom.node) (out : option (result A))
    (found' : A -> list Dom.node) : Prop :=
  match hd_error found with
  | None => out = None
  | Some el =>
      match f el with
      | Raise e => out = Some (Raise e)
      | Ok el' =>
          exists a, out = Some (Ok a)
                    /\ (Dom.is_element_named t el' = true ->
                        hd_error (found' a) = Some el')
      end
  end.

(** A child of an element together with its identity. *)
Definition with_id (k : nat * Dom.node) : option nat * Dom.node :=
  (Some (fst k), snd k).

(** [f] returns an element of the same name. *)
Definition keeps_tag (f : Dom.node -> result Dom.node) : Prop :=
  forall el el', f el = Ok el' -> Dom.tag_of el' = Dom.tag_of el.

(** The text the first [name] element of a list of children starts with. *)
Definition named_head (cs : list Dom.node) : option string :=
  match find (Dom.is_element_named "name") cs with
  | Some el => Dom.head_text el
  | None => None
  end.

(** [f] neither adds nor removes elements named [t'] below the element
    it rewrites. *)
Definition keeps_elements (t' : string) (f : Dom.node -> result Dom.node)
  : Prop :=
  forall el el', f el = Ok el' ->
    flat_map (Dom.elements_by_tag t') (Dom.childNodes el')
    = flat_map (Dom.elements_by_tag t') (Dom.childNodes el).

End Rewrite.
Import Rewrite.

Module BootOrder.

(** The [os] element after a successful reordering. *)
Definition reordered (cd_first : bool) (os : Dom.node) : Dom.node :=
  match os with
  | Dom.Element t attrs _ =>
      Dom.Element t attrs
        (Boot.others os ++ map LibvirtController.new_boot (Boot.order cd_first))
  | Dom.Text _ => os
  end.

End BootOrder.

(** Concrete sessions on which the properties are exercised. *)
Module Propagation.

(** The answer of the session model to a call, where it has one. *)
Definition answer {X : Type} (p : Api.call X) : option (M X) :=
  match p in Api.call X return option (M X) with
  | Api.close => Some Hv.close
  | Api.listAllDomains => Some Hv.listAllDomains
  | Api.lookupByName name => Some (Hv.lookupByName name)
  | Api.isActive h => Some (Hv.isActive h)
  | Api.create h => Some (Hv.create h)
  | Api.destroy h => Some (Hv.destroy h)
  | Api.interfaceAddresses h => Some (Hv.interfaceAddresses h)
  | Api.XMLDesc h => Some (Hv.XMLDesc h)
  | Api.UUIDString h => Some (Hv.UUIDString h)
  | Api.defineXML doc => Some (Hv.defineXML doc)
  | Api.path_exists p => Some (os_path.exists_ p)
  | Api.run_command command => Some (utils.run_command command)
  | _ => None
  end.

(** [hv] answers like the session model wherever the model has an answer. *)
Definition models (hv : hypervisor) : Prop :=
  forall X (p : Api.call X) m, answer p = Some m -> forall c, hv X p c = m c.

(** No frame around the place catches [e]. *)
Definition uncaught (e : exn) (under : list frame) : bool :=
  forallb (fun f => match f with
                    | InTry k => negb (handles k e)
                    | InHandler _ => true
                    end) under.

(** Whatever the hypervisor does, every exception raised while [s] runs
    has an origin and frames that satisfy [P]. *)
Definition within (P : origin -> list frame -> Prop) {A : Type}
    (s : script A) : Prop :=
  forall hv c o e c' under, In (o, e, c', under) (raised hv s c) -> P o under.

(** Where the exceptions of [op] are raised: outside every [try]; by the
    close, in the [suppress] of the teardown; by the lease query of a
    poll, in the wait's own clause, which may lie in the [try] of
    [start_node] or in its handler; by the power-on or by the code, in
    the body of that [try]; anywhere in its handler. *)
Definition allowed {A : Type} (op : Op.operation A) (o : origin)
    (under : list frame) : Prop :=
  under = []
  \/ (Op.is_teardown op = true /\ from_close o = true
      /\ under = [InTry CatchException])
  \/ (Op.waits op = true /\ from_lease_query o = true
      /\ under = [InTry CatchException])
  \/ (Op.starts op = true
      /\ ((from_power_on o || from_code o = true
           /\ under = [InTry CatchTimeoutExpired])
          \/ (from_lease_query o = true
              /\ under = [InTry CatchException; InTry CatchTimeoutExpired])
          \/ under = [InHandler CatchTimeoutExpired]
          \/ (from_lease_query o = true
              /\ under = [InTry CatchException;
                          InHandler CatchTimeoutExpired]))).

End Propagation.

Module Sample.

Definition boot (dev : string) : Dom.node :=
  Dom.Element "boot" [("dev", dev)] [].

Definition descriptor_with (name : string) (os_children : list Dom.node)
  : Dom.node :=
  Dom.Element "domain" [("type", "kvm")]
    [ Dom.Element "name" [] [Dom.Text name];
      Dom.Element "memory" [("unit", "KiB")] [Dom.Text "8388608"];
      Dom.Element "currentMemory" [("unit", "KiB")] [Dom.Text "8388608"];
      Dom.Element "vcpu" [("placement", "static")] [Dom.Text "4"];
      Dom.Element "os" [] os_children ].

Definition os_type : Dom.node :=
  Dom.Element "type" [("arch", "x86_64")] [Dom.Text "hvm"].

Definition descriptor (name : string) : Dom.node :=
  descriptor_with name [os_type; boot "hd"; boot "cdrom"; boot "hd"].

Definition leases : interfaces :=
  Some [ ("vnet0", mk_iface (Some [mk_addr "192.168.126.10" 24;
                                   mk_addr "192.168.126.11" 24])
                            "52:54:00:aa:bb:01");
         ("vnet1", mk_iface None "52:54:00:aa:bb:02");
         ("vnet2", mk_iface (Some [mk_addr "192.168.140.7" 24])
                            "52:54:00:aa:bb:03") ].

Definition master : domain :=
  mk_domain "cluster-master-0" "uuid-m0" false
            (descriptor "cluster-master-0") [].

Definition worker : domain :=
  mk_domain "cluster-worker-0" "uuid-w0" true
            (descriptor "cluster-worker-0")
            [Fault (LibvirtError "lease file is busy"); Leases leases].

Definition leased_worker : domain :=
  mk_domain "cluster-worker-2" "uuid-w2" false
            (descriptor "cluster-worker-2") [Leases leases].

Definition flaky : domain :=
  mk_domain "cluster-master-1" "uuid-m1" false
            (descriptor "cluster-master-1")
            [Fault (LibvirtError "lease file is busy"); Leases leases].

Definition floppy : domain :=
  mk_domain "cluster-worker-1" "uuid-w1" false
            (descriptor_with "cluster-worker-1"
               [os_type; boot "hd"; boot "floppy"]) [].

Definition bystander : domain :=
  mk_domain "build-host" "uuid-b" true (descriptor "build-host") [].

Definition session : conn :=
  mk_conn [master; bystander; worker; floppy; leased_worker; flaky]
          (fun _ => true)
          ["/var/lib/libvirt/images/master-0.qcow2"]
          (fun _ => Ok "virtual size: 20")
          (Some (LibvirtError "connection already closed"))
          [].

(** The session model as a hypervisor; a call it has no answer to fails. *)
Definition hypervisor : Script.hypervisor :=
  fun X p => match Propagation.answer p with
             | Some m => m
             | None => raise (LibvirtError "not supported")
             end.

(** The same hypervisor when no domain can be powered on. *)
Definition refusing : Script.hypervisor :=
  fun X p =>
    match p in Api.call X0 return M X0 with
    | Api.create _ => raise (LibvirtError "internal error")
    | q => hypervisor _ q
    end.

End Sample.

Module Frame.

(** The names of the domains, in enumeration order. *)
Definition names (c : conn) : list string := map dom_name (domains c).

(** From [c] to [c'] no domain appeared, disappeared or moved, no domain
    other than [name] changed its active-state and no descriptor changed. *)
Definition quiet (name : string) (c c' : conn) : Prop :=
  names c' = names c
  /\ (forall m, m <> name -> Calls.power_state m c' = Calls.power_state m c)
  /\ (forall m, Calls.descriptor m c' = Calls.descriptor m c).

End Frame.

Module Polling.
Import LibvirtController.

(** The answer makes the polled condition true: it is a lease table, not
    an error, and holds at least one address. *)
Definition has_address (o : poll_outcome) : bool :=
  match o with
  | Leases i => Nat.ltb 0 (List.length (fst (ips_and_macs_of i)))
  | Fault _ => false
  end.

(** The lease answers a domain will give, the exhausted script answering
    with an empty table for ever. *)
Definition answer (script : list poll_outcome) (k : nat) : poll_outcome :=
  nth k script (Leases (Some [])).

(** The lease queries of [n] polls on [name]. *)
Definition queries (name : string) (n : nat) : list event :=
  repeat (EvInterfaceAddresses name) n.

(** The script of [name] in a session. *)
Definition script (name : string) (c : conn) : option (list poll_outcome) :=
  option_map dom_polls (Hv.find_domain name (domains c)).

End Polling.

Module Disk.

(** How many times the character [sep] occurs in [s]. *)
Fixpoint count_char (sep : ascii) (s : string) : nat :=
  match s with
  | EmptyString => 0
  | String c rest => (if Ascii.eqb c sep then 1 else 0) + count_char sep rest
  end.

Definition info_command (disk_path : string) : string :=
  ("qemu-img info " ++ disk_path ++ " | grep 'virtual size'")%string.

Definition create_command (disk_path size : string) : string :=
  ("qemu-img create -f qcow2 " ++ disk_path ++ " " ++ size)%string.

(** The size handed to the create command for the field [token]. *)
Definition size_of (token : string) : string :=
  if Py.isdigit token then (token ++ "G")%string else token.

End Disk.

Module Shape.

(** A tree without its text: the elements with their names, attributes
    and nesting.  A text node has no shape, an element has one. *)
Fixpoint skeleton (n : Dom.node) : list Dom.node :=
  match n with
  | Dom.Text _ => []
  | Dom.Element t attrs cs => [Dom.Element t attrs (flat_map skeleton cs)]
  end.

(** [c] has no boot element below it. *)
Definition no_nested_boot (c : Dom.node) : bool :=
  match Dom.getElementsByTagName "boot" c with
  | [] => true
  | _ => false
  end.

(** [f] changes text only. *)
Definition keeps_skeleton (f : Dom.node -> result Dom.node) : Prop :=
  forall el el', f el = Ok el' -> skeleton el' = skeleton el.

End Shape.
Import Shape.

(* ------------------------------------------------------------------ *)
(** * Running the monad *)

Lemma bind_ok {A B} (m : M A) (k : A -> M B) c a c' :
  m c = (Ok a, c') -> bind m k c = k a c'.
Proof. intros H. unfold bind. now rewrite H. Qed.

Lemma bind_raise {A B} (m : M A) (k : A -> M B) c e c' :
  m c = (Raise e, c') -> bind m k c = (Raise e, c').
Proof. intros H. unfold bind. now rewrite H. Qed.

Lemma try_ok {A} (m : M A) handles handler c a c' :
  m c = (Ok a, c') -> try_except m handles handler c = (Ok a, c').
Proof. intros H. unfold try_except. now rewrite H. Qed.

Lemma try_caught {A} (m : M A) handles handler c e c' :
  m c = (Raise e, c') -> handles e = true ->
  try_except m handles handler c = handler e c'.
Proof. intros H Hh. unfold try_except. now rewrite H, Hh. Qed.

Lemma try_passed {A} (m : M A) handles handler c e c' :
  m c = (Raise e, c') -> handles e = false ->
  try_except m handles handler c = (Raise e, c').
Proof. intros H Hh. unfold try_except. now rewrite H, Hh. Qed.

Lemma lookup_found c name d :
  Hv.find_domain name (domains c) = Some d ->
  Hv.lookupByName name c = (Ok name, c).
Proof. intros H. unfold Hv.lookupByName. now rewrite H. Qed.

Lemma lookup_missing c name :
  Hv.find_domain name (domains c) = None ->
  Hv.lookupByName name c = (Raise Hv.no_domain, c).
Proof. intros H. unfold Hv.lookupByName. now rewrite H. Qed.

Lemma get_found c name d :
  Hv.find_domain name (domains c) = Some d ->
  Hv.get name c = (Ok d, c).
Proof. intros H. unfold Hv.get. now rewrite H. Qed.

Lemma isActive_found c name d :
  Hv.find_domain name (domains c) = Some d ->
  Hv.isActive name c = (Ok (dom_active d), c).
Proof.
  intros H. unfold Hv.isActive.
  erewrite bind_ok by (apply get_found; eassumption). reflexivity.
Qed.

Lemma XMLDesc_found c name d :
  Hv.find_domain name (domains c) = Some d ->
  Hv.XMLDesc name c = (Ok (dom_xml d), c).
Proof.
  intros H. unfold Hv.XMLDesc.
  erewrite bind_ok by (apply get_found; eassumption). reflexivity.
Qed.

Create HintDb ctl.
#[local] Hint Resolve lookup_found lookup_missing get_found isActive_found
  XMLDesc_found : ctl.

(** One step of a sequence whose first call is known. *)
Ltac step :=
  first [ erewrite bind_ok by eauto with ctl
        | erewrite bind_raise by eauto with ctl ].

(** ** Domains in the session *)

Lemma find_domain_name name ds d :
  Hv.find_domain name ds = Some d -> dom_name d = name.
Proof.
  induction ds as [|x ds IH]; simpl; [discriminate|].
  destruct (String.eqb_spec (dom_name x) name) as [E|E].
  - now intros [= <-].
  - exact IH.
Qed.

Lemma find_put_domain name m d d' ds :
  Hv.find_domain name ds = Some d ->
  dom_name d' = name ->
  Hv.find_domain m (Hv.put_domain name d' ds)
  = if String.eqb name m then Some d' else Hv.find_domain m ds.
Proof.
  intros Hf Hn. induction ds as [|x ds IH]; simpl in *; [discriminate|].
  destruct (String.eqb_spec (dom_name x) name) as [E|E].
  - simpl. rewrite Hn, E.
    destruct (String.eqb_spec name m) as [E'|E']; [reflexivity|].
    destruct (String.eqb_spec name m); [contradiction|reflexivity].
  - simpl. destruct (String.eqb_spec (dom_name x) m) as [E'|E'].
    + destruct (String.eqb_spec name m); [congruence|reflexivity].
    + now apply IH.
Qed.

(** ** What the hypervisor calls do to the session *)

Lemma create_inactive c name d :
  Hv.find_domain name (domains c) = Some d ->
  dom_active d = false ->
  exists c1,
    Hv.create name c = (Ok tt, c1)
    /\ trace c1 = trace c ++ [EvCreate name]
    /\ Hv.find_domain name (domains c1) = Some (Hv.set_active true d).
Proof.
  intros Hf Ha. unfold Hv.create, bind, log, Hv.get, set_domains. simpl.
  rewrite Hf, Ha. simpl. eexists; split; [reflexivity|]. simpl.
  split; [reflexivity|].
  rewrite (find_put_domain name name d _ _ Hf) by (simpl; eapply find_domain_name; eauto).
  now rewrite String.eqb_refl.
Qed.

Lemma destroy_active c name d :
  Hv.find_domain name (domains c) = Some d ->
  dom_active d = true ->
  exists c1,
    Hv.destroy name c = (Ok tt, c1)
    /\ trace c1 = trace c ++ [EvDestroy name]
    /\ Hv.find_domain name (domains c1) = Some (Hv.set_active false d).
Proof.
  intros Hf Ha. unfold Hv.destroy, bind, log, Hv.get, set_domains. simpl.
  rewrite Hf, Ha. simpl. eexists; split; [reflexivity|]. simpl.
  split; [reflexivity|].
  rewrite (find_put_domain name name d _ _ Hf) by (simpl; eapply find_domain_name; eauto).
  now rewrite String.eqb_refl.
Qed.

(** A lease query logs itself and consumes one scripted answer; it
    neither powers anything on or off nor touches a descriptor. *)
Lemma interfaceAddresses_effect h c :
  exists r c',
    Hv.interfaceAddresses h c = (r, c')
    /\ trace c' = trace c ++ [EvInterfaceAddresses h]
    /\ (forall m, Calls.power_state m c' = Calls.power_state m c)
    /\ (forall m, Calls.descriptor m c' = Calls.descriptor m c).
Proof.
  unfold Hv.interfaceAddresses, bind, log, Hv.get, set_domains, ret, raise.
  simpl. destruct (Hv.find_domain h (domains c)) as [d|] eqn:Hf.
  - assert (Hput : forall rest m,
      Hv.find_domain m
        (Hv.put_domain h (mk_domain (dom_name d) (dom_uuid d) (dom_active d)
                                    (dom_xml d) rest) (domains c))
      = if String.eqb h m
        then Some (mk_domain (dom_name d) (dom_uuid d) (dom_active d)
                             (dom_xml d) rest)
        else Hv.find_domain m (domains c)).
    { intros rest m. apply (find_put_domain h m d _ _ Hf). simpl.
      eapply find_domain_name; eauto. }
    destruct (dom_polls d) as [|o rest].
    + do 2 eexists. split; [reflexivity|]. simpl. repeat split.
    + destruct o as [i|e]; do 2 eexists; (split; [reflexivity|]); simpl;
        (split; [reflexivity|]);
        split; intros m; unfold Calls.power_state, Calls.descriptor; simpl;
        rewrite Hput; destruct (String.eqb_spec h m) as [<-|]; try reflexivity;
        now rewrite Hf.
  - do 2 eexists. split; [reflexivity|]. simpl. repeat split.
Qed.

(** ** Polling *)

Lemma lease_queries_no_power name evs :
  forallb Calls.is_lease_query evs = true ->
  Calls.power_ons name evs = 0 /\ Calls.power_offs name evs = 0.
Proof.
  unfold Calls.power_ons, Calls.power_offs.
  induction evs as [|ev evs IH]; simpl; [auto|].
  destruct ev; simpl; try discriminate. exact IH.
Qed.

(** One poll under [expected_exceptions=Exception]: whatever the lease
    query does, the poll itself yields a boolean. *)
Lemma poll_effect h c :
  exists b c',
    try_except (LibvirtController.has_ips h) (fun _ => true)
               (fun _ => ret false) c = (Ok b, c')
    /\ trace c' = trace c ++ [EvInterfaceAddresses h]
    /\ (forall m, Calls.power_state m c' = Calls.power_state m c)
    /\ (forall m, Calls.descriptor m c' = Calls.descriptor m c).
Proof.
  destruct (interfaceAddresses_effect h c) as (r & c' & E & Ht & Hp & Hd).
  unfold LibvirtController.has_ips, LibvirtController._get_domain_ips,
    LibvirtController._get_domain_ips_and_macs, try_except, bind.
  rewrite E. destruct r as [i|e]; simpl;
    do 2 eexists; (split; [reflexivity|]); auto.
Qed.

Lemma wait_effect h polls c :
  exists r c' evs,
    waiting.wait (LibvirtController.has_ips h) polls c = (r, c')
    /\ (r = Ok tt \/ r = Raise TimeoutExpired)
    /\ trace c' = trace c ++ evs
    /\ forallb Calls.is_lease_query evs = true
    /\ (forall m, Calls.power_state m c' = Calls.power_state m c)
    /\ (forall m, Calls.descriptor m c' = Calls.descriptor m c).
Proof.
  revert c; induction polls as [|k IH]; intros c.
  - exists (Raise TimeoutExpired), c, []. simpl.
    rewrite app_nil_r. repeat split; auto.
  - destruct (poll_effect h c) as (b & c1 & E & Ht & Hp & Hd).
    cbn [waiting.wait]. erewrite bind_ok by exact E.
    destruct b.
    + exists (Ok tt), c1, [EvInterfaceAddresses h]. repeat split; auto.
    + destruct (IH c1) as (r & c' & evs & E' & Hr & Ht' & Hq & Hp' & Hd').
      exists r, c', (EvInterfaceAddresses h :: evs).
      split; [exact E'|]. split; [exact Hr|].
      split; [rewrite Ht', Ht, <- app_assoc; reflexivity|].
      split; [exact Hq|].
      split; intros m; [rewrite Hp'; apply Hp | rewrite Hd'; apply Hd].
Qed.

(* ------------------------------------------------------------------ *)
(** * Properties *)

Local Open Scope bool_scope.

(** ** Substring test *)

Lemma prefix_app (p s : string) :
  String.prefix p (p ++ s)%string = true.
Proof.
  induction p as [|a p IH]; simpl.
  - now destruct s.
  - destruct (ascii_dec a a); [assumption | congruence].
Qed.

Lemma prefix_split (p s : string) :
  String.prefix p s = true -> exists rest, s = (p ++ rest)%string.
Proof.
  revert s; induction p as [|a p IH]; intros s H.
  - now exists s.
  - destruct s as [|b s]; simpl in H; [discriminate|].
    destruct (ascii_dec a b) as [->|]; [|discriminate].
    destruct (IH _ H) as [rest ->]. now exists rest.
Qed.

Lemma contains_of_prefix (needle hay : string) :
  String.prefix needle hay = true -> Py.contains needle hay = true.
Proof. intros H. destruct hay; cbn [Py.contains]; now rewrite H. Qed.

(** [Py.contains] is the substring relation. *)
Lemma contains_spec (needle hay : string) :
  Py.contains needle hay = true <->
  exists before after, hay = (before ++ needle ++ after)%string.
Proof.
  split.
  - induction hay as [|a hay IH]; cbn [Py.contains].
    + destruct (String.prefix needle "") eqn:E; [|intros; discriminate].
      intros _. destruct (prefix_split _ _ E) as [rest Hr].
      now exists ""%string, rest.
    + destruct (String.prefix needle (String a hay)) eqn:E.
      * intros _. destruct (prefix_split _ _ E) as [rest Hr].
        now exists ""%string, rest.
      * intros H. destruct (IH H) as (b & r & ->).
        now exists (String a b), r.
  - intros (before & after & ->).
    induction before as [|a before IH].
    + cbn [String.append]. apply contains_of_prefix, prefix_app.
    + change (String a before ++ needle ++ after)%string
        with (String a (before ++ needle ++ after)%string).
      cbn [Py.contains]. rewrite IH. now destruct (String.prefix needle _).
Qed.

Lemma contains_empty (hay : string) : Py.contains "" hay = true.
Proof. now destruct hay. Qed.

(** ** Listing *)

Module ListNodes.
Import LibvirtController consts Listing.

Lemma list_nodes_loop_filter name_filter ds acc :
  list_nodes_loop name_filter ds acc = acc ++ filter (listed name_filter) ds.
Proof.
  revert acc; induction ds as [|d ds IH]; intros acc; simpl.
  - now rewrite app_nil_r.
  - unfold listed at 1, has_role.
    destruct (truthy_filter name_filter
              && negb (Py.contains (filter_text name_filter) d)); simpl.
    + apply IH.
    + destruct (Py.contains NodeRoles.MASTER d || Py.contains NodeRoles.WORKER d).
      * rewrite IH, <- app_assoc. reflexivity.
      * apply IH.
Qed.

Lemma listed_none name : listed None name = has_role name.
Proof. reflexivity. Qed.

Lemma listed_some f name :
  listed (Some f) name = Py.contains f name && has_role name.
Proof.
  unfold listed; simpl. destruct f as [|a f]; simpl.
  - now rewrite contains_empty.
  - now destruct (Py.contains (String a f) name).
Qed.

Lemma filter_filter {A} (p q : A -> bool) (l : list A) :
  filter p (filter q l) = filter (fun x => p x && q x) l.
Proof.
  induction l as [|x l IH]; simpl; [reflexivity|].
  destruct (q x); simpl.
  - rewrite andb_true_r. destruct (p x); now rewrite IH.
  - now rewrite andb_false_r.
Qed.

End ListNodes.

(** C5. Listing never fails and leaves the session alone.  Without a
    filter it returns, in the hypervisor's enumeration order, exactly the
    domains whose name contains "master" or "worker"; with a filter string
    [f] it returns, in the same order, exactly those members of the
    unfiltered listing whose name contains [f]. *)
Theorem C5_list_nodes_by_role_and_filter (c : conn) (f : string) :
  let all := filter Listing.has_role (map dom_name (domains c)) in
  LibvirtController.list_nodes c = (Ok all, c)
  /\ LibvirtController.list_nodes_with_name_filter (Some f) c
     = (Ok (filter (Py.contains f) all), c)
  /\ (forall name, In name all <->
        In name (map dom_name (domains c))
        /\ (Py.contains consts.NodeRoles.MASTER name = true
            \/ Py.contains consts.NodeRoles.WORKER name = true))
  /\ (forall name, In name (filter (Py.contains f) all) <->
        In name all /\ Py.contains f name = true).
Proof.
  intros all. unfold all.
  unfold LibvirtController.list_nodes,
    LibvirtController.list_nodes_with_name_filter, bind, ret,
    Hv.listAllDomains.
  rewrite !ListNodes.list_nodes_loop_filter. simpl.
  split; [reflexivity|]. split; [|split].
  - rewrite ListNodes.filter_filter. f_equal. f_equal.
    apply filter_ext. intros a. apply ListNodes.listed_some.
  - intros name. rewrite filter_In. unfold Listing.has_role.
    rewrite orb_true_iff. tauto.
  - intros name. rewrite filter_In. tauto.
Qed.

(** C10. An empty filter string is falsy, so listing with it is listing
    without a filter: same result, same session. *)
Theorem C10_empty_filter_is_no_filter (c : conn) :
  LibvirtController.list_nodes_with_name_filter (Some ""%string) c
  = LibvirtController.list_nodes_with_name_filter None c.
Proof.
  unfold LibvirtController.list_nodes_with_name_filter, bind, ret,
    Hv.listAllDomains.
  rewrite !ListNodes.list_nodes_loop_filter. reflexivity.
Qed.

(** ** Shutdown *)

(** C8. Shutting down a domain that is already inactive changes nothing
    in the session: no call reaches the hypervisor (the call log, and so
    the absence of a power-off, is part of the session) and the domain
    stays inactive.  Two shutdowns in a row are one shutdown. *)
Theorem C8_shutdown_inactive_is_noop (c : conn) (node_name : string) (d : domain) :
  Hv.find_domain node_name (domains c) = Some d ->
  dom_active d = false ->
  LibvirtController.shutdown_node node_name c = (Ok tt, c)
  /\ (LibvirtController.shutdown_node node_name ;;
      LibvirtController.shutdown_node node_name) c
     = LibvirtController.shutdown_node node_name c.
Proof.
  intros Hfind Hoff.
  assert (E : LibvirtController.shutdown_node node_name c = (Ok tt, c)).
  { unfold LibvirtController.shutdown_node. do 2 step.
    now rewrite Hoff. }
  split; [exact E|].
  unfold bind at 1. rewrite E. exact E.
Qed.

Lemma C8_shutdown_inactive_witness :
  LibvirtController.shutdown_node "cluster-master-0" Sample.session
  = (Ok tt, Sample.session)
  /\ (LibvirtController.shutdown_node "cluster-master-0" ;;
      LibvirtController.shutdown_node "cluster-master-0") Sample.session
     = LibvirtController.shutdown_node "cluster-master-0" Sample.session.
Proof.
  apply (C8_shutdown_inactive_is_noop Sample.session "cluster-master-0"
           Sample.master); reflexivity.
Defined.

(** ** Addresses *)

Module Addresses.
Import LibvirtController Leased.

Lemma addrs_loop_spec hw l acc :
  addrs_loop hw l acc
  = (fst acc ++ map addr l, snd acc ++ repeat hw (List.length l)).
Proof.
  revert acc; induction l as [|a l IH]; intros [ips macs]; simpl.
  - now rewrite !app_nil_r.
  - rewrite IH. simpl. now rewrite <- !app_assoc.
Qed.

Lemma interfaces_loop_spec items acc :
  interfaces_loop items acc
  = (fst acc ++ flat_map (fun item => map addr (addrs_of (snd item))) items,
     snd acc ++ flat_map (fun item => repeat (hwaddr (snd item))
                                             (List.length (addrs_of (snd item))))
                         items).
Proof.
  revert acc; induction items as [|[k val] items IH]; intros [ips macs].
  - simpl. now rewrite !app_nil_r.
  - cbn [interfaces_loop flat_map snd]. unfold addrs_of at 1 3.
    destruct (addrs val) as [[|a l]|]; rewrite IH;
      rewrite ?addrs_loop_spec; cbn [fst snd];
      rewrite <- ?app_assoc; reflexivity.
Qed.

Lemma ips_and_macs_of_spec (i : interfaces) :
  ips_and_macs_of i
  = (flat_map (fun item => map addr (addrs_of (snd item))) (items_of i),
     flat_map (fun item => repeat (hwaddr (snd item))
                                  (List.length (addrs_of (snd item))))
              (items_of i)).
Proof.
  destruct i as [[|item items]|]; try reflexivity.
  unfold ips_and_macs_of. now rewrite interfaces_loop_spec.
Qed.

Lemma map_fst_pairs (i : interfaces) :
  map fst (leased_pairs i)
  = flat_map (fun item => map addr (addrs_of (snd item))) (items_of i).
Proof.
  unfold leased_pairs. induction (items_of i) as [|item items IH]; simpl.
  - reflexivity.
  - rewrite map_app, IH, map_map. reflexivity.
Qed.

Lemma map_const_repeat {A B} (b : B) (l : list A) :
  map (fun _ => b) l = repeat b (List.length l).
Proof. induction l; simpl; congruence. Qed.

Lemma map_snd_pairs (i : interfaces) :
  map snd (leased_pairs i)
  = flat_map (fun item => repeat (hwaddr (snd item))
                                 (List.length (addrs_of (snd item))))
             (items_of i).
Proof.
  unfold leased_pairs. induction (items_of i) as [|item items IH]; simpl.
  - reflexivity.
  - rewrite map_app, IH, map_map. simpl. now rewrite map_const_repeat.
Qed.

Lemma interfaceAddresses_answer c h d i :
  Hv.find_domain h (domains c) = Some d ->
  next_answer d = Leases i ->
  exists c', Hv.interfaceAddresses h c = (Ok i, c').
Proof.
  intros Hf Ha. unfold Hv.interfaceAddresses, bind, log, Hv.get. simpl.
  rewrite Hf. unfold next_answer in Ha.
  destruct (dom_polls d) as [|o rest].
  - injection Ha as <-. eexists. reflexivity.
  - subst o. simpl. eexists. reflexivity.
Qed.

End Addresses.

(** C9. For a known domain whose lease query the hypervisor answers,
    [get_node_ips_and_macs] returns the IPs and the MACs of the leased
    (IP, MAC) pairs, so two lists of equal length in parallel order; the
    MAC list repeats each interface's MAC once per address of that
    interface; with no leased address both lists are empty. *)
Theorem C9_ips_and_macs_parallel (c : conn) (node_name : string) (d : domain)
    (i : interfaces) :
  Hv.find_domain node_name (domains c) = Some d ->
  Leased.next_answer d = Leases i ->
  exists ips macs c',
    LibvirtController.get_node_ips_and_macs node_name c = (Ok (ips, macs), c')
    /\ ips = map fst (Leased.leased_pairs i)
    /\ macs = map snd (Leased.leased_pairs i)
    /\ combine ips macs = Leased.leased_pairs i
    /\ List.length ips = List.length macs
    /\ macs = flat_map (fun item =>
                repeat (hwaddr (snd item))
                       (List.length (Leased.addrs_of (snd item))))
              (Leased.items_of i)
    /\ (Leased.leased_pairs i = [] -> ips = [] /\ macs = []).
Proof.
  intros Hf Ha.
  destruct (Addresses.interfaceAddresses_answer c node_name d i Hf Ha) as [c' Hc'].
  exists (map fst (Leased.leased_pairs i)),
         (map snd (Leased.leased_pairs i)), c'.
  split.
  { unfold LibvirtController.get_node_ips_and_macs,
      LibvirtController._get_domain_ips_and_macs.
    step. erewrite bind_ok by exact Hc'. unfold ret.
    rewrite Addresses.ips_and_macs_of_spec,
      Addresses.map_fst_pairs, Addresses.map_snd_pairs. reflexivity. }
  split; [reflexivity|]. split; [reflexivity|].
  split.
  { induction (Leased.leased_pairs i) as [|[a b] l IH]; simpl; congruence. }
  split; [now rewrite !length_map|].
  split; [apply Addresses.map_snd_pairs|].
  intros ->. split; reflexivity.
Qed.

Lemma C9_ips_and_macs_parallel_witness :
  exists ips macs c',
    LibvirtController.get_node_ips_and_macs "cluster-worker-2" Sample.session
    = (Ok (ips, macs), c')
    /\ ips = ["192.168.126.10"; "192.168.126.11"; "192.168.140.7"]%string
    /\ macs = ["52:54:00:aa:bb:01"; "52:54:00:aa:bb:01";
               "52:54:00:aa:bb:03"]%string.
Proof.
  destruct (C9_ips_and_macs_parallel Sample.session "cluster-worker-2"
              Sample.leased_worker Sample.leases eq_refl eq_refl)
    as (ips & macs & c' & E & Hi & Hm & _).
  exists ips, macs, c'. repeat split; assumption.
Defined.

(** ** Starting a node *)

Lemma power_ons_app name tr tr' :
  Calls.power_ons name (tr ++ tr')
  = Calls.power_ons name tr + Calls.power_ons name tr'.
Proof. unfold Calls.power_ons. now rewrite filter_app, length_app. Qed.

Lemma power_offs_app name tr tr' :
  Calls.power_offs name (tr ++ tr')
  = Calls.power_offs name tr + Calls.power_offs name tr'.
Proof. unfold Calls.power_offs. now rewrite filter_app, length_app. Qed.

Lemma power_state_found name c b :
  Calls.power_state name c = Some b ->
  exists d, Hv.find_domain name (domains c) = Some d /\ dom_active d = b.
Proof.
  unfold Calls.power_state.
  destruct (Hv.find_domain name (domains c)) as [d|]; simpl; [|discriminate].
  intros [= <-]. now exists d.
Qed.

(** C4. Starting an inactive domain whose first wait for an IP times out:
    the domain is forcibly powered off and powered on again, and the call
    becomes the second wait.  Whatever that wait gives is the outcome of
    the call, a second timeout included, and by then the hypervisor has
    seen exactly two power-on calls and one power-off call for the domain:
    there is no third attempt. *)
Theorem C4_start_node_retries_once (c : conn) (node_name : string) (d : domain) :
  Hv.find_domain node_name (domains c) = Some d ->
  dom_active d = false ->
  forall c2,
    (Hv.create node_name ;;
     LibvirtController._wait_till_domain_has_ips node_name) c
    = (Raise TimeoutExpired, c2) ->
    exists c4 r c5,
      (LibvirtController.shutdown_node node_name ;; Hv.create node_name) c2
      = (Ok tt, c4)
      /\ trace c4 = trace c2 ++ [EvDestroy node_name; EvCreate node_name]
      /\ LibvirtController._wait_till_domain_has_ips node_name c4 = (r, c5)
      /\ LibvirtController.start_node node_name c = (r, c5)
      /\ (r = Ok tt \/ r = Raise TimeoutExpired)
      /\ Calls.power_ons node_name (trace c5)
         = 2 + Calls.power_ons node_name (trace c)
      /\ Calls.power_offs node_name (trace c5)
         = 1 + Calls.power_offs node_name (trace c).
Proof.
  intros Hf Hoff c2 Hfirst.
  destruct (create_inactive c node_name d Hf Hoff) as (c1 & Ec1 & Tc1 & Fc1).
  erewrite bind_ok in Hfirst by exact Ec1.
  unfold LibvirtController._wait_till_domain_has_ips,
    LibvirtController._wait_till_domain_has_ips_for in *.
  set (polls := waiting.polls_within 360 5) in *.
  destruct (wait_effect node_name polls c1)
    as (r1 & c2' & evs1 & E1 & _ & T1 & Q1 & P1 & _).
  rewrite Hfirst in E1. injection E1 as <- <-.
  assert (P2 : Calls.power_state node_name c2 = Some true).
  { rewrite P1. unfold Calls.power_state. now rewrite Fc1. }
  destruct (power_state_found _ _ _ P2) as (d2 & Fc2 & A2).
  destruct (destroy_active c2 node_name d2 Fc2 A2) as (c3 & Ec3 & Tc3 & Fc3).
  destruct (create_inactive c3 node_name _ Fc3 eq_refl) as (c4 & Ec4 & Tc4 & Fc4).
  assert (Eshut : LibvirtController.shutdown_node node_name c2 = (Ok tt, c3)).
  { unfold LibvirtController.shutdown_node. do 2 step. now rewrite A2. }
  destruct (wait_effect node_name polls c4)
    as (r & c5 & evs2 & E2 & Hr & T2 & Q2 & _ & _).
  exists c4, r, c5.
  split; [erewrite bind_ok by exact Eshut; exact Ec4|].
  split; [rewrite Tc4, Tc3, <- app_assoc; reflexivity|].
  split; [exact E2|].
  split.
  { unfold LibvirtController.start_node. do 2 step. rewrite Hoff. simpl.
    erewrite try_caught; [| erewrite bind_ok by exact Ec1; exact Hfirst
                          | reflexivity].
    erewrite bind_ok by exact Eshut.
    erewrite bind_ok by exact Ec4. exact E2. }
  split; [exact Hr|].
  destruct (lease_queries_no_power node_name evs1 Q1) as [On1 Off1].
  destruct (lease_queries_no_power node_name evs2 Q2) as [On2 Off2].
  rewrite T2, Tc4, Tc3, T1, Tc1.
  rewrite !power_ons_app, !power_offs_app, On1, On2, Off1, Off2.
  unfold Calls.power_ons, Calls.power_offs. simpl.
  rewrite String.eqb_refl. simpl. lia.
Qed.

Lemma C4_start_node_retries_once_witness :
  let c := Sample.session in
  let name := "cluster-master-0"%string in
  let c2 := snd ((Hv.create name ;;
                  LibvirtController._wait_till_domain_has_ips name) c) in
  exists c4 r c5,
    (LibvirtController.shutdown_node name ;; Hv.create name) c2 = (Ok tt, c4)
    /\ trace c4 = trace c2 ++ [EvDestroy name; EvCreate name]
    /\ LibvirtController._wait_till_domain_has_ips name c4 = (r, c5)
    /\ LibvirtController.start_node name c = (r, c5)
    /\ (r = Ok tt \/ r = Raise TimeoutExpired)
    /\ Calls.power_ons name (trace c5) = 2 + Calls.power_ons name (trace c)
    /\ Calls.power_offs name (trace c5) = 1 + Calls.power_offs name (trace c).
Proof.
  intros c name c2.
  apply (C4_start_node_retries_once c name Sample.master);
    [reflexivity | reflexivity | vm_compute; reflexivity].
Defined.

(** ** Formatting a disk *)

Lemma split_length sep s :
  List.length (Py.split sep s) = S (Disk.count_char sep s).
Proof.
  unfold Py.split. induction s as [|c s IH]; simpl; [reflexivity|].
  destruct (Ascii.eqb c sep); simpl.
  - now rewrite IH.
  - destruct (Py.split_by (fun c0 => Ascii.eqb c0 sep) s) eqn:E;
      simpl in *; [discriminate|exact IH].
Qed.

Lemma split_fields_clean sep s :
  Forall (fun w => Disk.count_char sep w = 0) (Py.split sep s).
Proof.
  unfold Py.split. induction s as [|c s IH]; simpl.
  - repeat constructor.
  - destruct (Ascii.eqb c sep) eqn:Ec.
    + constructor; [reflexivity|exact IH].
    + destruct (Py.split_by (fun c0 => Ascii.eqb c0 sep) s) as [|w ws].
      * repeat constructor. simpl. now rewrite Ec.
      * inversion IH as [|? ? Hw Hws]; subst. constructor; [|exact Hws].
        simpl. now rewrite Ec.
Qed.

(** C6 as written fails on a doubled space.  The inspection output
    [virtual size:  20] has [20] as its third white-space-delimited word,
    but [format_disk] cuts the line at every single space: its third field
    is empty, and the create command is issued with an empty size instead
    of [20G]. *)
Lemma C6_doubled_space_gives_empty_size :
  let path := "/var/lib/libvirt/images/master-0.qcow2"%string in
  let c := mk_conn [] (fun _ => true) [path]
                   (fun _ => Ok "virtual size:  20"%string) None [] in
  nth_error (Py.words "virtual size:  20") 2 = Some "20"%string
  /\ nth_error (Py.split " " "virtual size:  20") 2 = Some ""%string
  /\ exists c',
       LibvirtController.format_disk path c = (Ok tt, c')
       /\ trace c'
          = [EvRunCommand
               "qemu-img info /var/lib/libvirt/images/master-0.qcow2 | grep 'virtual size'";
             EvRunCommand
               "qemu-img create -f qcow2 /var/lib/libvirt/images/master-0.qcow2 "].
Proof.
  intros path c. split; [reflexivity|]. split; [reflexivity|].
  exists (snd (LibvirtController.format_disk path c)).
  split; vm_compute; reflexivity.
Qed.

(** C6.  For an existing path whose inspection output has at least two
    spaces, [format_disk] takes as the size the third field of the output
    cut at every single space: the text between the second space and the
    next one (or the end).  It appends [G] exactly when that field is one
    or more digits, and issues the create command with the result right
    after the inspection command; the outcome of the call is the outcome
    of the create command. *)
Theorem C6_format_disk_third_field (c : conn) (disk_path output : string) :
  existsb (String.eqb disk_path) (files c) = true ->
  shell c (Disk.info_command disk_path) = Ok output ->
  2 <= Disk.count_char " " output ->
  exists token r c',
    nth_error (Py.split " " output) 2 = Some token
    /\ Disk.count_char " " token = 0
    /\ LibvirtController.format_disk disk_path c = (r, c')
    /\ trace c' = trace c
                  ++ [EvRunCommand (Disk.info_command disk_path);
                      EvRunCommand
                        (Disk.create_command disk_path
                           (if Py.isdigit token then (token ++ "G")%string
                            else token))]
    /\ r = match shell c (Disk.create_command disk_path
                            (if Py.isdigit token then (token ++ "G")%string
                             else token)) with
           | Ok _ => Ok tt
           | Raise e => Raise e
           end.
Proof.
  intros Hex Hsh Hcount.
  destruct (nth_error (Py.split " " output) 2) as [token|] eqn:Hnth.
  2:{ apply nth_error_None in Hnth. rewrite split_length in Hnth. lia. }
  exists token.
  assert (Hclean : Disk.count_char " " token = 0).
  { pose proof (split_fields_clean " " output) as H.
    rewrite Forall_forall in H. apply H. eapply nth_error_In; eauto. }
  unfold LibvirtController.format_disk, os_path.exists_, utils.run_command,
    bind, log. rewrite Hex.
  cbn [negb shell trace domains accepts files close_error].
  fold (Disk.info_command disk_path). rewrite Hsh, Hnth.
  fold (Disk.size_of token).
  fold (Disk.create_command disk_path (Disk.size_of token)).
  cbn [shell trace]. unfold Disk.size_of.
  destruct (shell c (Disk.create_command disk_path
                       (if Py.isdigit token then (token ++ "G")%string
                        else token)));
    do 2 eexists; (split; [reflexivity|]); (split; [exact Hclean|]);
    (split; [reflexivity|]); cbn [trace]; rewrite <- app_assoc;
    split; reflexivity.
Qed.

Lemma C6_format_disk_third_field_witness :
  exists c',
    LibvirtController.format_disk "/var/lib/libvirt/images/master-0.qcow2"
      Sample.session
    = (Ok tt, c')
    /\ trace c'
       = [EvRunCommand
            "qemu-img info /var/lib/libvirt/images/master-0.qcow2 | grep 'virtual size'";
          EvRunCommand
            "qemu-img create -f qcow2 /var/lib/libvirt/images/master-0.qcow2 20G"].
Proof.
  destruct (C6_format_disk_third_field Sample.session
              "/var/lib/libvirt/images/master-0.qcow2"
              "virtual size: 20" eq_refl eq_refl)
    as (token & r & c' & Hnth & _ & E & T & Hr).
  - vm_compute. lia.
  - exists c'. vm_compute in Hnth. injection Hnth as <-.
    rewrite E, Hr. split; [reflexivity|exact T].
Defined.

(** ** Descriptor trees *)

Lemma node_children_ind (P : Dom.node -> Prop) :
  (forall s, P (Dom.Text s)) ->
  (forall t attrs cs, Forall P cs -> P (Dom.Element t attrs cs)) ->
  forall n, P n.
Proof.
  intros HT HE.
  fix IH 1. intros [t attrs cs|s]; [|apply HT].
  apply HE. induction cs as [|c cs IHcs]; constructor; [apply IH|exact IHcs].
Qed.

Lemma elements_by_tag_named t el :
  Dom.is_element_named t el = true ->
  hd_error (Dom.elements_by_tag t el) = Some el.
Proof.
  destruct el as [t' attrs cs|s]; simpl; [|discriminate].
  now intros ->.
Qed.

Lemma update_in_spec t f cs :
  Forall (fun c => update_spec t f (Dom.elements_by_tag t c)
                     (Dom.update_first t f c) (Dom.elements_by_tag t)) cs ->
  update_spec t f (flat_map (Dom.elements_by_tag t) cs)
    (Dom.update_in (Dom.update_first t f) cs)
    (flat_map (Dom.elements_by_tag t)).
Proof.
  intros H. induction H as [|c cs Hc _ IH]; [reflexivity|].
  unfold update_spec in *. cbn [flat_map Dom.update_in].
  revert Hc.
  destruct (Dom.elements_by_tag t c) as [|el els] eqn:Ec; simpl.
  - intros ->. revert IH.
    destruct (hd_error (flat_map (Dom.elements_by_tag t) cs)) as [el|];
      cbv beta iota.
    + destruct (f el) as [el'|e].
      * intros (cs' & -> & Hcs'). eexists; split; [reflexivity|].
        cbn [flat_map]. rewrite Ec. exact Hcs'.
      * now intros ->.
    + now intros ->.
  - destruct (f el) as [el'|e].
    + intros (c' & -> & Hc'). eexists; split; [reflexivity|].
      intros Hn. cbn [flat_map]. specialize (Hc' Hn).
      destruct (Dom.elements_by_tag t c'); [discriminate|exact Hc'].
    + now intros ->.
Qed.

Lemma update_first_spec t f n :
  update_spec t f (Dom.elements_by_tag t n) (Dom.update_first t f n)
              (Dom.elements_by_tag t).
Proof.
  induction n as [s|t' attrs cs IH] using node_children_ind; [reflexivity|].
  pose proof (update_in_spec t f cs IH) as Hin.
  unfold update_spec in *. cbn [Dom.elements_by_tag Dom.update_first].
  destruct (String.eqb_spec t' t) as [->|Hne]; simpl app; simpl hd_error;
    cbv beta iota.
  - destruct (f (Dom.Element t attrs cs)) as [el'|e]; [|reflexivity].
    exists el'. split; [reflexivity|]. apply elements_by_tag_named.
  - revert Hin.
    destruct (hd_error (flat_map (Dom.elements_by_tag t) cs)) as [el|];
      cbv beta iota.
    + destruct (f el) as [el'|e].
      * intros (cs' & -> & Hcs'). eexists; split; [reflexivity|].
        cbn [Dom.elements_by_tag].
        destruct (String.eqb_spec t' t); [contradiction|exact Hcs'].
      * now intros ->.
    + now intros ->.
Qed.

(** ** The boot-order loop *)

Lemma elements_by_tag_unfold t c :
  Dom.elements_by_tag t c
  = (if Dom.is_element_named t c then [c] else [])
      ++ flat_map (Dom.elements_by_tag t) (Dom.childNodes c).
Proof. destruct c as [t' attrs cs|s]; reflexivity. Qed.

Lemma tagged_from_snd t i cs :
  map snd (Dom.tagged_from t i cs) = flat_map (Dom.elements_by_tag t) cs.
Proof.
  revert i; induction cs as [|c cs IH]; intros i; simpl; [reflexivity|].
  rewrite !map_app, IH, map_map, elements_by_tag_unfold. simpl.
  rewrite map_id. now destruct (Dom.is_element_named t c).
Qed.

(** A boot element of unknown kind anywhere in the list stops the loop
    with an exception, whatever was removed before. *)
Lemma boot_loop_unknown els kids :
  forallb LibvirtController.known_boot_device
          (map Boot.dev (map snd els)) = false ->
  exists e, LibvirtController.boot_loop els kids = Raise e.
Proof.
  revert kids; induction els as [|[id el] els IH]; intros kids; simpl;
    [discriminate|].
  fold (Boot.dev el).
  destruct (LibvirtController.known_boot_device (Boot.dev el)); simpl.
  - intros H. destruct id as [i|]; [|eauto].
    destruct (LibvirtController.is_child i kids); eauto.
  - eauto.
Qed.

Lemma tagged_from_flat t i cs :
  forallb (fun c => match Dom.getElementsByTagName t c with
                    | [] => true
                    | _ => false
                    end) cs = true ->
  Dom.tagged_from t i cs
  = map with_id (filter (fun k => Dom.is_element_named t (snd k))
                        (combine (seq i (List.length cs)) cs)).
Proof.
  revert i; induction cs as [|c cs IH]; intros i; simpl; [reflexivity|].
  intros H. apply andb_true_iff in H. destruct H as [Hc Hcs].
  unfold Dom.getElementsByTagName in Hc.
  destruct (flat_map (Dom.elements_by_tag t) (Dom.childNodes c));
    [|discriminate].
  simpl. rewrite app_nil_r, (IH (S i) Hcs).
  now destruct (Dom.is_element_named t c).
Qed.

Lemma drop_child_absent i kids :
  ~ In i (map fst kids) -> LibvirtController.drop_child i kids = kids.
Proof.
  unfold LibvirtController.drop_child.
  induction kids as [|k kids IH]; simpl; [reflexivity|].
  intros H. destruct (Nat.eqb_spec (fst k) i) as [E|E]; simpl.
  - exfalso. apply H. now left.
  - f_equal. apply IH. intros Hin. apply H. now right.
Qed.

Lemma drop_child_middle P k K :
  NoDup (map fst (P ++ k :: K)) ->
  LibvirtController.drop_child (fst k) (P ++ k :: K) = P ++ K.
Proof.
  intros ND. rewrite map_app in ND. simpl in ND.
  pose proof (NoDup_remove_2 _ _ _ ND) as Hnot.
  unfold LibvirtController.drop_child.
  rewrite filter_app. simpl. rewrite Nat.eqb_refl. simpl.
  fold (LibvirtController.drop_child (fst k) P).
  fold (LibvirtController.drop_child (fst k) K).
  rewrite !drop_child_absent; [reflexivity| |];
    intros Hin; apply Hnot, in_or_app; auto.
Qed.

Lemma is_child_middle P k K :
  LibvirtController.is_child (fst k) (P ++ k :: K) = true.
Proof.
  unfold LibvirtController.is_child. rewrite existsb_app. simpl.
  rewrite Nat.eqb_refl. now rewrite orb_true_r.
Qed.

(** When every boot element is a child of known kind the loop removes
    exactly the boot children. *)
Lemma boot_loop_removes K P :
  NoDup (map fst (P ++ K)) ->
  forallb (fun k => LibvirtController.known_boot_device (Boot.dev (snd k)))
          (filter (fun k => Boot.is_boot (snd k)) K) = true ->
  LibvirtController.boot_loop
    (map with_id (filter (fun k => Boot.is_boot (snd k)) K)) (P ++ K)
  = Ok (P ++ filter (fun k => negb (Boot.is_boot (snd k))) K).
Proof.
  revert P; induction K as [|k K IH]; intros P ND Hk; simpl.
  - reflexivity.
  - simpl in Hk. destruct (Boot.is_boot (snd k)) eqn:Eb; simpl in *.
    + apply andb_true_iff in Hk. destruct Hk as [Hk1 Hk2].
      fold (Boot.dev (snd k)). rewrite Hk1, is_child_middle.
      rewrite drop_child_middle by exact ND.
      apply IH; [|exact Hk2].
      rewrite map_app in *. simpl in ND. now apply NoDup_remove_1 in ND.
    + change (P ++ k :: K) with (P ++ [k] ++ K) in *.
      rewrite app_assoc in *. rewrite (IH (P ++ [k]) ND Hk).
      now rewrite <- !app_assoc.
Qed.

Lemma number_fst {A} (l : list A) :
  map fst (LibvirtController.number l) = seq 0 (List.length l).
Proof.
  unfold LibvirtController.number. generalize 0.
  induction l as [|x l IH]; intros n; simpl; [reflexivity|].
  now rewrite IH.
Qed.

Lemma number_filter_snd {A} (p : A -> bool) (l : list A) :
  map snd (filter (fun k => p (snd k)) (LibvirtController.number l))
  = filter p l.
Proof.
  unfold LibvirtController.number. generalize 0.
  induction l as [|x l IH]; intros n; simpl; [reflexivity|].
  destruct (p x); simpl; now rewrite IH.
Qed.

Lemma reorder_boot_ok cd_first t attrs cs :
  let os := Dom.Element t attrs cs in
  Boot.all_known os = true ->
  Boot.flat os = true ->
  LibvirtController.reorder_boot cd_first os
  = Ok (Dom.Element t attrs
          (Boot.others os
             ++ map LibvirtController.new_boot (Boot.order cd_first))).
Proof.
  intros os Hknown Hflat. subst os.
  unfold Boot.all_known, Boot.kinds, Dom.getElementsByTagName in Hknown.
  unfold Boot.flat in Hflat. simpl Dom.childNodes in *.
  unfold LibvirtController.reorder_boot, Dom.getElementsByTagName_ids.
  simpl Dom.childNodes.
  rewrite <- (tagged_from_snd "boot" 0 cs) in Hknown.
  rewrite (tagged_from_flat "boot" 0 cs Hflat) in *.
  fold (LibvirtController.number cs) in *.
  assert (HL := boot_loop_removes (LibvirtController.number cs) []).
  unfold Boot.is_boot in HL. simpl in HL. rewrite HL.
  - rewrite (number_filter_snd (fun c => negb (Dom.is_element_named "boot" c)) cs).
    unfold Boot.others. simpl. now destruct cd_first.
  - rewrite number_fst. apply seq_NoDup.
  - rewrite !map_map in Hknown. rewrite forallb_forall in *.
    intros k Hk. apply Hknown. apply in_map_iff. now exists k.
Qed.

Lemma reorder_boot_unknown cd_first os :
  Boot.all_known os = false ->
  exists e, LibvirtController.reorder_boot cd_first os = Raise e.
Proof.
  intros H. destruct os as [t attrs cs|s]; [|discriminate].
  unfold Boot.all_known, Boot.kinds, Dom.getElementsByTagName in H.
  simpl Dom.childNodes in H.
  rewrite <- (tagged_from_snd "boot" 0 cs) in H.
  destruct (boot_loop_unknown (Dom.tagged_from "boot" 0 cs)
              (LibvirtController.number cs) H) as [e He].
  exists e. unfold LibvirtController.reorder_boot, Dom.getElementsByTagName_ids.
  simpl Dom.childNodes. now rewrite He.
Qed.

(** After a successful reordering the boot elements below [os] are the
    two new ones. *)
Lemma boots_after_reorder cd_first t attrs cs :
  let os := Dom.Element t attrs cs in
  Boot.flat os = true ->
  Dom.getElementsByTagName "boot"
    (Dom.Element t attrs
       (Boot.others os ++ map LibvirtController.new_boot (Boot.order cd_first)))
  = map LibvirtController.new_boot (Boot.order cd_first).
Proof.
  intros os Hflat. subst os.
  unfold Dom.getElementsByTagName, Boot.others, Boot.flat in *.
  simpl Dom.childNodes in *. rewrite flat_map_app.
  assert (E : flat_map (Dom.elements_by_tag "boot")
                (filter (fun c => negb (Boot.is_boot c)) cs) = []).
  { induction cs as [|c cs IH]; simpl in *; [reflexivity|].
    apply andb_true_iff in Hflat. destruct Hflat as [Hc Hcs].
    destruct (Boot.is_boot c) eqn:Eb; simpl; [now apply IH|].
    rewrite (IH Hcs), app_nil_r, elements_by_tag_unfold.
    unfold Boot.is_boot in Eb. rewrite Eb.
    unfold Dom.getElementsByTagName in Hc.
    now destruct (flat_map (Dom.elements_by_tag "boot") (Dom.childNodes c)). }
  rewrite E. now destruct cd_first.
Qed.

(** ** The domain a rewritten descriptor names *)

Lemma update_first_tag t f n n' :
  keeps_tag f ->
  Dom.update_first t f n = Some (Ok n') -> Dom.tag_of n' = Dom.tag_of n.
Proof.
  intros Hf. destruct n as [t' attrs cs|s]; simpl; [|discriminate].
  destruct (String.eqb t' t).
  - intros [= E]. exact (Hf _ _ E).
  - destruct (Dom.update_in (Dom.update_first t f) cs) as [[cs'|e]|];
      intros [= <-]. reflexivity.
Qed.

Lemma update_in_head t f cs cs' x a :
  keeps_tag f ->
  Dom.update_in (Dom.update_first t f) cs = Some (Ok cs') ->
  Dom.head_text (Dom.Element x a cs') = Dom.head_text (Dom.Element x a cs).
Proof.
  intros Hf. unfold Dom.head_text. simpl.
  destruct cs as [|c rest]; simpl; [discriminate|].
  destruct (Dom.update_first t f c) as [[c'|e]|] eqn:Ec.
  - intros [= <-]. destruct c as [tc ac csc|s]; [|discriminate Ec].
    apply (update_first_tag _ _ _ _ Hf) in Ec.
    destruct c'; simpl in *; [reflexivity|discriminate].
  - discriminate.
  - destruct (Dom.update_in (Dom.update_first t f) rest) as [[rest'|e]|];
      intros [= <-]. reflexivity.
Qed.

Lemma is_named_tag t c c' :
  Dom.tag_of c' = Dom.tag_of c ->
  Dom.is_element_named t c' = Dom.is_element_named t c.
Proof. destruct c, c'; simpl; intros [=]; subst; reflexivity. Qed.

Lemma update_in_named t f cs cs' :
  t <> "name"%string ->
  keeps_tag f ->
  Dom.update_in (Dom.update_first t f) cs = Some (Ok cs') ->
  named_head cs' = named_head cs.
Proof.
  intros Ht Hf. revert cs'. unfold named_head.
  induction cs as [|c rest IH]; intros cs'; simpl; [discriminate|].
  destruct (Dom.update_first t f c) as [[c'|e]|] eqn:Ec.
  - intros [= <-]. simpl.
    rewrite (is_named_tag "name" c c' (update_first_tag _ _ _ _ Hf Ec)).
    destruct (Dom.is_element_named "name" c) eqn:En; [|reflexivity].
    destruct c as [t' attrs cs|s]; [|discriminate]. simpl in En, Ec.
    apply String.eqb_eq in En. subst t'.
    destruct (String.eqb_spec "name" t) as [E|_]; [now subst|].
    destruct (Dom.update_in (Dom.update_first t f) cs) as [[cs1|e]|] eqn:Ei;
      try discriminate.
    injection Ec as <-. eapply update_in_head; eauto.
  - discriminate.
  - destruct (Dom.update_in (Dom.update_first t f) rest) as [[rest'|e]|];
      intros [= <-]. simpl.
    destruct (Dom.is_element_named "name" c); [reflexivity|].
    now apply IH.
Qed.

Lemma name_of_update t f n n' :
  t <> "name"%string ->
  keeps_tag f ->
  (Dom.is_element_named t n = true ->
   forall el', f n = Ok el' -> Hv.name_of el' = Hv.name_of n) ->
  Dom.update_first t f n = Some (Ok n') ->
  Hv.name_of n' = Hv.name_of n.
Proof.
  intros Ht Hf Hroot. destruct n as [t' attrs cs|s]; simpl; [|discriminate].
  destruct (String.eqb t' t) eqn:Et.
  - intros [= E]. apply Hroot; [exact Et|exact E].
  - destruct (Dom.update_in (Dom.update_first t f) cs) as [[cs'|e]|] eqn:Ei;
      intros [= <-].
    apply (update_in_named t f cs cs' Ht Hf Ei).
Qed.

Lemma elements_by_tag_all_named t n el :
  In el (Dom.elements_by_tag t n) -> Dom.is_element_named t el = true.
Proof.
  revert el. induction n as [s|t' attrs cs IH] using node_children_ind;
    intros el; simpl; [contradiction|].
  intros H. apply in_app_or in H. destruct H as [H|H].
  - destruct (String.eqb t' t) eqn:E; [|contradiction].
    destruct H as [<-|[]]. exact E.
  - apply in_flat_map in H. destruct H as (c & Hc & Hel).
    rewrite Forall_forall in IH. exact (IH c Hc el Hel).
Qed.

Lemma first_by_tag_named t n el :
  Dom.first_by_tag t n = Some el -> Dom.is_element_named t el = true.
Proof.
  unfold Dom.first_by_tag. intros H.
  apply (elements_by_tag_all_named t n).
  destruct (Dom.elements_by_tag t n); [discriminate|].
  injection H as ->. now left.
Qed.

Lemma first_by_tag_root t n :
  Dom.is_element_named t n = true -> Dom.first_by_tag t n = Some n.
Proof. apply elements_by_tag_named. Qed.

Lemma defineXML_accepted c doc name d :
  Hv.find_domain name (domains c) = Some d ->
  Hv.name_of doc = Some name ->
  accepts c doc = true ->
  exists c',
    Hv.defineXML doc c = (Ok (Some name), c')
    /\ trace c' = trace c ++ [EvDefineXML doc]
    /\ Calls.descriptor name c' = Some doc
    /\ Calls.power_state name c' = Calls.power_state name c.
Proof.
  intros Hf Hn Ha. unfold Hv.defineXML, bind, log, set_domains, ret. simpl.
  rewrite Hn, Ha, Hf. eexists. split; [reflexivity|]. simpl.
  split; [reflexivity|].
  unfold Calls.descriptor, Calls.power_state. simpl.
  rewrite (find_put_domain name name d _ _ Hf)
    by (simpl; eapply find_domain_name; eauto).
  rewrite String.eqb_refl, Hf. split; reflexivity.
Qed.

Lemma defineXML_rejected c doc :
  accepts c doc = false ->
  exists c',
    Hv.defineXML doc c = (Ok None, c')
    /\ trace c' = trace c ++ [EvDefineXML doc]
    /\ domains c' = domains c.
Proof.
  intros Ha. unfold Hv.defineXML, bind, log. simpl. rewrite Ha.
  destruct (Hv.name_of doc); eexists; (split; [reflexivity|]); split; reflexivity.
Qed.

Lemma keeps_tag_reorder cd_first :
  keeps_tag (LibvirtController.reorder_boot cd_first).
Proof.
  intros [t attrs cs|s] el'; simpl; [|discriminate].
  destruct (LibvirtController.boot_loop _ _); [|discriminate].
  now intros [= <-].
Qed.

Lemma named_head_others cs l :
  named_head (filter (fun c => negb (Boot.is_boot c)) cs
                ++ map LibvirtController.new_boot l)
  = named_head cs.
Proof.
  unfold named_head. induction cs as [|c cs IH]; simpl.
  - induction l as [|x l IHl]; simpl; [reflexivity|exact IHl].
  - destruct c as [t attrs k|s]; simpl.
    + destruct (String.eqb_spec t "boot") as [->|Hb]; simpl; [exact IH|].
      destruct (String.eqb t "name"); [reflexivity|exact IH].
    + exact IH.
Qed.

(** ** Boot order *)

Lemma reorder_document cd_first xml os :
  Dom.first_by_tag "os" xml = Some os ->
  Boot.all_known os = true ->
  Boot.flat os = true ->
  exists xml',
    Dom.update_first "os" (LibvirtController.reorder_boot cd_first) xml
    = Some (Ok xml')
    /\ Dom.first_by_tag "os" xml' = Some (BootOrder.reordered cd_first os)
    /\ Hv.name_of xml' = Hv.name_of xml.
Proof.
  intros Hos Hknown Hflat.
  pose proof (first_by_tag_named _ _ _ Hos) as Hnamed.
  destruct os as [t attrs cs|s]; [|discriminate].
  pose proof (reorder_boot_ok cd_first t attrs cs Hknown Hflat) as Hre.
  pose proof (update_first_spec "os"
                (LibvirtController.reorder_boot cd_first) xml) as Hspec.
  unfold update_spec in Hspec. unfold Dom.first_by_tag in Hos.
  rewrite Hos, Hre in Hspec. destruct Hspec as (xml' & Hup & Hfirst).
  exists xml'. split; [exact Hup|]. split.
  - apply Hfirst. exact Hnamed.
  - apply (name_of_update "os" (LibvirtController.reorder_boot cd_first)
             xml xml'); try assumption.
    + discriminate.
    + apply keeps_tag_reorder.
    + intros Hroot el' Hel.
      pose proof (first_by_tag_root _ _ Hroot) as Hr.
      unfold Dom.first_by_tag in Hr. rewrite Hos in Hr. injection Hr as <-.
      rewrite Hre in Hel. injection Hel as <-.
      unfold Hv.name_of. simpl Dom.childNodes. unfold Boot.others.
      simpl Dom.childNodes. apply named_head_others.
Qed.

(** C2. For a domain whose descriptor names it and whose [os] element has
    boot elements only as children and only of kind [cdrom] or [hd] (any
    number of them), [set_boot_order] submits a descriptor whose [os]
    element holds exactly two boot elements, [cdrom, hd] when [cd_first]
    and [hd, cdrom] otherwise, after the other children of [os], which it
    keeps.  When the hypervisor accepts it, the call succeeds and that
    descriptor is the domain's descriptor; when it refuses, the call
    raises and the descriptor stays. *)
Theorem C2_set_boot_order_two_boots (c : conn) (node_name : string)
    (d : domain) (os : Dom.node) (cd_first : bool) :
  Hv.find_domain node_name (domains c) = Some d ->
  Hv.name_of (dom_xml d) = Some node_name ->
  Dom.first_by_tag "os" (dom_xml d) = Some os ->
  Boot.all_known os = true ->
  Boot.flat os = true ->
  exists xml' os',
    Dom.first_by_tag "os" xml' = Some os'
    /\ Boot.kinds os' = Boot.order cd_first
    /\ map Boot.dev (filter Boot.is_boot (Dom.childNodes os'))
       = Boot.order cd_first
    /\ Boot.others os' = Boot.others os
    /\ (accepts c xml' = true ->
        exists c',
          LibvirtController.set_boot_order node_name cd_first c = (Ok tt, c')
          /\ Calls.descriptor node_name c' = Some xml'
          /\ trace c' = trace c ++ [EvDefineXML xml'])
    /\ (accepts c xml' = false ->
        exists c',
          LibvirtController.set_boot_order node_name cd_first c
          = (Raise (PlainException "Failed to set boot order"), c')
          /\ Calls.descriptor node_name c' = Some (dom_xml d)).
Proof.
  intros Hf Hname Hos Hknown Hflat.
  destruct (reorder_document cd_first _ _ Hos Hknown Hflat)
    as (xml' & Hup & Hfirst & Hn).
  exists xml', (BootOrder.reordered cd_first os).
  pose proof (first_by_tag_named _ _ _ Hos) as Hnamed.
  destruct os as [t attrs cs|s]; [|discriminate].
  split; [exact Hfirst|].
  assert (Hboots := boots_after_reorder cd_first t attrs cs Hflat).
  split.
  { unfold Boot.kinds, BootOrder.reordered. rewrite Hboots.
    now destruct cd_first. }
  split.
  { unfold BootOrder.reordered, Boot.others. simpl Dom.childNodes.
    rewrite filter_app, map_app.
    replace (filter Boot.is_boot
               (filter (fun c0 => negb (Boot.is_boot c0)) cs)) with (@nil Dom.node).
    - now destruct cd_first.
    - clear. induction cs as [|x cs IH]; simpl; [reflexivity|].
      destruct (Boot.is_boot x) eqn:E; simpl; [exact IH|now rewrite E]. }
  split.
  { unfold BootOrder.reordered, Boot.others. simpl Dom.childNodes.
    rewrite filter_app.
    replace (filter (fun c0 => negb (Boot.is_boot c0))
               (map LibvirtController.new_boot (Boot.order cd_first)))
      with (@nil Dom.node) by now destruct cd_first.
    rewrite app_nil_r. clear.
    induction cs as [|x cs IH]; simpl; [reflexivity|].
    destruct (Boot.is_boot x) eqn:E; simpl; [exact IH|].
    rewrite E. simpl. now rewrite IH. }
  assert (Hrun :
    LibvirtController.set_boot_order node_name cd_first c
    = (dom <- Hv.defineXML xml' ;;
       match dom with
       | None => raise (PlainException "Failed to set boot order")
       | Some _ => ret tt
       end) c).
  { unfold LibvirtController.set_boot_order. do 2 step.
    erewrite bind_ok; [reflexivity|].
    unfold LibvirtController.with_first. now rewrite Hup. }
  split.
  - intros Hacc.
    destruct (defineXML_accepted c xml' node_name d Hf
                ltac:(now rewrite Hn) Hacc) as (c' & Hd & Ht & Hdesc & _).
    exists c'. rewrite Hrun. erewrite bind_ok by exact Hd. auto.
  - intros Hrej.
    destruct (defineXML_rejected c xml' Hrej) as (c' & Hd & Ht & Hdom).
    exists c'. rewrite Hrun. erewrite bind_ok by exact Hd.
    split; [reflexivity|].
    unfold Calls.descriptor. now rewrite Hdom, Hf.
Qed.

Lemma C2_set_boot_order_witness :
  exists xml' os' c',
    LibvirtController.set_boot_order "cluster-master-0" true Sample.session
    = (Ok tt, c')
    /\ Calls.descriptor "cluster-master-0" c' = Some xml'
    /\ Dom.first_by_tag "os" xml' = Some os'
    /\ Boot.kinds os' = ["cdrom"; "hd"]%string.
Proof.
  destruct (C2_set_boot_order_two_boots Sample.session "cluster-master-0"
              Sample.master
              (Dom.Element "os" []
                 [Sample.os_type; Sample.boot "hd"; Sample.boot "cdrom";
                  Sample.boot "hd"])
              true eq_refl eq_refl eq_refl eq_refl eq_refl)
    as (xml' & os' & Hfirst & Hkinds & _ & _ & Hacc & _).
  destruct (Hacc eq_refl) as (c' & Hrun & Hdesc & _).
  exists xml', os', c'. repeat split; assumption.
Defined.

(** C3. For a domain whose [os] element has, at any depth, a boot element
    of a kind other than [cdrom] and [hd], [set_boot_order] raises, and
    the session it leaves is the session it found: no descriptor was
    submitted and the domain's descriptor is what it was. *)
Theorem C3_set_boot_order_unknown_device (c : conn) (node_name : string)
    (d : domain) (os : Dom.node) (cd_first : bool) :
  Hv.find_domain node_name (domains c) = Some d ->
  Dom.first_by_tag "os" (dom_xml d) = Some os ->
  Boot.all_known os = false ->
  exists e,
    LibvirtController.set_boot_order node_name cd_first c = (Raise e, c)
    /\ Calls.descriptor node_name c = Some (dom_xml d).
Proof.
  intros Hf Hos Hunknown.
  destruct (reorder_boot_unknown cd_first os Hunknown) as [e He].
  pose proof (update_first_spec "os"
                (LibvirtController.reorder_boot cd_first) (dom_xml d)) as Hspec.
  unfold update_spec in Hspec. unfold Dom.first_by_tag in Hos.
  rewrite Hos, He in Hspec.
  exists e. split.
  - unfold LibvirtController.set_boot_order. do 2 step.
    erewrite bind_raise; [reflexivity|].
    unfold LibvirtController.with_first. now rewrite Hspec.
  - unfold Calls.descriptor. now rewrite Hf.
Qed.

Lemma C3_set_boot_order_unknown_device_witness :
  LibvirtController.set_boot_order "cluster-worker-1" true Sample.session
  = (Raise (ValueError "Found unexpected boot device: 'floppy'"),
     Sample.session).
Proof.
  destruct (C3_set_boot_order_unknown_device Sample.session "cluster-worker-1"
              Sample.floppy
              (Dom.Element "os" []
                 [Sample.os_type; Sample.boot "hd"; Sample.boot "floppy"])
              true eq_refl eq_refl eq_refl) as (e & Hrun & _).
  rewrite Hrun. vm_compute in Hrun. injection Hrun as <-. reflexivity.
Defined.

(** ** Integers as text *)

Lemma lstrip_no_space s :
  Py.all_chars (fun c => negb (Py.is_space c)) s = true -> PyInt.lstrip s = s.
Proof.
  destruct s as [|c s]; simpl; [reflexivity|].
  intros H. apply andb_true_iff in H. destruct H as [H _].
  apply negb_true_iff in H. unfold PyInt.is_space. now rewrite H.
Qed.

Lemma rstrip_no_space s :
  Py.all_chars (fun c => negb (Py.is_space c)) s = true -> PyInt.rstrip s = s.
Proof.
  induction s as [|c s IH]; simpl; [reflexivity|].
  intros H. apply andb_true_iff in H. destruct H as [Hc Hs].
  apply negb_true_iff in Hc. rewrite (IH Hs). unfold PyInt.is_space.
  rewrite Hc. now destruct s.
Qed.

Lemma uint_no_space d :
  Py.all_chars (fun c => negb (Py.is_space c)) (NilEmpty.string_of_uint d) = true.
Proof. induction d; simpl; auto. Qed.

Lemma str_no_space z :
  Py.all_chars (fun c => negb (Py.is_space c)) (PyInt.str z) = true.
Proof.
  unfold PyInt.str, NilZero.string_of_int, NilZero.string_of_uint.
  destruct (Z.to_int z) as [d|d]; destruct d; simpl;
    try reflexivity; apply uint_no_space.
Qed.

(** [int(str(z)) == z] *)
Lemma parse_str z : PyInt.parse (PyInt.str z) = Some z.
Proof.
  unfold PyInt.parse.
  rewrite (lstrip_no_space _ (str_no_space z)),
          (rstrip_no_space _ (str_no_space z)).
  unfold PyInt.str. rewrite NilZero.isi.
  - simpl. now rewrite DecimalZ.of_to.
  - destruct z; simpl; try discriminate.
    intros [= H]. now apply DecimalPos.Unsigned.to_uint_nonnil in H.
  - destruct z; simpl; try discriminate.
    intros [= H]. now apply DecimalPos.Unsigned.to_uint_nonnil in H.
Qed.

(** ** Elements a rewrite leaves alone *)

Lemma heads_update_in t t' f cs :
  Forall (fun c => forall c1,
            Dom.update_first t f c = Some (Ok c1) ->
            map Dom.head_text (Dom.elements_by_tag t' c1)
            = map Dom.head_text (Dom.elements_by_tag t' c)) cs ->
  forall cs1,
    Dom.update_in (Dom.update_first t f) cs = Some (Ok cs1) ->
    map Dom.head_text (flat_map (Dom.elements_by_tag t') cs1)
    = map Dom.head_text (flat_map (Dom.elements_by_tag t') cs).
Proof.
  intros H. induction H as [|c cs Hc _ IH]; intros cs1; simpl; [discriminate|].
  destruct (Dom.update_first t f c) as [[c1|e]|] eqn:Ec.
  - intros [= <-]. simpl. rewrite !map_app. f_equal. now apply Hc.
  - discriminate.
  - destruct (Dom.update_in (Dom.update_first t f) cs) as [[cs'|e]|];
      intros [= <-]. simpl. rewrite !map_app. f_equal. now apply IH.
Qed.

(** Rewriting the first element named [t] changes neither which elements
    of another name exist nor the text they start with. *)
Lemma heads_update t t' f n :
  t <> t' ->
  keeps_tag f ->
  keeps_elements t' f ->
  forall n1,
    Dom.update_first t f n = Some (Ok n1) ->
    map Dom.head_text (Dom.elements_by_tag t' n1)
    = map Dom.head_text (Dom.elements_by_tag t' n).
Proof.
  intros Ht Hf Hel.
  induction n as [s|tg attrs cs IH] using node_children_ind; intros n1;
    [discriminate|].
  cbn [Dom.update_first].
  destruct (String.eqb_spec tg t) as [->|Hne].
  - intros [= E]. pose proof (Hf _ _ E) as Htag. pose proof (Hel _ _ E) as Hch.
    destruct n1 as [t1 a1 cs1|s]; [|discriminate]. simpl in Htag.
    injection Htag as ->. simpl in Hch. simpl.
    destruct (String.eqb_spec t t'); [contradiction|]. simpl. now rewrite Hch.
  - destruct (Dom.update_in (Dom.update_first t f) cs) as [[cs1|e]|] eqn:Ei;
      intros [= <-].
    cbn [Dom.elements_by_tag]. rewrite !map_app.
    rewrite (heads_update_in t t' f cs IH cs1 Ei). f_equal.
    destruct (String.eqb tg t'); [|reflexivity].
    simpl. f_equal. exact (update_in_head t f cs cs1 tg attrs Hf Ei).
Qed.

Lemma flat_map_drop_text t l :
  flat_map (Dom.elements_by_tag t) (LibvirtController.drop_text l)
  = flat_map (Dom.elements_by_tag t) l.
Proof.
  induction l as [|x l IH]; simpl; [reflexivity|].
  destruct x as [tg a cs|s]; simpl; [reflexivity|exact IH].
Qed.

Lemma keeps_tag_replace kib :
  keeps_tag (LibvirtController.replace_first_text kib).
Proof.
  intros [t attrs [|[tg a k|s] rest]|s] el'; simpl; try discriminate.
  destruct (Z.eqb kib 0); now intros [= <-].
Qed.

Lemma keeps_elements_replace t' kib :
  keeps_elements t' (LibvirtController.replace_first_text kib).
Proof.
  intros [t attrs [|[tg a k|s] rest]|s] el'; simpl; try discriminate.
  destruct (Z.eqb kib 0); intros [= <-]; simpl; apply flat_map_drop_text.
Qed.

Lemma named_head_drop_text l :
  named_head (LibvirtController.drop_text l) = named_head l.
Proof.
  unfold named_head. induction l as [|x l IH]; simpl; [reflexivity|].
  destruct x as [tg a cs|s]; simpl; [reflexivity|exact IH].
Qed.

Lemma name_of_replace kib el el' :
  LibvirtController.replace_first_text kib el = Ok el' ->
  Hv.name_of el' = Hv.name_of el.
Proof.
  destruct el as [t attrs [|[tg a k|s] rest]|s]; simpl; try discriminate.
  unfold Hv.name_of.
  destruct (Z.eqb kib 0); intros [= <-]; simpl Dom.childNodes;
    fold (named_head (LibvirtController.drop_text rest));
    fold (named_head (Dom.Text s :: rest));
    fold (named_head (Dom.Text (PyInt.str kib)
                        :: LibvirtController.drop_text rest));
    unfold named_head at 1 2; simpl;
    fold (named_head (LibvirtController.drop_text rest));
    fold (named_head rest); apply named_head_drop_text.
Qed.

(** ** Memory *)

Lemma heads_first (l1 l : list Dom.node) el :
  map Dom.head_text l1 = map Dom.head_text l ->
  hd_error l = Some el ->
  exists el1, hd_error l1 = Some el1 /\ Dom.head_text el1 = Dom.head_text el.
Proof.
  destruct l as [|x l]; [discriminate|]. intros H [= <-].
  destruct l1 as [|x1 l1]; [discriminate|]. injection H as H _.
  now exists x1.
Qed.

Lemma replace_document kib t xml el :
  Dom.first_by_tag t xml = Some el ->
  Dom.head_text el <> None ->
  kib <> 0%Z ->
  t <> "name"%string ->
  exists xml' el',
    Dom.update_first t (LibvirtController.replace_first_text kib) xml
    = Some (Ok xml')
    /\ Dom.first_by_tag t xml' = Some el'
    /\ Dom.head_text el' = Some (PyInt.str kib)
    /\ Hv.name_of xml' = Hv.name_of xml.
Proof.
  intros Hfirst Hhead Hkib Ht.
  pose proof (first_by_tag_named _ _ _ Hfirst) as Hnamed.
  destruct el as [tg attrs cs|s]; [|discriminate].
  unfold Dom.head_text in Hhead. simpl in Hhead.
  destruct cs as [|[tg' a' k'|s] rest]; try contradiction.
  set (el' := Dom.Element tg attrs
                (Dom.Text (PyInt.str kib) :: LibvirtController.drop_text rest)).
  assert (Hre : LibvirtController.replace_first_text kib
                  (Dom.Element tg attrs (Dom.Text s :: rest)) = Ok el').
  { simpl. apply Z.eqb_neq in Hkib. now rewrite Hkib. }
  pose proof (update_first_spec t
                (LibvirtController.replace_first_text kib) xml) as Hspec.
  unfold update_spec in Hspec. unfold Dom.first_by_tag in Hfirst.
  rewrite Hfirst, Hre in Hspec. destruct Hspec as (xml' & Hup & Hf').
  exists xml', el'. split; [exact Hup|]. split; [apply Hf'; exact Hnamed|].
  split; [reflexivity|].
  apply (name_of_update t (LibvirtController.replace_first_text kib) xml xml');
    try assumption.
  - apply keeps_tag_replace.
  - intros _ x Hx. exact (name_of_replace kib xml x Hx).
Qed.

Lemma read_first_head t xml el z c :
  Dom.first_by_tag t xml = Some el ->
  Dom.head_text el = Some (PyInt.str z) ->
  LibvirtController.read_first t xml c = (Ok z, c).
Proof.
  intros Hfirst Hhead. unfold LibvirtController.read_first.
  rewrite Hfirst. unfold LibvirtController.int_of_first_child.
  unfold Dom.head_text in Hhead.
  destruct (Dom.childNodes el) as [|[tg a k|s] rest]; try discriminate.
  injection Hhead as ->. now rewrite parse_str.
Qed.

(** What [set_ram_kib] submits: both elements rewritten. *)
Lemma set_ram_document kib xml mem cur :
  Dom.first_by_tag "memory" xml = Some mem ->
  Dom.head_text mem <> None ->
  Dom.first_by_tag "currentMemory" xml = Some cur ->
  Dom.head_text cur <> None ->
  kib <> 0%Z ->
  exists xml1 xml2 mem2 cur2,
    Dom.update_first "memory" (LibvirtController.replace_first_text kib) xml
    = Some (Ok xml1)
    /\ Dom.update_first "currentMemory"
         (LibvirtController.replace_first_text kib) xml1 = Some (Ok xml2)
    /\ Dom.first_by_tag "memory" xml2 = Some mem2
    /\ Dom.head_text mem2 = Some (PyInt.str kib)
    /\ Dom.first_by_tag "currentMemory" xml2 = Some cur2
    /\ Dom.head_text cur2 = Some (PyInt.str kib)
    /\ Hv.name_of xml2 = Hv.name_of xml.
Proof.
  intros Hmem Hmh Hcur Hch Hkib.
  destruct (replace_document kib "memory" xml mem Hmem Hmh Hkib)
    as (xml1 & mem1 & Hup1 & Hmem1 & Hmh1 & Hn1); [discriminate|].
  pose proof (heads_update "memory" "currentMemory"
                (LibvirtController.replace_first_text kib) xml
                ltac:(discriminate) (keeps_tag_replace kib)
                (keeps_elements_replace "currentMemory" kib) xml1 Hup1) as Hh1.
  destruct (heads_first _ _ cur Hh1 Hcur) as (cur1 & Hcur1 & Hch1).
  destruct (replace_document kib "currentMemory" xml1 cur1 Hcur1
              ltac:(now rewrite Hch1) Hkib)
    as (xml2 & cur2 & Hup2 & Hcur2 & Hch2 & Hn2); [discriminate|].
  pose proof (heads_update "currentMemory" "memory"
                (LibvirtController.replace_first_text kib) xml1
                ltac:(discriminate) (keeps_tag_replace kib)
                (keeps_elements_replace "memory" kib) xml2 Hup2) as Hh2.
  destruct (heads_first _ _ mem1 Hh2 Hmem1) as (mem2 & Hmem2 & Hmh2).
  exists xml1, xml2, mem2, cur2.
  repeat split; try assumption; congruence.
Qed.

(** Away from 0 the round trip holds.  For a domain whose descriptor names it and has a
    [memory] and a [currentMemory] element that start with text, and for
    every [ram_kib] other than 0, [set_ram_kib] submits a descriptor whose
    [memory] and [currentMemory] elements both start with the decimal text
    of [ram_kib].  When the hypervisor refuses it the call raises and the
    descriptor stays; when it accepts, the call succeeds and [get_ram_kib]
    then returns [ram_kib]. *)
Theorem set_ram_kib_round_trip (c : conn) (node_name : string) (d : domain)
    (mem cur : Dom.node) (ram_kib : Z) :
  Hv.find_domain node_name (domains c) = Some d ->
  Hv.name_of (dom_xml d) = Some node_name ->
  Dom.first_by_tag "memory" (dom_xml d) = Some mem ->
  Dom.head_text mem <> None ->
  Dom.first_by_tag "currentMemory" (dom_xml d) = Some cur ->
  Dom.head_text cur <> None ->
  ram_kib <> 0%Z ->
  exists xml' mem' cur',
    Dom.first_by_tag "memory" xml' = Some mem'
    /\ Dom.head_text mem' = Some (PyInt.str ram_kib)
    /\ Dom.first_by_tag "currentMemory" xml' = Some cur'
    /\ Dom.head_text cur' = Some (PyInt.str ram_kib)
    /\ (accepts c xml' = true ->
        exists c',
          LibvirtController.set_ram_kib node_name ram_kib c = (Ok tt, c')
          /\ trace c' = trace c ++ [EvDefineXML xml']
          /\ Calls.descriptor node_name c' = Some xml'
          /\ LibvirtController.get_ram_kib node_name c' = (Ok ram_kib, c'))
    /\ (accepts c xml' = false ->
        exists c',
          LibvirtController.set_ram_kib node_name ram_kib c
          = (Raise (PlainException "Failed to set memory"), c')
          /\ Calls.descriptor node_name c' = Some (dom_xml d)).
Proof.
  intros Hf Hname Hmem Hmh Hcur Hch Hkib.
  destruct (set_ram_document ram_kib (dom_xml d) mem cur Hmem Hmh Hcur Hch Hkib)
    as (xml1 & xml2 & mem2 & cur2 & Hup1 & Hup2 & Hmem2 & Hmh2 & Hcur2 & Hch2 & Hn).
  exists xml2, mem2, cur2.
  do 4 (split; [assumption|]).
  assert (Hrun :
    LibvirtController.set_ram_kib node_name ram_kib c
    = (dom <- Hv.defineXML xml2 ;;
       match dom with
       | None => raise (PlainException "Failed to set memory")
       | Some _ => ret tt
       end) c).
  { unfold LibvirtController.set_ram_kib, LibvirtController._get_xml.
    erewrite bind_ok
      by (erewrite bind_ok by eauto with ctl; eauto with ctl).
    erewrite bind_ok
      by (unfold LibvirtController.with_first; rewrite Hup1; reflexivity).
    erewrite bind_ok
      by (unfold LibvirtController.with_first; rewrite Hup2; reflexivity).
    reflexivity. }
  split.
  - intros Hacc.
    destruct (defineXML_accepted c xml2 node_name d Hf
                ltac:(now rewrite Hn) Hacc) as (c' & Hd & Ht & Hdesc & _).
    exists c'. rewrite Hrun. erewrite bind_ok by exact Hd.
    split; [reflexivity|]. split; [exact Ht|]. split; [exact Hdesc|].
    unfold Calls.descriptor in Hdesc.
    destruct (Hv.find_domain node_name (domains c')) as [d'|] eqn:Hf';
      [|discriminate].
    injection Hdesc as Hxml.
    unfold LibvirtController.get_ram_kib, LibvirtController._get_xml.
    erewrite bind_ok
      by (erewrite bind_ok by eauto with ctl; eauto with ctl).
    rewrite Hxml. exact (read_first_head _ _ _ _ _ Hcur2 Hch2).
  - intros Hrej.
    destruct (defineXML_rejected c xml2 Hrej) as (c' & Hd & Ht & Hdom).
    exists c'. rewrite Hrun. erewrite bind_ok by exact Hd.
    split; [reflexivity|].
    unfold Calls.descriptor. now rewrite Hdom, Hf.
Qed.

Lemma set_ram_kib_round_trip_run :
  exists c',
    LibvirtController.set_ram_kib "cluster-master-0" 4194304 Sample.session
    = (Ok tt, c')
    /\ LibvirtController.get_ram_kib "cluster-master-0" c' = (Ok 4194304%Z, c').
Proof.
  destruct (set_ram_kib_round_trip Sample.session "cluster-master-0" Sample.master
              (Dom.Element "memory" [("unit", "KiB")] [Dom.Text "8388608"])
              (Dom.Element "currentMemory" [("unit", "KiB")]
                 [Dom.Text "8388608"])
              4194304 eq_refl eq_refl eq_refl ltac:(discriminate)
              eq_refl ltac:(discriminate) ltac:(discriminate))
    as (xml' & mem' & cur' & _ & _ & _ & _ & Hacc & _).
  destruct (Hacc eq_refl) as (c' & Hset & _ & _ & Hget).
  exists c'. split; assumption.
Defined.

(** C7.  [set_ram_kib] misses its purpose at [ram_kib = 0]:
    [replaceWholeText(0)] removes the text nodes instead of writing [0],
    the call returns normally after submitting a descriptor whose [memory]
    and [currentMemory] elements are empty, and [get_ram_kib] then raises
    instead of returning 0. *)
Lemma C7_zero_is_not_written :
  exists c' xml',
    LibvirtController.set_ram_kib "cluster-master-0" 0 Sample.session
    = (Ok tt, c')
    /\ Calls.descriptor "cluster-master-0" c' = Some xml'
    /\ option_map Dom.childNodes (Dom.first_by_tag "memory" xml') = Some []
    /\ option_map Dom.childNodes (Dom.first_by_tag "currentMemory" xml')
       = Some []
    /\ LibvirtController.get_ram_kib "cluster-master-0" c'
       = (Raise AttributeError, c')
    /\ fst (LibvirtController.get_ram_kib "cluster-master-0" c') <> Ok 0%Z.
Proof.
  do 2 eexists. split; [vm_compute; reflexivity|].
  split; [vm_compute; reflexivity|].
  repeat split; try (vm_compute; reflexivity).
  vm_compute. discriminate.
Qed.

(** ** Which exceptions reach the caller *)

(** C1 as stated fails in the wait-for-IP phase: the lease query made by
    the first poll of [start_node] raises, the same query made by
    [get_node_ips_and_macs] hands that exception to its caller, and yet
    [start_node] returns normally. *)
Lemma C1_poll_error_is_swallowed :
  let name := "cluster-master-1"%string in
  let e := LibvirtError "lease file is busy" in
  exists c1 c2 c3 c',
    Hv.create name Sample.session = (Ok tt, c1)
    /\ Hv.interfaceAddresses name c1 = (Raise e, c2)
    /\ LibvirtController.get_node_ips_and_macs name c1 = (Raise e, c3)
    /\ LibvirtController.start_node name Sample.session = (Ok tt, c')
    /\ fst (LibvirtController.start_node name Sample.session) <> Raise e.
Proof.
  intros name e. do 4 eexists.
  split; [vm_compute; reflexivity|].
  split; [vm_compute; reflexivity|].
  split; [vm_compute; reflexivity|].
  split; [vm_compute; reflexivity|].
  vm_compute. discriminate.
Qed.

(** ** Scripts *)

Lemma bind_ext {A B} (m1 m2 : M A) (k1 k2 : A -> M B) c :
  m1 c = m2 c -> (forall a c1, k1 a c1 = k2 a c1) ->
  bind m1 k1 c = bind m2 k2 c.
Proof.
  intros Hm Hk. unfold bind. rewrite Hm.
  destruct (m2 c) as [[a|e] c1]; [apply Hk|reflexivity].
Qed.

Lemma bind_assoc {A B C} (m : M A) (k1 : A -> M B) (k2 : B -> M C) c :
  bind (bind m k1) k2 c = bind m (fun a => bind (k1 a) k2) c.
Proof. unfold bind. now destruct (m c) as [[a|e] c1]. Qed.

Lemma bind_ret {A} (m : M A) c : bind m (fun a => ret a) c = m c.
Proof. unfold bind, ret. now destruct (m c) as [[a|e] c1]. Qed.

Lemma try_ext {A} (m1 m2 : M A) handles (h1 h2 : exn -> M A) c :
  m1 c = m2 c -> (forall e c1, h1 e c1 = h2 e c1) ->
  try_except m1 handles h1 c = try_except m2 handles h2 c.
Proof.
  intros Hm Hh. unfold try_except. rewrite Hm.
  destruct (m2 c) as [[a|e] c1]; [reflexivity|].
  destruct (handles e); [apply Hh|reflexivity].
Qed.

Lemma run_sbind hv A B (s : script A) (f : A -> script B) c :
  run hv (sbind s f) c = bind (run hv s) (fun a => run hv (f a)) c.
Proof.
  revert c.
  induction s as [A a|A e|A X p rest IH|A X body IHb k handler IHh rest IH];
    intros c; simpl.
  - reflexivity.
  - reflexivity.
  - rewrite bind_assoc. apply bind_ext; [reflexivity|]. intros x c1. apply IH.
  - rewrite bind_assoc. apply bind_ext; [reflexivity|]. intros x c1. apply IH.
Qed.

Lemma run_call hv X (p : Api.call X) c : run hv (call p) c = hv X p c.
Proof. unfold call. simpl. apply bind_ret. Qed.

Lemma run_try hv A (body : script A) k handler c :
  run hv (try_ body k handler) c
  = try_except (run hv body) (handles k) (fun e => run hv (handler e)) c.
Proof. unfold try_. simpl. apply bind_ret. Qed.

Lemma run_lift hv A (r : result A) c : run hv (lift r) c = (r, c).
Proof. now destruct r. Qed.

Lemma raised_sbind hv A B (s : script A) (f : A -> script B) c :
  raised hv (sbind s f) c
  = raised hv s c
    ++ match run hv s c with
       | (Ok a, c1) => raised hv (f a) c1
       | (Raise _, _) => []
       end.
Proof.
  revert c.
  induction s as [A a|A e|A X p rest IH|A X body IHb k handler IHh rest IH];
    intros c; simpl.
  - reflexivity.
  - reflexivity.
  - unfold bind. destruct (hv X p c) as [[x|e] c1]; [apply IH|reflexivity].
  - rewrite <- app_assoc. f_equal. unfold bind, try_except.
    destruct (run hv body c) as [[x|e] c1].
    + apply IH.
    + destruct (handles k e); [|reflexivity].
      rewrite <- app_assoc. f_equal.
      destruct (run hv (handler e) c1) as [[x|e'] c2]; [apply IH|reflexivity].
Qed.

Lemma raised_call hv X (p : Api.call X) c :
  raised hv (call p) c
  = match hv X p c with
    | (Ok _, _) => []
    | (Raise e, c1) => [(Called p, e, c1, [])]
    end.
Proof. unfold call. simpl. now destruct (hv X p c) as [[x|e] c1]. Qed.

Lemma in_inside f r l :
  In r (map (inside f) l) ->
  exists o e c under, r = (o, e, c, under ++ [f]) /\ In (o, e, c, under) l.
Proof.
  intros H. apply in_map_iff in H. destruct H as ([[[o e] c] u] & <- & Hin).
  now exists o, e, c, u.
Qed.

Lemma uncaught_app e u v :
  Propagation.uncaught e (u ++ v)
  = Propagation.uncaught e u && Propagation.uncaught e v.
Proof. apply forallb_app. Qed.

(** An exception that no frame around it catches ends the run, there and
    as it is. *)
Lemma raised_uncaught hv A (s : script A) c o e c' under :
  In (o, e, c', under) (raised hv s c) ->
  Propagation.uncaught e under = true ->
  run hv s c = (Raise e, c').
Proof.
  revert c under.
  induction s as [A a|A e0|A X p rest IH|A X body IHb k handler IHh rest IH];
    intros c under Hin Hun; simpl in Hin |- *.
  - contradiction.
  - destruct Hin as [[= <- <- <- <-]|[]]. reflexivity.
  - unfold bind. destruct (hv X p c) as [[x|e1] c1].
    + eapply IH; eauto.
    + destruct Hin as [[= <- <- <- <-]|[]]. reflexivity.
  - apply in_app_or in Hin. destruct Hin as [Hin|Hin].
    + apply in_inside in Hin.
      destruct Hin as (o1 & e1 & c1 & u1 & [= -> -> -> ->] & Hin).
      rewrite uncaught_app in Hun.
      apply andb_true_iff in Hun. destruct Hun as [Hu1 Hk].
      simpl in Hk. rewrite andb_true_r in Hk. apply negb_true_iff in Hk.
      unfold bind, try_except. rewrite (IHb _ _ Hin Hu1), Hk. reflexivity.
    + unfold bind, try_except.
      destruct (run hv body c) as [[x|e1] c1].
      * eapply IH; eauto.
      * destruct (handles k e1); [|contradiction].
        apply in_app_or in Hin. destruct Hin as [Hin|Hin].
        -- apply in_inside in Hin.
           destruct Hin as (o2 & e2 & c2 & u2 & [= -> -> -> ->] & Hin).
           rewrite uncaught_app in Hun.
           apply andb_true_iff in Hun. destruct Hun as [Hu2 _].
           now rewrite (IHh _ _ _ Hin Hu2).
        -- destruct (run hv (handler e1) c1) as [[x|e2] c2]; [|contradiction].
           eapply IH; eauto.
Qed.

(** What a run ends in was raised during the run, under frames that do
    not catch it. *)
Lemma raise_was_raised hv A (s : script A) c e c' :
  run hv s c = (Raise e, c') ->
  exists o under,
    In (o, e, c', under) (raised hv s c)
    /\ Propagation.uncaught e under = true.
Proof.
  revert c.
  induction s as [A a|A e0|A X p rest IH|A X body IHb k handler IHh rest IH];
    intros c; simpl.
  - discriminate.
  - intros [= <- <-]. exists Raised, []. split; [now left|reflexivity].
  - unfold bind. destruct (hv X p c) as [[x|e1] c1].
    + apply IH.
    + intros [= <- <-]. exists (Called p), []. split; [now left|reflexivity].
  - unfold bind, try_except.
    destruct (run hv body c) as [[x|e1] c1] eqn:Eb.
    + intros H. destruct (IH _ _ H) as (o & u & Hin & Hu).
      exists o, u. split; [apply in_or_app; now right|exact Hu].
    + destruct (handles k e1) eqn:Hk.
      * destruct (run hv (handler e1) c1) as [[x|e2] c2] eqn:Eh.
        -- intros H. destruct (IH _ _ H) as (o & u & Hin & Hu).
           exists o, u. split; [|exact Hu].
           apply in_or_app. right. apply in_or_app. now right.
        -- intros [= <- <-]. destruct (IHh _ _ Eh) as (o & u & Hin & Hu).
           exists o, (u ++ [InHandler k]). split.
           ++ apply in_or_app. right. apply in_or_app. left.
              apply in_map_iff. exists (o, e2, c2, u).
              split; [reflexivity|exact Hin].
           ++ rewrite uncaught_app, Hu. reflexivity.
      * intros [= <- <-]. destruct (IHb _ Eb) as (o & u & Hin & Hu).
        exists o, (u ++ [InTry k]). split.
        -- apply in_or_app. left. apply in_map_iff.
           exists (o, e1, c1, u). split; [reflexivity|exact Hin].
        -- rewrite uncaught_app, Hu. simpl. now rewrite Hk.
Qed.

(** ** The frames around the places that raise *)

Import Propagation.

Lemma within_ret P A (a : A) : within P (Ret a).
Proof. intros hv c o e c' under []. Qed.

Lemma within_throw (P : origin -> list frame -> Prop) A e :
  P Raised [] -> within P (@Throw A e).
Proof. intros H hv c o e0 c' under [[= <- <- <- <-]|[]]. exact H. Qed.

Lemma within_call (P : origin -> list frame -> Prop) X (p : Api.call X) :
  P (Called p) [] -> within P (call p).
Proof.
  intros H hv c o e c' under. rewrite raised_call.
  destruct (hv X p c) as [[x|e1] c1]; [intros []|].
  intros [[= <- <- <- <-]|[]]. exact H.
Qed.

Lemma within_lift (P : origin -> list frame -> Prop) A (r : result A) :
  P Raised [] -> within P (lift r).
Proof.
  intros H. destruct r; [apply within_ret|now apply within_throw].
Qed.

Lemma within_bind P A B (s : script A) (f : A -> script B) :
  within P s -> (forall a, within P (f a)) -> within P (sbind s f).
Proof.
  intros Hs Hf hv c o e c' under. rewrite raised_sbind. intros Hin.
  apply in_app_or in Hin. destruct Hin as [Hin|Hin]; [now apply Hs in Hin|].
  destruct (run hv s c) as [[a|e1] c1]; [now apply Hf in Hin|contradiction].
Qed.

Lemma within_try (P : origin -> list frame -> Prop) A (body : script A)
    k handler :
  within (fun o under => P o (under ++ [InTry k])) body ->
  (forall e, within (fun o under => P o (under ++ [InHandler k])) (handler e)) ->
  within P (try_ body k handler).
Proof.
  intros Hb Hh hv c o e c' under. unfold try_. simpl. intros Hin.
  apply in_app_or in Hin. destruct Hin as [Hin|Hin].
  - apply in_inside in Hin.
    destruct Hin as (o1 & e1 & c1 & u1 & [= -> -> -> ->] & Hin).
    now apply Hb in Hin.
  - destruct (run hv body c) as [[x|e1] c1]; [contradiction|].
    destruct (handles k e1); [|contradiction].
    apply in_app_or in Hin. destruct Hin as [Hin|Hin].
    + apply in_inside in Hin.
      destruct Hin as (o2 & e2 & c2 & u2 & [= -> -> -> ->] & Hin).
      now apply Hh in Hin.
    + destruct (run hv (handler e1) c1) as [[x|e2] c2]; contradiction.
Qed.

Lemma within_for_each P A (f : A -> script unit) l :
  (forall x, within P (f x)) -> within P (Scripted.for_each f l).
Proof.
  intros Hf. induction l as [|x l IH]; simpl.
  - apply within_ret.
  - apply within_bind; [apply Hf|intros _; exact IH].
Qed.

Lemma within_wait (P : origin -> list frame -> Prop) predicate polls :
  P Raised [] ->
  within (fun o under => P o (under ++ [InTry CatchException])) predicate ->
  within P (Scripted.wait predicate polls).
Proof.
  intros H0 Hp. induction polls as [|k IH]; cbn [Scripted.wait].
  - now apply within_throw.
  - apply within_bind.
    + apply within_try; [exact Hp|intros e; apply within_ret].
    + intros [|]; [apply within_ret|exact IH].
Qed.

Lemma within_with_first (P : origin -> list frame -> Prop) t f xml :
  P Raised [] -> within P (Scripted.with_first t f xml).
Proof.
  intros H. unfold Scripted.with_first.
  destruct (Dom.update_first t f xml);
    [now apply within_lift|now apply within_throw].
Qed.

Lemma within_read_first (P : origin -> list frame -> Prop) t xml :
  P Raised [] -> within P (Scripted.read_first t xml).
Proof.
  intros H. unfold Scripted.read_first.
  destruct (Dom.first_by_tag t xml);
    [now apply within_lift|now apply within_throw].
Qed.

Ltac within_step :=
  first
    [ apply within_ret
    | apply within_with_first
    | apply within_read_first
    | apply within_throw
    | apply within_call
    | apply within_lift
    | apply within_wait
    | apply within_for_each
    | apply within_try
    | apply within_bind
    | match goal with
      | |- within _ (match ?x with _ => _ end) => destruct x
      | |- forall _, _ => intro
      end ].

(** Where the exceptions of each method are raised. *)
Lemma frames_of_operation A (op : Op.operation A) :
  within (allowed op) (Op.script_of op).
Proof.
  destruct op; cbn [Op.script_of]; repeat within_step;
    unfold allowed; simpl; auto 10.
Qed.

(** ** The scripts against the session model *)

Section Session.
Variable hv : hypervisor.
Hypothesis Hmodels : models hv.

Lemma link_call X (p : Api.call X) m c :
  answer p = Some m -> run hv (call p) c = m c.
Proof. intros H. rewrite run_call. now apply Hmodels. Qed.

Lemma link_bind A B (s : script A) (f : A -> script B) m k c :
  (forall c0, run hv s c0 = m c0) ->
  (forall a c1, run hv (f a) c1 = k a c1) ->
  run hv (sbind s f) c = bind m k c.
Proof. intros Hs Hf. rewrite run_sbind. now apply bind_ext. Qed.

Lemma link_try A (body : script A) k handler m h c :
  (forall c0, run hv body c0 = m c0) ->
  (forall e c1, run hv (handler e) c1 = h e c1) ->
  run hv (try_ body k handler) c = try_except m (handles k) h c.
Proof. intros Hb Hh. rewrite run_try. now apply try_ext. Qed.

Lemma link_for_each A (f : A -> script unit) g l c :
  (forall x c0, run hv (f x) c0 = g x c0) ->
  run hv (Scripted.for_each f l) c = LibvirtController.for_each g l c.
Proof.
  intros Hf. revert c. induction l as [|x l IH]; intros c; [reflexivity|].
  cbn [Scripted.for_each LibvirtController.for_each].
  apply link_bind; [apply Hf|intros _; exact IH].
Qed.

Lemma link_wait predicate p polls c :
  (forall c0, run hv predicate c0 = p c0) ->
  run hv (Scripted.wait predicate polls) c = waiting.wait p polls c.
Proof.
  intros Hp. revert c. induction polls as [|k IH]; intros c; [reflexivity|].
  cbn [Scripted.wait waiting.wait].
  apply link_bind.
  - intros c0. apply (link_try _ predicate CatchException); [exact Hp|reflexivity].
  - intros [|] c1; [reflexivity|apply IH].
Qed.

Lemma link_with_first t f xml c :
  run hv (Scripted.with_first t f xml) c = LibvirtController.with_first t f xml c.
Proof.
  unfold Scripted.with_first, LibvirtController.with_first.
  now destruct (Dom.update_first t f xml) as [[x|e]|].
Qed.

Lemma link_read_first t xml c :
  run hv (Scripted.read_first t xml) c = LibvirtController.read_first t xml c.
Proof.
  unfold Scripted.read_first, LibvirtController.read_first.
  destruct (Dom.first_by_tag t xml); [apply run_lift|reflexivity].
Qed.

Ltac link_step :=
  first
    [ reflexivity
    | apply link_with_first
    | apply link_read_first
    | apply link_wait
    | apply link_for_each
    | apply link_try
    | apply link_bind
    | apply link_call; reflexivity
    | match goal with
      | |- run _ (match ?x with _ => _ end) _ = _ => destruct x
      | |- forall _, _ => intro
      end ].

(** Against a hypervisor that answers like the session model, a script
    does what the method of [LibvirtController] does. *)
Lemma script_in_session A (op : Op.operation A) m c :
  Op.in_session op = Some m -> run hv (Op.script_of op) c = m c.
Proof.
  destruct op; cbn [Op.in_session Op.script_of]; intros [= <-];
    revert c; repeat link_step.
Qed.

End Session.

Lemma sample_hypervisor_models : models Sample.hypervisor.
Proof. intros X p m H c. unfold Sample.hypervisor. now rewrite H. Qed.

(** ** Caught and uncaught *)

Lemma teardown_ends hv c :
  exists c', run hv Scripted.__del__ c = (Ok tt, c').
Proof.
  unfold Scripted.__del__. rewrite run_try. unfold try_except.
  rewrite run_call. destruct (hv unit Api.close c) as [[[]|e] c1];
    eexists; reflexivity.
Qed.

Lemma wait_ends hv predicate polls c :
  exists r c',
    run hv (Scripted.wait predicate polls) c = (r, c')
    /\ (r = Ok tt \/ r = Raise TimeoutExpired).
Proof.
  revert c. induction polls as [|k IH]; intros c; cbn [Scripted.wait].
  - exists (Raise TimeoutExpired), c. split; [reflexivity|now right].
  - rewrite run_sbind. unfold bind. rewrite run_try. unfold try_except.
    destruct (run hv predicate c) as [[[|]|e] c1]; simpl.
    + exists (Ok tt), c1. split; [reflexivity|now left].
    + apply IH.
    + apply IH.
Qed.

(** C1, as amended.  Whatever the hypervisor, the shell and the file
    system answer, an exception raised while a method runs, by a call or
    by the code, ends the method there and reaches the caller as it is,
    except in three places: the close of the session at teardown; the
    lease query of a poll of the wait for an address, in
    [_wait_till_domain_has_ips] and in the methods that start a node; and
    a [TimeoutExpired] of the first attempt of [start_node] (of its
    power-on or of its wait), which is answered by the one retry.  There
    the exception is caught: teardown always returns normally and the wait
    ends in nothing but success or its own timeout.  Conversely the caller
    gets no exception that was not raised that way, and against the
    session model the method is the one of [LibvirtController]. *)
Theorem C1_exceptions_reach_the_caller
    (hv : hypervisor) (A : Type) (op : Op.operation A) (c : conn) :
  (forall o e c' under,
      In (o, e, c', under) (raised hv (Op.script_of op) c) ->
      run hv (Op.script_of op) c = (Raise e, c')
      \/ (Op.is_teardown op = true /\ from_close o = true
          /\ under = [InTry CatchException])
      \/ (Op.waits op || Op.starts op = true /\ from_lease_query o = true
          /\ hd_error under = Some (InTry CatchException))
      \/ (Op.starts op = true /\ e = TimeoutExpired
          /\ from_power_on o || from_code o = true
          /\ under = [InTry CatchTimeoutExpired]))
  /\ (forall e c',
        run hv (Op.script_of op) c = (Raise e, c') ->
        exists o under,
          In (o, e, c', under) (raised hv (Op.script_of op) c)
          /\ uncaught e under = true)
  /\ (Op.is_teardown op = true ->
      exists a c', run hv (Op.script_of op) c = (Ok a, c'))
  /\ (forall domain timeout interval,
        exists r c',
          run hv (Op.script_of
                    (Op._wait_till_domain_has_ips domain timeout interval)) c
          = (r, c')
          /\ (r = Ok tt \/ r = Raise TimeoutExpired))
  /\ (forall m,
        Op.in_session op = Some m -> models hv ->
        run hv (Op.script_of op) c = m c).
Proof.
  split; [|split; [|split; [|split]]].
  - intros o e c' under Hin.
    destruct (frames_of_operation A op hv c o e c' under Hin)
      as [->|[Htear|[(Hw & Ho & ->)|[Hs [(Ho & ->)|[(Ho & ->)|[->|(Ho & ->)]]]]]]].
    + left. now apply (raised_uncaught hv A _ c o e c' []).
    + right. now left.
    + right. right. left. rewrite Hw. now split.
    + destruct (is_timeout e) eqn:He.
      * right. right. right. destruct e; try discriminate. now split.
      * left.
        apply (raised_uncaught hv A _ c o e c' [InTry CatchTimeoutExpired]);
          [exact Hin|]. unfold uncaught. simpl. now rewrite He.
    + right. right. left. rewrite Hs, orb_true_r. now split.
    + left.
      now apply (raised_uncaught hv A _ c o e c' [InHandler CatchTimeoutExpired]).
    + right. right. left. rewrite Hs, orb_true_r. now split.
  - apply raise_was_raised.
  - intros Htear. destruct op; try discriminate.
    destruct (teardown_ends hv c) as [c' H]. now exists tt, c'.
  - intros domain timeout interval. apply wait_ends.
  - intros m Hm Hmodels. now apply script_in_session.
Qed.

Lemma C1_exceptions_reach_the_caller_witness :
  let e := ValueError "Found unexpected boot device: 'floppy'" in
  LibvirtController.set_boot_order "cluster-worker-1" true Sample.session
  = (Raise e, Sample.session)
  /\ exists o under,
       In (o, e, Sample.session, under)
          (raised Sample.hypervisor
             (Scripted.set_boot_order "cluster-worker-1" true) Sample.session)
       /\ uncaught e under = true.
Proof.
  intros e.
  destruct (C1_exceptions_reach_the_caller Sample.hypervisor unit
              (Op.set_boot_order "cluster-worker-1" true) Sample.session)
    as (Hreach & Hback & _ & _ & Hlink).
  assert (Hrun : run Sample.hypervisor
                   (Scripted.set_boot_order "cluster-worker-1" true)
                   Sample.session
                 = (Raise e, Sample.session)).
  { destruct (Hreach Raised e Sample.session [])
      as [H|[(H & _)|[(H & _)|(H & _)]]]; try discriminate.
    - vm_compute. left. reflexivity.
    - exact H. }
  split.
  - rewrite <- (Hlink _ eq_refl sample_hypervisor_models). exact Hrun.
  - exact (Hback e Sample.session Hrun).
Defined.

(* ------------------------------------------------------------------ *)
(** * Runs on the sample session *)

Example run_list_nodes :
  fst (LibvirtController.list_nodes Sample.session)
  = Ok ["cluster-master-0"; "cluster-worker-0"; "cluster-worker-1";
        "cluster-worker-2"; "cluster-master-1"]%string.
Proof. reflexivity. Qed.

Example run_list_nodes_filtered :
  fst (LibvirtController.list_nodes_with_name_filter (Some "worker"%string)
         Sample.session)
  = Ok ["cluster-worker-0"; "cluster-worker-1"; "cluster-worker-2"]%string.
Proof. reflexivity. Qed.

(** A domain that never gets an address: two waits, two power-ons, one
    forced power-off, and the timeout reaches the caller. *)
Example run_start_node_times_out :
  let r := LibvirtController.start_node "cluster-master-0" Sample.session in
  fst r = Raise TimeoutExpired
  /\ Calls.power_ons "cluster-master-0" (trace (snd r)) = 2
  /\ Calls.power_offs "cluster-master-0" (trace (snd r)) = 1
  /\ List.length (filter Calls.is_lease_query (trace (snd r))) = 146
  /\ Calls.power_state "cluster-master-0" (snd r) = Some true.
Proof. vm_compute. repeat split. Qed.

(** Starting an active domain does nothing. *)
Example run_start_node_active :
  LibvirtController.start_node "cluster-worker-0" Sample.session
  = (Ok tt, Sample.session).
Proof. reflexivity. Qed.

Example run_shutdown_active :
  let r := LibvirtController.shutdown_node "cluster-worker-0" Sample.session in
  fst r = Ok tt
  /\ trace (snd r) = [EvDestroy "cluster-worker-0"]
  /\ Calls.power_state "cluster-worker-0" (snd r) = Some false.
Proof. vm_compute. repeat split. Qed.

Example run_set_boot_order_hd_first :
  let r := LibvirtController.set_boot_order "cluster-master-0" false
             Sample.session in
  fst r = Ok tt
  /\ option_map Dom.childNodes
       (match Calls.descriptor "cluster-master-0" (snd r) with
        | Some xml => Dom.first_by_tag "os" xml
        | None => None
        end)
     = Some [Sample.os_type; Sample.boot "hd"; Sample.boot "cdrom"].
Proof. vm_compute. repeat split. Qed.

(** [str.isdigit] knows the digits of every script: ASCII [20], the
    Arabic-Indic digits two and zero, superscript two; not the empty
    string, a size with its unit, or the fraction one half. *)
Example run_isdigit :
  let arabic_indic_20 :=
    String (ascii_of_nat 217) (String (ascii_of_nat 162)
      (String (ascii_of_nat 217) (String (ascii_of_nat 160) EmptyString))) in
  let superscript_2 :=
    String (ascii_of_nat 194) (String (ascii_of_nat 178) EmptyString) in
  let one_half :=
    String (ascii_of_nat 194) (String (ascii_of_nat 189) EmptyString) in
  Py.isdigit "20" = true
  /\ Py.isdigit arabic_indic_20 = true
  /\ Py.isdigit superscript_2 = true
  /\ Py.isdigit EmptyString = false
  /\ Py.isdigit "20G" = false
  /\ Py.isdigit one_half = false
  /\ Disk.size_of arabic_indic_20 = (arabic_indic_20 ++ "G")%string.
Proof. vm_compute. repeat split. Qed.

Example run_format_disk_missing :
  LibvirtController.format_disk "/no/such/disk.qcow2" Sample.session
  = (Ok tt, Sample.session).
Proof. reflexivity. Qed.

Example run_get_ram_kib :
  fst (LibvirtController.get_ram_kib "cluster-master-0" Sample.session)
  = Ok 8388608%Z.
Proof. vm_compute. reflexivity. Qed.

(** A power-on that the hypervisor refuses: the exception of the first
    attempt is not a timeout, so it is not retried and reaches the
    caller of [start_node], of [restart_node] and of [start_all_nodes]. *)
Example run_start_node_power_on_refused :
  let e := LibvirtError "internal error" in
  run Sample.refusing (Scripted.start_node "cluster-master-0") Sample.session
  = (Raise e, Sample.session)
  /\ run Sample.refusing (Scripted.restart_node "cluster-master-0")
       Sample.session
     = (Raise e, Sample.session)
  /\ fst (run Sample.refusing Scripted.start_all_nodes Sample.session)
     = Raise e
  /\ raised Sample.refusing (Scripted.start_node "cluster-master-0")
       Sample.session
     = [(Called (Api.create "cluster-master-0"), e, Sample.session,
         [InTry CatchTimeoutExpired])].
Proof. vm_compute. repeat split. Qed.

(** The lease query of a poll fails and is caught by the wait; nothing
    else is raised and [start_node] returns normally. *)
Example run_start_node_poll_fault :
  exists c1 c',
    raised Sample.hypervisor (Scripted.start_node "cluster-master-1")
      Sample.session
    = [(Called (Api.interfaceAddresses "cluster-master-1"),
        LibvirtError "lease file is busy", c1,
        [InTry CatchException; InTry CatchTimeoutExpired])]
    /\ run Sample.hypervisor (Scripted.start_node "cluster-master-1")
         Sample.session
       = (Ok tt, c').
Proof. do 2 eexists. split; vm_compute; reflexivity. Qed.

Example run_teardown :
  fst (LibvirtController.__del__ Sample.session) = Ok tt
  /\ fst (Hv.close Sample.session)
     = Raise (LibvirtError "connection already closed").
Proof. split; reflexivity. Qed.

(* ------------------------------------------------------------------ *)
(** * Further properties of the controller *)

(** ** What power operations leave alone *)

Lemma bind_inv {A B} (m : M A) (k : A -> M B) c r c' :
  bind m k c = (r, c') ->
  (exists a c1, m c = (Ok a, c1) /\ k a c1 = (r, c'))
  \/ (exists e, m c = (Raise e, c') /\ r = Raise e).
Proof.
  unfold bind. destruct (m c) as [[a|e] c1]; intros H.
  - left. now exists a, c1.
  - right. injection H as <- <-. now exists e.
Qed.

Lemma quiet_refl name c : Frame.quiet name c c.
Proof. repeat split. Qed.

Lemma quiet_trans name c1 c2 c3 :
  Frame.quiet name c1 c2 -> Frame.quiet name c2 c3 -> Frame.quiet name c1 c3.
Proof.
  intros (N1 & P1 & D1) (N2 & P2 & D2). repeat split.
  - congruence.
  - intros m Hm. rewrite (P2 m Hm). now apply P1.
  - intros m. rewrite D2. apply D1.
Qed.

Lemma put_domain_names name d' ds :
  dom_name d' = name ->
  map dom_name (Hv.put_domain name d' ds) = map dom_name ds.
Proof.
  intros Hn. induction ds as [|x ds IH]; simpl; [reflexivity|].
  destruct (String.eqb_spec (dom_name x) name) as [E|E]; simpl.
  - now rewrite Hn, E.
  - now rewrite IH.
Qed.

(** Replacing the record of [name] by one with the same name and the same
    descriptor is quiet. *)
Lemma quiet_put c name d d' tr :
  Hv.find_domain name (domains c) = Some d ->
  dom_name d' = dom_name d ->
  dom_xml d' = dom_xml d ->
  Frame.quiet name c
    (mk_conn (Hv.put_domain name d' (domains c)) (accepts c) (files c)
             (shell c) (close_error c) tr).
Proof.
  intros Hf Hn Hx. pose proof (find_domain_name _ _ _ Hf) as Hname.
  assert (Hd' : dom_name d' = name) by congruence.
  unfold Frame.quiet, Frame.names, Calls.power_state, Calls.descriptor. simpl.
  split; [now apply put_domain_names|].
  split; intros m; [intros Hm|];
    rewrite (find_put_domain name m d d' _ Hf Hd');
    destruct (String.eqb_spec name m) as [<-|]; try reflexivity;
    try contradiction.
  rewrite Hf. simpl. now rewrite Hx.
Qed.

Lemma quiet_log c name ev :
  Frame.quiet name c
    (mk_conn (domains c) (accepts c) (files c) (shell c) (close_error c)
             (trace c ++ [ev])).
Proof. repeat split. Qed.

Lemma create_quiet h c r c' :
  Hv.create h c = (r, c') -> Frame.quiet h c c'.
Proof.
  unfold Hv.create, bind, log, Hv.get, set_domains, raise. simpl.
  destruct (Hv.find_domain h (domains c)) as [d|] eqn:Hf.
  - destruct (dom_active d); intros [= <- <-].
    + apply quiet_log.
    + simpl. now apply (quiet_put c h d).
  - intros [= <- <-]. apply quiet_log.
Qed.

Lemma destroy_quiet h c r c' :
  Hv.destroy h c = (r, c') -> Frame.quiet h c c'.
Proof.
  unfold Hv.destroy, bind, log, Hv.get, set_domains, raise. simpl.
  destruct (Hv.find_domain h (domains c)) as [d|] eqn:Hf.
  - destruct (dom_active d); intros [= <- <-].
    + simpl. now apply (quiet_put c h d).
    + apply quiet_log.
  - intros [= <- <-]. apply quiet_log.
Qed.

Lemma interfaceAddresses_quiet h c r c' :
  Hv.interfaceAddresses h c = (r, c') -> Frame.quiet h c c'.
Proof.
  unfold Hv.interfaceAddresses, bind, log, Hv.get, set_domains, ret, raise.
  simpl. destruct (Hv.find_domain h (domains c)) as [d|] eqn:Hf.
  - destruct (dom_polls d) as [|o rest].
    + intros [= <- <-]. apply quiet_log.
    + destruct o; intros [= <- <-]; simpl; now apply (quiet_put c h d).
  - intros [= <- <-]. apply quiet_log.
Qed.

(** ** The wait for an address, poll by poll *)

Lemma poll_run h c :
  exists r c1,
    Hv.interfaceAddresses h c = (r, c1)
    /\ try_except (LibvirtController.has_ips h) (fun _ => true)
                  (fun _ => ret false) c
       = (Ok match r with
             | Ok i => Polling.has_address (Leases i)
             | Raise _ => false
             end, c1).
Proof.
  destruct (Hv.interfaceAddresses h c) as [r c1] eqn:E.
  exists r, c1. split; [reflexivity|].
  unfold LibvirtController.has_ips, LibvirtController._get_domain_ips,
    LibvirtController._get_domain_ips_and_macs, try_except, bind.
  rewrite E. now destruct r.
Qed.

Lemma wait_quiet h polls c r c' :
  waiting.wait (LibvirtController.has_ips h) polls c = (r, c') ->
  Frame.quiet h c c'.
Proof.
  revert c; induction polls as [|k IH]; intros c; cbn [waiting.wait].
  - intros [= <- <-]. apply quiet_refl.
  - destruct (poll_run h c) as (r1 & c1 & E1 & Ep).
    erewrite bind_ok by exact Ep.
    pose proof (interfaceAddresses_quiet h c r1 c1 E1) as Q1.
    destruct (match r1 with
              | Ok i => Polling.has_address (Leases i)
              | Raise _ => false
              end).
    + intros [= <- <-]. exact Q1.
    + intros H. exact (quiet_trans h c c1 c' Q1 (IH c1 H)).
Qed.

(** One lease query on a known domain: it answers with the head of the
    script and leaves the tail. *)
Lemma interfaceAddresses_script h c d :
  Hv.find_domain h (domains c) = Some d ->
  exists c1 d1,
    Hv.interfaceAddresses h c
    = (match Polling.answer (dom_polls d) 0 with
       | Leases i => Ok i
       | Fault e => Raise e
       end, c1)
    /\ trace c1 = trace c ++ [EvInterfaceAddresses h]
    /\ Hv.find_domain h (domains c1) = Some d1
    /\ dom_polls d1 = tl (dom_polls d).
Proof.
  intros Hf. unfold Hv.interfaceAddresses, bind, log, Hv.get, set_domains,
    ret, raise. simpl. rewrite Hf. unfold Polling.answer.
  destruct (dom_polls d) as [|o rest] eqn:Ep; simpl.
  - exists (mk_conn (domains c) (accepts c) (files c) (shell c)
                    (close_error c) (trace c ++ [EvInterfaceAddresses h])), d.
    simpl. rewrite Ep. auto.
  - assert (Hfind : Hv.find_domain h
                      (Hv.put_domain h
                         (mk_domain (dom_name d) (dom_uuid d) (dom_active d)
                                    (dom_xml d) rest) (domains c))
                    = Some (mk_domain (dom_name d) (dom_uuid d) (dom_active d)
                                      (dom_xml d) rest)).
    { rewrite (find_put_domain h h d _ _ Hf)
        by (simpl; eapply find_domain_name; eauto).
      now rewrite String.eqb_refl. }
    destruct o as [i|e]; do 2 eexists; (split; [reflexivity|]); simpl;
      (split; [reflexivity|]); (split; [exact Hfind|]); reflexivity.
Qed.

Lemma answer_tl script k :
  Polling.answer (tl script) k = Polling.answer script (S k).
Proof. unfold Polling.answer. destruct script; [now destruct k|reflexivity]. Qed.

Lemma skipn_tl {A} (l : list A) k : skipn k (tl l) = skipn (S k) l.
Proof. destruct l; [now destruct k|reflexivity]. Qed.

(** A wait whose first [k] answers carry no address and whose next one
    does: [k + 1] polls, and the script moved on by as many answers. *)
Lemma wait_until_address h polls k c d :
  Hv.find_domain h (domains c) = Some d ->
  k < polls ->
  (forall j, j < k -> Polling.has_address (Polling.answer (dom_polls d) j) = false) ->
  Polling.has_address (Polling.answer (dom_polls d) k) = true ->
  exists c',
    waiting.wait (LibvirtController.has_ips h) polls c = (Ok tt, c')
    /\ trace c' = trace c ++ Polling.queries h (S k)
    /\ Polling.script h c' = Some (skipn (S k) (dom_polls d)).
Proof.
  revert polls c d. induction k as [|k IH]; intros polls c d Hf Hlt Hno Hyes;
    (destruct polls as [|p]; [lia|]); cbn [waiting.wait];
    destruct (interfaceAddresses_script h c d Hf)
      as (c1 & d1 & E1 & T1 & F1 & S1);
    destruct (poll_run h c) as (r1 & c1' & E1' & Ep);
    rewrite E1 in E1'; injection E1' as <- <-;
    erewrite bind_ok by exact Ep.
  - assert (Hb : match (match Polling.answer (dom_polls d) 0 with
                        | Leases i => Ok i
                        | Fault e => Raise e
                        end) with
                 | Ok i => Polling.has_address (Leases i)
                 | Raise _ => false
                 end = true)
      by (destruct (Polling.answer (dom_polls d) 0); exact Hyes).
    rewrite Hb. exists c1. split; [reflexivity|]. split; [exact T1|].
    unfold Polling.script. rewrite F1. simpl. rewrite S1.
    now destruct (dom_polls d).
  - assert (Hb : match (match Polling.answer (dom_polls d) 0 with
                        | Leases i => Ok i
                        | Fault e => Raise e
                        end) with
                 | Ok i => Polling.has_address (Leases i)
                 | Raise _ => false
                 end = false).
    { pose proof (Hno 0 ltac:(lia)) as H0.
      destruct (Polling.answer (dom_polls d) 0); [exact H0|reflexivity]. }
    rewrite Hb.
    destruct (IH p c1 d1 F1 ltac:(lia)) as (c' & Ew & Tw & Sw).
    + intros j Hj. rewrite S1, answer_tl. apply Hno. lia.
    + now rewrite S1, answer_tl.
    + exists c'. split; [exact Ew|]. split.
      * rewrite Tw, T1, <- app_assoc. reflexivity.
      * rewrite Sw, S1. now rewrite skipn_tl.
Qed.

(** A wait none of whose answers carries an address: every poll is made
    and the timeout is raised. *)
Lemma wait_without_address h polls c d :
  Hv.find_domain h (domains c) = Some d ->
  (forall j, j < polls ->
     Polling.has_address (Polling.answer (dom_polls d) j) = false) ->
  exists c',
    waiting.wait (LibvirtController.has_ips h) polls c
    = (Raise TimeoutExpired, c')
    /\ trace c' = trace c ++ Polling.queries h polls
    /\ Polling.script h c' = Some (skipn polls (dom_polls d)).
Proof.
  revert c d. induction polls as [|p IH]; intros c d Hf Hno; cbn [waiting.wait].
  - exists c. split; [reflexivity|]. split; [now rewrite app_nil_r|].
    unfold Polling.script. now rewrite Hf.
  - destruct (interfaceAddresses_script h c d Hf)
      as (c1 & d1 & E1 & T1 & F1 & S1).
    destruct (poll_run h c) as (r1 & c1' & E1' & Ep).
    rewrite E1 in E1'. injection E1' as <- <-.
    erewrite bind_ok by exact Ep.
    assert (Hb : match (match Polling.answer (dom_polls d) 0 with
                        | Leases i => Ok i
                        | Fault e => Raise e
                        end) with
                 | Ok i => Polling.has_address (Leases i)
                 | Raise _ => false
                 end = false).
    { pose proof (Hno 0 ltac:(lia)) as H0.
      destruct (Polling.answer (dom_polls d) 0); [exact H0|reflexivity]. }
    rewrite Hb.
    destruct (IH c1 d1 F1) as (c' & Ew & Tw & Sw).
    + intros j Hj. rewrite S1, answer_tl. apply Hno. lia.
    + exists c'. split; [exact Ew|]. split.
      * rewrite Tw, T1, <- app_assoc. reflexivity.
      * rewrite Sw, S1. now rewrite skipn_tl.
Qed.

(** ** Power operations on a known domain *)

Lemma power_state_of c name d :
  Hv.find_domain name (domains c) = Some d ->
  Calls.power_state name c = Some (dom_active d).
Proof. intros H. unfold Calls.power_state. now rewrite H. Qed.

Lemma shutdown_node_effect c name d :
  Hv.find_domain name (domains c) = Some d ->
  exists c',
    LibvirtController.shutdown_node name c = (Ok tt, c')
    /\ Calls.power_state name c' = Some false
    /\ Frame.quiet name c c'
    /\ trace c' = trace c ++ (if dom_active d then [EvDestroy name] else []).
Proof.
  intros Hf. unfold LibvirtController.shutdown_node. do 2 step.
  destruct (dom_active d) eqn:Ha.
  - destruct (destroy_active c name d Hf Ha) as (c1 & E & T & F).
    exists c1. split; [exact E|]. split; [|split].
    + rewrite (power_state_of _ _ _ F). reflexivity.
    + exact (destroy_quiet name c _ _ E).
    + exact T.
  - exists c. split; [reflexivity|]. split; [|split].
    + now rewrite (power_state_of _ _ _ Hf), Ha.
    + apply quiet_refl.
    + now rewrite app_nil_r.
Qed.

Lemma start_node_effect c name d :
  Hv.find_domain name (domains c) = Some d ->
  exists r c' evs,
    LibvirtController.start_node name c = (r, c')
    /\ (r = Ok tt \/ r = Raise TimeoutExpired)
    /\ Calls.power_state name c' = Some true
    /\ Frame.quiet name c c'
    /\ trace c' = trace c ++ (if dom_active d then [] else EvCreate name :: evs).
Proof.
  intros Hf. unfold LibvirtController.start_node. do 2 step.
  destruct (dom_active d) eqn:Ha; cbn [negb].
  { exists (Ok tt), c, []. split; [reflexivity|]. split; [now left|].
    split; [now rewrite (power_state_of _ _ _ Hf), Ha|].
    split; [apply quiet_refl|now rewrite app_nil_r]. }
  destruct (create_inactive c name d Hf Ha) as (c1 & Ec1 & Tc1 & Fc1).
  unfold LibvirtController._wait_till_domain_has_ips,
    LibvirtController._wait_till_domain_has_ips_for.
  set (polls := waiting.polls_within 360 5).
  destruct (wait_effect name polls c1)
    as (r1 & c2 & evs1 & E1 & Hr1 & T1 & _ & P1 & _).
  pose proof (create_quiet name c _ _ Ec1) as Q01.
  pose proof (wait_quiet name polls c1 _ _ E1) as Q12.
  assert (P2 : Calls.power_state name c2 = Some true).
  { rewrite P1. now rewrite (power_state_of _ _ _ Fc1). }
  assert (Ebody : (Hv.create name ;;
                   waiting.wait (LibvirtController.has_ips name) polls) c
                  = (r1, c2)).
  { erewrite bind_ok by exact Ec1. exact E1. }
  destruct Hr1 as [-> | ->].
  { exists (Ok tt), c2, evs1. split; [now erewrite try_ok by exact Ebody|].
    split; [now left|]. split; [exact P2|].
    split; [exact (quiet_trans _ _ _ _ Q01 Q12)|].
    rewrite T1, Tc1, <- app_assoc. reflexivity. }
  destruct (power_state_found _ _ _ P2) as (d2 & Fc2 & A2).
  destruct (shutdown_node_effect c2 name d2 Fc2) as (c3 & E3 & P3 & Q23 & T3).
  destruct (power_state_found _ _ _ P3) as (d3 & Fc3 & A3).
  destruct (create_inactive c3 name d3 Fc3 A3) as (c4 & Ec4 & Tc4 & Fc4).
  destruct (wait_effect name polls c4)
    as (r & c5 & evs2 & E5 & Hr & T5 & _ & P5 & _).
  exists r, c5, (evs1 ++ (if dom_active d2 then [EvDestroy name] else [])
                  ++ [EvCreate name] ++ evs2).
  split.
  { erewrite try_caught; [|exact Ebody|reflexivity].
    erewrite bind_ok by exact E3. erewrite bind_ok by exact Ec4. exact E5. }
  split; [exact Hr|].
  split; [rewrite P5; now rewrite (power_state_of _ _ _ Fc4)|].
  split.
  { eapply quiet_trans; [exact Q01|]. eapply quiet_trans; [exact Q12|].
    eapply quiet_trans; [exact Q23|].
    eapply quiet_trans; [exact (create_quiet name c3 _ _ Ec4)|].
    exact (wait_quiet name polls c4 _ _ E5). }
  rewrite T5, Tc4, T3, T1, Tc1. rewrite <- !app_assoc. reflexivity.
Qed.

Lemma is_active_of c name d :
  Hv.find_domain name (domains c) = Some d ->
  LibvirtController.is_active name c = (Ok (dom_active d), c).
Proof. intros H. unfold LibvirtController.is_active. step. eauto with ctl. Qed.

Lemma is_active_state c name b :
  Calls.power_state name c = Some b ->
  LibvirtController.is_active name c = (Ok b, c).
Proof.
  intros H. destruct (power_state_found _ _ _ H) as (d & Hf & <-).
  now apply is_active_of.
Qed.

Lemma has_address_pairs i :
  Polling.has_address (Leases i) = true <-> Leased.leased_pairs i <> [].
Proof.
  unfold Polling.has_address.
  rewrite Addresses.ips_and_macs_of_spec, <- Addresses.map_fst_pairs. simpl.
  destruct (Leased.leased_pairs i); simpl; split; intros H;
    try discriminate; try reflexivity.
  now contradiction H.
Qed.

(** X1. The wait for an address returns normally at the first answer of
    the lease table that carries an address, provided it comes within the
    73 polls of the timeout: answers without an address and failed queries
    before it are skipped, and no query is made after it. *)
Theorem X1_wait_returns_at_first_address (c : conn) (name : string)
    (d : domain) (k : nat) :
  Hv.find_domain name (domains c) = Some d ->
  k < waiting.polls_within 360 5 ->
  (forall j, j < k ->
     Polling.has_address (Polling.answer (dom_polls d) j) = false) ->
  Polling.has_address (Polling.answer (dom_polls d) k) = true ->
  exists c',
    LibvirtController._wait_till_domain_has_ips name c = (Ok tt, c')
    /\ trace c' = trace c ++ Polling.queries name (S k)
    /\ Polling.script name c' = Some (skipn (S k) (dom_polls d))
    /\ Frame.quiet name c c'
    /\ Calls.power_state name c' = Calls.power_state name c.
Proof.
  intros Hf Hk Hno Hyes.
  unfold LibvirtController._wait_till_domain_has_ips,
    LibvirtController._wait_till_domain_has_ips_for.
  destruct (wait_until_address name _ k c d Hf Hk Hno Hyes)
    as (c' & E & T & Sc).
  exists c'. split; [exact E|]. split; [exact T|]. split; [exact Sc|].
  split; [exact (wait_quiet name _ c _ _ E)|].
  destruct (wait_effect name (waiting.polls_within 360 5) c)
    as (r & c2 & evs & E2 & _ & _ & _ & P & _).
  rewrite E in E2. injection E2 as _ <-. apply P.
Qed.

Lemma X1_wait_returns_at_first_address_witness :
  exists c',
    LibvirtController._wait_till_domain_has_ips "cluster-master-1"
      Sample.session = (Ok tt, c')
    /\ trace c' = [EvInterfaceAddresses "cluster-master-1";
                   EvInterfaceAddresses "cluster-master-1"]
    /\ Polling.script "cluster-master-1" c' = Some [].
Proof.
  destruct (X1_wait_returns_at_first_address Sample.session "cluster-master-1"
              Sample.flaky 1 eq_refl) as (c' & E & T & Sc & _).
  - vm_compute. lia.
  - intros j Hj. assert (j = 0) as -> by lia. reflexivity.
  - reflexivity.
  - exists c'. repeat split; assumption.
Defined.

(** X2. When none of the next 73 answers of the lease table carries an
    address, the wait makes exactly 73 queries and raises the timeout. *)
Theorem X2_wait_times_out_without_address (c : conn) (name : string)
    (d : domain) :
  Hv.find_domain name (domains c) = Some d ->
  (forall j, j < waiting.polls_within 360 5 ->
     Polling.has_address (Polling.answer (dom_polls d) j) = false) ->
  exists c',
    LibvirtController._wait_till_domain_has_ips name c
    = (Raise TimeoutExpired, c')
    /\ trace c' = trace c ++ Polling.queries name 73
    /\ Polling.script name c' = Some (skipn 73 (dom_polls d))
    /\ Frame.quiet name c c'.
Proof.
  intros Hf Hno.
  unfold LibvirtController._wait_till_domain_has_ips,
    LibvirtController._wait_till_domain_has_ips_for.
  destruct (wait_without_address name _ c d Hf Hno) as (c' & E & T & Sc).
  exists c'. split; [exact E|]. split; [exact T|]. split; [exact Sc|].
  exact (wait_quiet name _ c _ _ E).
Qed.

Lemma X2_wait_times_out_without_address_witness :
  exists c',
    LibvirtController._wait_till_domain_has_ips "cluster-master-0"
      Sample.session = (Raise TimeoutExpired, c')
    /\ List.length (trace c') = 73.
Proof.
  destruct (X2_wait_times_out_without_address Sample.session
              "cluster-master-0" Sample.master eq_refl)
    as (c' & E & T & _).
  - intros j _. unfold Polling.answer. simpl. now destruct j.
  - exists c'. split; [exact E|]. now rewrite T.
Defined.

(** X3. When starting a known domain ends normally or in the timeout, the
    domain is left running: [is_active] then answers true, also after a
    start that timed out.  No domain appeared or disappeared, no other
    domain changed its active-state and no descriptor changed.  A domain
    that was running is not touched at all: the call returns normally in
    the session it got. *)
Theorem X3_start_node_leaves_domain_active (c c' : conn) (name : string)
    (d : domain) (r : result unit) :
  Hv.find_domain name (domains c) = Some d ->
  LibvirtController.start_node name c = (r, c') ->
  r = Ok tt \/ r = Raise TimeoutExpired ->
  LibvirtController.is_active name c' = (Ok true, c')
  /\ Frame.quiet name c c'
  /\ (dom_active d = true -> r = Ok tt /\ c' = c).
Proof.
  intros Hf Hrun _.
  destruct (start_node_effect c name d Hf)
    as (r0 & c0 & evs & E & _ & P & Q & T).
  rewrite E in Hrun. injection Hrun as -> ->.
  split; [now apply is_active_state|]. split; [exact Q|].
  intros Ha. revert E. unfold LibvirtController.start_node. do 2 step.
  rewrite Ha. cbn [negb]. unfold ret. now intros [= <- <-].
Qed.

Lemma X3_start_node_leaves_domain_active_witness :
  let c' := snd (LibvirtController.start_node "cluster-master-0"
                   Sample.session) in
  LibvirtController.start_node "cluster-master-0" Sample.session
  = (Raise TimeoutExpired, c')
  /\ LibvirtController.is_active "cluster-master-0" c' = (Ok true, c').
Proof.
  intros c'.
  assert (E : LibvirtController.start_node "cluster-master-0" Sample.session
              = (Raise TimeoutExpired, c')) by (vm_compute; reflexivity).
  split; [exact E|].
  apply (X3_start_node_leaves_domain_active Sample.session c'
           "cluster-master-0" Sample.master (Raise TimeoutExpired)
           eq_refl E (or_intror eq_refl)).
Defined.

(** X4. When shutting down a known domain returns normally, the domain is
    stopped: [is_active] then answers false.  Of the calls the session
    logs (power-on, forced power-off, lease query, descriptor submission,
    shell command, close) the method made one forced power-off when the
    domain was running and none otherwise; the lookup and the
    active-state query are not logged.  No other domain changed its
    active-state and no descriptor changed. *)
Theorem X4_shutdown_node_powers_off (c c' : conn) (name : string)
    (d : domain) :
  Hv.find_domain name (domains c) = Some d ->
  LibvirtController.shutdown_node name c = (Ok tt, c') ->
  LibvirtController.is_active name c' = (Ok false, c')
  /\ trace c' = trace c ++ (if dom_active d then [EvDestroy name] else [])
  /\ Frame.quiet name c c'.
Proof.
  intros Hf Hrun.
  destruct (shutdown_node_effect c name d Hf) as (c0 & E & P & Q & T).
  rewrite E in Hrun. injection Hrun as ->.
  split; [now apply is_active_state|]. split; assumption.
Qed.

Lemma X4_shutdown_node_powers_off_witness :
  let c' := snd (LibvirtController.shutdown_node "cluster-worker-0"
                   Sample.session) in
  LibvirtController.is_active "cluster-worker-0" c' = (Ok false, c')
  /\ trace c' = [EvDestroy "cluster-worker-0"].
Proof.
  intros c'.
  destruct (X4_shutdown_node_powers_off Sample.session c' "cluster-worker-0"
              Sample.worker eq_refl) as (A & T & _).
  - vm_compute. reflexivity.
  - split; [exact A|exact T].
Defined.


(** X6. When restarting a known domain ends normally or in the timeout,
    the method issued a power-on, preceded by one forced power-off exactly
    when the domain was running, and the domain is left running. *)
Theorem X6_restart_node_power_cycles (c c' : conn) (name : string)
    (d : domain) (r : result unit) :
  Hv.find_domain name (domains c) = Some d ->
  LibvirtController.restart_node name c = (r, c') ->
  r = Ok tt \/ r = Raise TimeoutExpired ->
  (exists evs,
     trace c' = trace c
                ++ (if dom_active d then [EvDestroy name] else [])
                ++ EvCreate name :: evs)
  /\ LibvirtController.is_active name c' = (Ok true, c')
  /\ Frame.quiet name c c'.
Proof.
  intros Hf Hrun _.
  destruct (shutdown_node_effect c name d Hf) as (c1 & E1 & P1 & Q1 & T1).
  destruct (power_state_found _ _ _ P1) as (d1 & Hf1 & Ha1).
  destruct (start_node_effect c1 name d1 Hf1)
    as (r0 & c0 & evs & E & _ & P & Q & T).
  unfold LibvirtController.restart_node in Hrun.
  erewrite bind_ok in Hrun by exact E1.
  rewrite E in Hrun. injection Hrun as -> ->.
  split; [exists evs; rewrite T, T1, Ha1, <- app_assoc; reflexivity|].
  split; [now apply is_active_state|].
  exact (quiet_trans _ _ _ _ Q1 Q).
Qed.

Lemma X6_restart_node_power_cycles_witness :
  let run := LibvirtController.restart_node "cluster-worker-0"
               Sample.session in
  fst run = Ok tt
  /\ (exists evs,
        trace (snd run) = EvDestroy "cluster-worker-0"
                          :: EvCreate "cluster-worker-0" :: evs)
  /\ LibvirtController.is_active "cluster-worker-0" (snd run)
     = (Ok true, snd run).
Proof.
  intros run.
  assert (E : fst run = Ok tt) by (vm_compute; reflexivity).
  split; [exact E|].
  destruct (X6_restart_node_power_cycles Sample.session (snd run)
              "cluster-worker-0" Sample.worker (fst run) eq_refl)
    as (T & A & _).
  - apply surjective_pairing.
  - now left.
  - split; [exact T|exact A].
Defined.

(** ** Operations on all nodes *)

Lemma list_nodes_run c :
  LibvirtController.list_nodes c
  = (Ok (filter Listing.has_role (Frame.names c)), c).
Proof.
  unfold LibvirtController.list_nodes,
    LibvirtController.list_nodes_with_name_filter, bind, ret,
    Hv.listAllDomains.
  now rewrite ListNodes.list_nodes_loop_filter.
Qed.

Lemma known_in_names c name :
  In name (Frame.names c) -> exists d, Hv.find_domain name (domains c) = Some d.
Proof.
  unfold Frame.names. induction (domains c) as [|x ds IH]; simpl; [tauto|].
  intros [H|H].
  - exists x. now rewrite H, String.eqb_refl.
  - destruct (String.eqb (dom_name x) name); eauto.
Qed.

Lemma shutdown_each l c :
  (forall n, In n l -> In n (Frame.names c)) ->
  exists c' evs,
    LibvirtController.for_each LibvirtController.shutdown_node l c = (Ok tt, c')
    /\ Frame.names c' = Frame.names c
    /\ (forall n, In n l -> Calls.power_state n c' = Some false)
    /\ (forall m, ~ In m l -> Calls.power_state m c' = Calls.power_state m c)
    /\ (forall m, Calls.descriptor m c' = Calls.descriptor m c)
    /\ trace c' = trace c ++ evs
    /\ Forall (fun ev => exists n, ev = EvDestroy n /\ In n l) evs.
Proof.
  revert c. induction l as [|x l IH]; intros c Hknown; cbn [LibvirtController.for_each].
  - exists c, []. split; [reflexivity|]. split; [reflexivity|].
    split; [intros n []|]. split; [reflexivity|]. split; [reflexivity|].
    split; [now rewrite app_nil_r|constructor].
  - destruct (known_in_names c x (Hknown x (or_introl eq_refl))) as [d Hf].
    destruct (shutdown_node_effect c x d Hf) as (c1 & E1 & P1 & (N1 & O1 & D1) & T1).
    destruct (IH c1) as (c' & evs & E & N & Poff & Pkeep & D & T & Hev).
    { intros n Hn. rewrite N1. apply Hknown. now right. }
    exists c', ((if dom_active d then [EvDestroy x] else []) ++ evs).
    erewrite bind_ok by exact E1.
    split; [exact E|]. split; [congruence|]. split; [|split; [|split; [|split]]].
    + intros n [<-|Hn].
      * destruct (in_dec string_dec x l) as [Hin|Hout]; [now apply Poff|].
        now rewrite (Pkeep x Hout).
      * now apply Poff.
    + intros m Hm. rewrite Pkeep by (intros H; apply Hm; now right).
      apply O1. intros ->. apply Hm. now left.
    + intros m. now rewrite D.
    + rewrite T, T1, <- app_assoc. reflexivity.
    + apply Forall_app. split.
      * destruct (dom_active d); constructor; [|constructor].
        exists x. split; [reflexivity|now left].
      * eapply Forall_impl; [|exact Hev].
        intros ev (n & -> & Hn). exists n. split; [reflexivity|now right].
Qed.

(** X7. When [shutdown_all_nodes] returns normally, every listed node
    (name with a role marker) is stopped, every other domain has the
    active-state it had, no descriptor changed and no domain appeared or
    disappeared.  Of the calls the session logs (power-on, forced
    power-off, lease query, descriptor submission, shell command, close)
    the method made only forced power-offs of listed nodes; the
    enumeration, the lookups and the active-state queries are not
    logged. *)
Theorem X7_shutdown_all_nodes_stops_listed (c c' : conn) :
  let listed := filter Listing.has_role (Frame.names c) in
  LibvirtController.shutdown_all_nodes c = (Ok tt, c') ->
  (forall n, In n listed -> Calls.power_state n c' = Some false)
  /\ (forall m, ~ In m listed ->
        Calls.power_state m c' = Calls.power_state m c)
  /\ (forall m, Calls.descriptor m c' = Calls.descriptor m c)
  /\ Frame.names c' = Frame.names c
  /\ exists evs,
       trace c' = trace c ++ evs
       /\ Forall (fun ev => exists n, ev = EvDestroy n /\ In n listed) evs.
Proof.
  intros listed Hrun.
  destruct (shutdown_each listed c)
    as (c0 & evs & E & N & Poff & Pkeep & D & T & Hev).
  { intros n Hn. now apply filter_In in Hn. }
  unfold LibvirtController.shutdown_all_nodes in Hrun.
  erewrite bind_ok in Hrun by apply list_nodes_run. fold listed in Hrun.
  rewrite E in Hrun. injection Hrun as ->.
  do 4 (split; [assumption|]). now exists evs.
Qed.

Lemma X7_shutdown_all_nodes_stops_listed_witness :
  let c' := snd (LibvirtController.shutdown_all_nodes Sample.session) in
  Calls.power_state "cluster-worker-0" c' = Some false
  /\ Calls.power_state "build-host" c' = Some true
  /\ trace c' = [EvDestroy "cluster-worker-0"].
Proof.
  intros c'.
  destruct (X7_shutdown_all_nodes_stops_listed Sample.session c')
    as (Poff & Pkeep & _).
  - vm_compute. reflexivity.
  - split; [apply Poff; vm_compute; tauto|].
    split; [|vm_compute; reflexivity].
    rewrite Pkeep; [reflexivity|].
    vm_compute. intros H. repeat (destruct H as [H|H]; [discriminate|]).
    exact H.
Defined.

Lemma start_each l c :
  (forall n, In n l -> In n (Frame.names c)) ->
  exists r c',
    LibvirtController.for_each LibvirtController.start_node l c = (r, c')
    /\ (r = Ok tt \/ r = Raise TimeoutExpired)
    /\ Frame.names c' = Frame.names c
    /\ (forall m, ~ In m l -> Calls.power_state m c' = Calls.power_state m c)
    /\ (forall m, Calls.power_state m c = Some true ->
                  Calls.power_state m c' = Some true)
    /\ (forall m, Calls.descriptor m c' = Calls.descriptor m c)
    /\ (r = Ok tt -> forall n, In n l -> Calls.power_state n c' = Some true).
Proof.
  revert c. induction l as [|x l IH]; intros c Hknown; cbn [LibvirtController.for_each].
  - exists (Ok tt), c. split; [reflexivity|]. split; [now left|].
    split; [reflexivity|]. split; [reflexivity|]. split; [auto|].
    split; [reflexivity|]. intros _ n [].
  - destruct (known_in_names c x (Hknown x (or_introl eq_refl))) as [d Hf].
    destruct (start_node_effect c x d Hf)
      as (r1 & c1 & evs1 & E1 & Hr1 & P1 & (N1 & O1 & D1) & _).
    assert (Mono1 : forall m, Calls.power_state m c = Some true ->
                              Calls.power_state m c1 = Some true).
    { intros m Hm. destruct (string_dec m x) as [->|Hne]; [exact P1|].
      now rewrite O1. }
    destruct Hr1 as [-> | ->].
    + destruct (IH c1) as (r & c' & E & Hr & N & Pkeep & Mono & D & Pon).
      { intros n Hn. rewrite N1. apply Hknown. now right. }
      exists r, c'. erewrite bind_ok by exact E1.
      split; [exact E|]. split; [exact Hr|]. split; [congruence|].
      split; [|split; [|split]].
      * intros m Hm. rewrite Pkeep by (intros H; apply Hm; now right).
        apply O1. intros ->. apply Hm. now left.
      * intros m Hm. apply Mono, Mono1, Hm.
      * intros m. now rewrite D.
      * intros Hok n [<-|Hn]; [|now apply Pon].
        apply Mono. exact P1.
    + exists (Raise TimeoutExpired), c1. erewrite bind_raise by exact E1.
      split; [reflexivity|]. split; [now right|]. split; [exact N1|].
      split; [|split; [|split]].
      * intros m Hm. apply O1. intros ->. apply Hm. now left.
      * exact Mono1.
      * exact D1.
      * discriminate.
Qed.

(** X8. When [start_all_nodes] ends normally, it returns the listed nodes
    in enumeration order and all of them are running.  When it ends
    normally or in the timeout of a node that got no address, a domain
    that was running is still running, no unlisted domain changed its
    active-state, no descriptor changed and no domain appeared or
    disappeared. *)
Theorem X8_start_all_nodes_starts_listed (c c' : conn)
    (r : result (list Hv.handle)) :
  let listed := filter Listing.has_role (Frame.names c) in
  LibvirtController.start_all_nodes c = (r, c') ->
  (exists nodes, r = Ok nodes) \/ r = Raise TimeoutExpired ->
  (forall nodes, r = Ok nodes ->
     nodes = listed
     /\ forall n, In n listed -> Calls.power_state n c' = Some true)
  /\ (forall m, Calls.power_state m c = Some true ->
                Calls.power_state m c' = Some true)
  /\ (forall m, ~ In m listed ->
        Calls.power_state m c' = Calls.power_state m c)
  /\ (forall m, Calls.descriptor m c' = Calls.descriptor m c)
  /\ Frame.names c' = Frame.names c.
Proof.
  intros listed Hrun _.
  destruct (start_each listed c)
    as (r0 & c0 & E & Hr & N & Pkeep & Mono & D & Pon).
  { intros n Hn. now apply filter_In in Hn. }
  unfold LibvirtController.start_all_nodes in Hrun.
  erewrite bind_ok in Hrun by apply list_nodes_run. fold listed in Hrun.
  destruct Hr as [-> | ->].
  - erewrite bind_ok in Hrun by exact E. injection Hrun as <- <-.
    split; [|repeat split; assumption].
    intros nodes [= <-]. split; [reflexivity|now apply Pon].
  - erewrite bind_raise in Hrun by exact E. injection Hrun as <- <-.
    split; [discriminate|repeat split; assumption].
Qed.

Lemma X8_start_all_nodes_starts_listed_witness :
  let run := LibvirtController.start_all_nodes Sample.session in
  fst run = Raise TimeoutExpired
  /\ Calls.power_state "cluster-worker-0" (snd run) = Some true
  /\ Calls.power_state "build-host" (snd run) = Some true
  /\ Frame.names (snd run) = Frame.names Sample.session.
Proof.
  intros run.
  assert (E : fst run = Raise TimeoutExpired) by (vm_compute; reflexivity).
  split; [exact E|].
  destruct (X8_start_all_nodes_starts_listed Sample.session (snd run)
              (fst run)) as (_ & Mono & _ & _ & N).
  - apply surjective_pairing.
  - now right.
  - split; [apply Mono; reflexivity|].
    split; [apply Mono; reflexivity|exact N].
Defined.

(** ** Listing after power operations *)

Lemma list_filter_run c name_filter :
  LibvirtController.list_nodes_with_name_filter name_filter c
  = (Ok (filter (Listing.listed name_filter) (Frame.names c)), c).
Proof.
  unfold LibvirtController.list_nodes_with_name_filter, bind, ret,
    Hv.listAllDomains.
  now rewrite ListNodes.list_nodes_loop_filter.
Qed.

Lemma shutdown_node_names c name :
  Frame.names (snd (LibvirtController.shutdown_node name c)) = Frame.names c.
Proof.
  destruct (Hv.find_domain name (domains c)) as [d|] eqn:Hf.
  - destruct (shutdown_node_effect c name d Hf) as (c' & E & _ & (N & _) & _).
    now rewrite E.
  - unfold LibvirtController.shutdown_node. now step.
Qed.

Lemma start_node_names c name :
  Frame.names (snd (LibvirtController.start_node name c)) = Frame.names c.
Proof.
  destruct (Hv.find_domain name (domains c)) as [d|] eqn:Hf.
  - destruct (start_node_effect c name d Hf)
      as (r & c' & evs & E & _ & _ & (N & _) & _).
    now rewrite E.
  - unfold LibvirtController.start_node. now step.
Qed.

(** X9. Power operations and lease queries never add, remove, rename or
    reorder domains: after [shutdown_node], [start_node], [restart_node]
    or [get_node_ips_and_macs], on any name and whatever their outcome,
    listing under any filter gives what it gave before. *)
Theorem X9_listing_survives_power_operations (c : conn) (name : string)
    (name_filter : option string) :
  let listing c0 :=
    fst (LibvirtController.list_nodes_with_name_filter name_filter c0) in
  listing (snd (LibvirtController.shutdown_node name c)) = listing c
  /\ listing (snd (LibvirtController.start_node name c)) = listing c
  /\ listing (snd (LibvirtController.restart_node name c)) = listing c
  /\ listing (snd (LibvirtController.get_node_ips_and_macs name c)) = listing c.
Proof.
  intros listing. unfold listing. rewrite !list_filter_run. cbn [fst].
  split; [now rewrite shutdown_node_names|].
  split; [now rewrite start_node_names|].
  split.
  - unfold LibvirtController.restart_node, bind.
    pose proof (shutdown_node_names c name) as N1.
    destruct (LibvirtController.shutdown_node name c) as [[[]|e] c1];
      simpl in N1 |- *; [|now rewrite N1].
    now rewrite start_node_names, N1.
  - unfold LibvirtController.get_node_ips_and_macs,
      LibvirtController._get_domain_ips_and_macs, bind, Hv.lookupByName.
    destruct (Hv.find_domain name (domains c)); [|reflexivity].
    destruct (Hv.interfaceAddresses name c) as [[i|e] c1] eqn:E;
      destruct (interfaceAddresses_quiet name c _ _ E) as (N & _);
      simpl; now rewrite N.
Qed.

(** ** Formatting a disk whose size cannot be read *)

(** X10. [format_disk] runs nothing for a path that does not exist.  For
    an existing path whose inspection output has fewer than two spaces
    (the empty output included) there is no third field: the call raises
    [IndexError] after the inspection command alone, and no image is
    created. *)
Theorem X10_format_disk_without_size (c : conn) (disk_path : string) :
  (existsb (String.eqb disk_path) (files c) = false ->
   LibvirtController.format_disk disk_path c = (Ok tt, c))
  /\ (forall output,
        existsb (String.eqb disk_path) (files c) = true ->
        shell c (Disk.info_command disk_path) = Ok output ->
        Disk.count_char " " output < 2 ->
        exists c',
          LibvirtController.format_disk disk_path c = (Raise IndexError, c')
          /\ trace c' = trace c ++ [EvRunCommand (Disk.info_command disk_path)]).
Proof.
  split.
  - intros Hex. unfold LibvirtController.format_disk, os_path.exists_, bind.
    now rewrite Hex.
  - intros output Hex Hsh Hcount.
    unfold LibvirtController.format_disk, os_path.exists_, utils.run_command,
      bind, log. rewrite Hex.
    cbn [negb shell trace domains accepts files close_error].
    fold (Disk.info_command disk_path). rewrite Hsh.
    assert (Hnone : nth_error (Py.split " " output) 2 = None).
    { apply nth_error_None. rewrite split_length. lia. }
    rewrite Hnone. eexists. split; reflexivity.
Qed.

Lemma X10_format_disk_without_size_witness :
  LibvirtController.format_disk "/no/such/disk.qcow2" Sample.session
  = (Ok tt, Sample.session)
  /\ exists c',
       LibvirtController.format_disk "/var/lib/libvirt/images/master-0.qcow2"
         (mk_conn [] (fun _ => true)
                  ["/var/lib/libvirt/images/master-0.qcow2"]
                  (fun _ => Ok "virtual size:20G") None [])
       = (Raise IndexError, c').
Proof.
  split.
  - apply (proj1 (X10_format_disk_without_size Sample.session
                    "/no/such/disk.qcow2")). reflexivity.
  - destruct (proj2 (X10_format_disk_without_size
                       (mk_conn [] (fun _ => true)
                                ["/var/lib/libvirt/images/master-0.qcow2"]
                                (fun _ => Ok "virtual size:20G") None [])
                       "/var/lib/libvirt/images/master-0.qcow2")
                    "virtual size:20G" eq_refl eq_refl)
      as (c' & E & _).
    + vm_compute. lia.
    + now exists c'.
Defined.

(** ** Descriptors that lack what a rewrite needs *)

Lemma with_first_missing t f xml c :
  Dom.first_by_tag t xml = None ->
  LibvirtController.with_first t f xml c = (Raise IndexError, c).
Proof.
  intros H. pose proof (update_first_spec t f xml) as Hspec.
  unfold update_spec in Hspec. unfold Dom.first_by_tag in H.
  rewrite H in Hspec. unfold LibvirtController.with_first. now rewrite Hspec.
Qed.

Lemma with_first_raise t f xml el e c :
  Dom.first_by_tag t xml = Some el ->
  f el = Raise e ->
  LibvirtController.with_first t f xml c = (Raise e, c).
Proof.
  intros H He. pose proof (update_first_spec t f xml) as Hspec.
  unfold update_spec in Hspec. unfold Dom.first_by_tag in H.
  rewrite H, He in Hspec. unfold LibvirtController.with_first.
  now rewrite Hspec.
Qed.

Lemma with_first_ok t f xml el el' c :
  Dom.first_by_tag t xml = Some el ->
  f el = Ok el' ->
  exists xml',
    LibvirtController.with_first t f xml c = (Ok xml', c)
    /\ Dom.update_first t f xml = Some (Ok xml').
Proof.
  intros H He. pose proof (update_first_spec t f xml) as Hspec.
  unfold update_spec in Hspec. unfold Dom.first_by_tag in H.
  rewrite H, He in Hspec. destruct Hspec as (xml' & Hup & _).
  exists xml'. unfold LibvirtController.with_first. now rewrite Hup.
Qed.

Lemma replace_textless kib el :
  Dom.head_text el = None ->
  LibvirtController.replace_first_text kib el = Raise AttributeError.
Proof.
  destruct el as [t attrs [|[tg a k|s] rest]|s]; simpl; try reflexivity.
  discriminate.
Qed.

Lemma replace_text_headed kib el :
  Dom.head_text el <> None ->
  exists el', LibvirtController.replace_first_text kib el = Ok el'.
Proof.
  destruct el as [t attrs [|[tg a k|s] rest]|s]; simpl; try contradiction.
  intros _. destruct (Z.eqb kib 0); eauto.
Qed.

(** The call up to its first step on the tree. *)
Lemma set_boot_order_run c name d cd_first :
  Hv.find_domain name (domains c) = Some d ->
  LibvirtController.set_boot_order name cd_first c
  = (xml <- LibvirtController.with_first "os"
              (LibvirtController.reorder_boot cd_first) (dom_xml d) ;;
     dom <- Hv.defineXML xml ;;
     match dom with
     | None => raise (PlainException "Failed to set boot order")
     | Some _ => ret tt
     end) c.
Proof.
  intros Hf. unfold LibvirtController.set_boot_order. now do 2 step.
Qed.

Lemma set_ram_kib_run c name d kib :
  Hv.find_domain name (domains c) = Some d ->
  LibvirtController.set_ram_kib name kib c
  = (xml <- LibvirtController.with_first "memory"
              (LibvirtController.replace_first_text kib) (dom_xml d) ;;
     xml <- LibvirtController.with_first "currentMemory"
              (LibvirtController.replace_first_text kib) xml ;;
     dom <- Hv.defineXML xml ;;
     match dom with
     | None => raise (PlainException "Failed to set memory")
     | Some _ => ret tt
     end) c.
Proof.
  intros Hf. unfold LibvirtController.set_ram_kib, LibvirtController._get_xml.
  erewrite bind_ok by (erewrite bind_ok by eauto with ctl; eauto with ctl).
  reflexivity.
Qed.

(** X12. [set_ram_kib] is all or nothing on a descriptor that lacks what
    it needs: when the first [memory] element or the first [currentMemory]
    element is missing ([IndexError]) or does not start with text
    ([AttributeError]), the call raises and the session is untouched; the
    half-rewritten tree is never submitted. *)
Theorem X12_set_ram_kib_malformed_descriptor (c : conn) (name : string)
    (d : domain) (kib : Z) :
  Hv.find_domain name (domains c) = Some d ->
  (forall mem, Dom.first_by_tag "memory" (dom_xml d) = Some mem ->
               Dom.head_text mem = None)
  \/ (forall cur, Dom.first_by_tag "currentMemory" (dom_xml d) = Some cur ->
                  Dom.head_text cur = None) ->
  exists e,
    LibvirtController.set_ram_kib name kib c = (Raise e, c)
    /\ (e = IndexError \/ e = AttributeError).
Proof.
  intros Hf Hbad. rewrite (set_ram_kib_run c name d kib Hf).
  destruct (Dom.first_by_tag "memory" (dom_xml d)) as [mem|] eqn:Hm.
  2:{ exists IndexError. split; [|now left].
      erewrite bind_raise; [reflexivity|]. now apply with_first_missing. }
  destruct (Dom.head_text mem) as [s|] eqn:Hh.
  2:{ exists AttributeError. split; [|now right].
      erewrite bind_raise; [reflexivity|].
      eapply with_first_raise; [exact Hm|]. now apply replace_textless. }
  destruct Hbad as [Hbad|Hbad]; [specialize (Hbad mem eq_refl); congruence|].
  destruct (replace_text_headed kib mem) as [mem' Hmem']; [congruence|].
  destruct (with_first_ok "memory" _ (dom_xml d) mem mem' c Hm Hmem')
    as (xml1 & Hw1 & Hup1).
  erewrite bind_ok by exact Hw1.
  pose proof (heads_update "memory" "currentMemory"
                (LibvirtController.replace_first_text kib) (dom_xml d)
                ltac:(discriminate) (keeps_tag_replace kib)
                (keeps_elements_replace "currentMemory" kib) xml1 Hup1) as Hh1.
  destruct (Dom.first_by_tag "currentMemory" xml1) as [cur1|] eqn:Hc1.
  2:{ exists IndexError. split; [|now left].
      erewrite bind_raise; [reflexivity|]. now apply with_first_missing. }
  exists AttributeError. split; [|now right].
  erewrite bind_raise; [reflexivity|].
  eapply with_first_raise; [exact Hc1|]. apply replace_textless.
  unfold Dom.first_by_tag in Hc1, Hbad.
  destruct (Dom.elements_by_tag "currentMemory" xml1) as [|x1 l1];
    [discriminate|]. injection Hc1 as ->.
  destruct (Dom.elements_by_tag "currentMemory" (dom_xml d)) as [|x l];
    [discriminate|]. injection Hh1 as Hx _.
  rewrite Hx. now apply Hbad.
Qed.

Lemma X12_set_ram_kib_malformed_descriptor_witness :
  let c := mk_conn [mk_domain "vm" "u" false
                      (Dom.Element "domain" []
                         [Dom.Element "name" [] [Dom.Text "vm"];
                          Dom.Element "memory" [] [Dom.Text "1024"]]) []]
                   (fun _ => true) [] (fun _ => Ok ""%string) None [] in
  LibvirtController.set_ram_kib "vm" 2048 c = (Raise IndexError, c).
Proof.
  intros c.
  destruct (X12_set_ram_kib_malformed_descriptor c "vm"
              (mk_domain "vm" "u" false
                 (Dom.Element "domain" []
                    [Dom.Element "name" [] [Dom.Text "vm"];
                     Dom.Element "memory" [] [Dom.Text "1024"]]) [])
              2048 eq_refl) as (e & E & _).
  - right. intros cur H. discriminate H.
  - rewrite E. f_equal.
    assert (H : fst (LibvirtController.set_ram_kib "vm" 2048 c)
                = Raise IndexError) by (vm_compute; reflexivity).
    now rewrite E in H.
Defined.

(** X13. [set_boot_order] on a known domain whose descriptor has no [os]
    element raises [IndexError] and leaves the session untouched. *)
Theorem X13_set_boot_order_without_os (c : conn) (name : string) (d : domain)
    (cd_first : bool) :
  Hv.find_domain name (domains c) = Some d ->
  Dom.first_by_tag "os" (dom_xml d) = None ->
  LibvirtController.set_boot_order name cd_first c = (Raise IndexError, c).
Proof.
  intros Hf Hos. rewrite (set_boot_order_run c name d cd_first Hf).
  erewrite bind_raise; [reflexivity|]. now apply with_first_missing.
Qed.

Lemma X13_set_boot_order_without_os_witness :
  let c := mk_conn [mk_domain "vm" "u" false
                      (Dom.Element "domain" []
                         [Dom.Element "name" [] [Dom.Text "vm"]]) []]
                   (fun _ => true) [] (fun _ => Ok ""%string) None [] in
  LibvirtController.set_boot_order "vm" true c = (Raise IndexError, c).
Proof.
  intros c.
  apply (X13_set_boot_order_without_os c "vm"
           (mk_domain "vm" "u" false
              (Dom.Element "domain" []
                 [Dom.Element "name" [] [Dom.Text "vm"]]) []));
    reflexivity.
Defined.

(** ** Boot elements below the children of [os] *)

Lemma forallb_app_true {A} (p : A -> bool) l1 l2 :
  forallb p (l1 ++ l2) = true -> forallb p l1 = true /\ forallb p l2 = true.
Proof. rewrite forallb_app. apply andb_true_iff. Qed.

(** The loop on any [os] element whose boot elements are all of known
    kind: it succeeds exactly when they are all children, and stops with
    [NotFoundErr] at the first one that is not. *)
Lemma boot_loop_nested K i P :
  NoDup (map fst (P ++ combine (seq i (List.length K)) K)) ->
  forallb LibvirtController.known_boot_device
          (map Boot.dev (map snd (Dom.tagged_from "boot" i K))) = true ->
  LibvirtController.boot_loop (Dom.tagged_from "boot" i K)
    (P ++ combine (seq i (List.length K)) K)
  = if forallb no_nested_boot K
    then Ok (P ++ filter (fun k => negb (Boot.is_boot (snd k)))
                         (combine (seq i (List.length K)) K))
    else Raise NotFoundErr.
Proof.
  revert i P. induction K as [|k K IH]; intros i P ND Hk.
  - reflexivity.
  - cbn [Dom.tagged_from List.length seq combine forallb filter snd] in *.
    rewrite !map_app in Hk.
    apply forallb_app_true in Hk. destruct Hk as [Hk Hrest].
    apply forallb_app_true in Hk. destruct Hk as [Hself Hnested].
    unfold no_nested_boot at 1, Dom.getElementsByTagName.
    rewrite <- app_assoc.
    assert (Hstep : forall P',
      NoDup (map fst (P' ++ combine (seq (S i) (List.length K)) K)) ->
      LibvirtController.boot_loop
        (map (fun d => (None, d))
             (flat_map (Dom.elements_by_tag "boot") (Dom.childNodes k))
           ++ Dom.tagged_from "boot" (S i) K)
        (P' ++ combine (seq (S i) (List.length K)) K)
      = match flat_map (Dom.elements_by_tag "boot") (Dom.childNodes k) with
        | [] => if forallb no_nested_boot K
                then Ok (P' ++ filter (fun k0 => negb (Boot.is_boot (snd k0)))
                                      (combine (seq (S i) (List.length K)) K))
                else Raise NotFoundErr
        | _ :: _ => Raise NotFoundErr
        end).
    { intros P' ND'.
      destruct (flat_map (Dom.elements_by_tag "boot") (Dom.childNodes k))
        as [|el els].
      - simpl. now apply IH.
      - simpl in Hnested |- *. fold (Boot.dev el).
        apply andb_true_iff in Hnested. destruct Hnested as [-> _].
        reflexivity. }
    unfold Boot.is_boot. destruct (Dom.is_element_named "boot" k) eqn:Eb.
    + cbn [Datatypes.app map snd forallb negb] in Hself |- *.
      apply andb_true_iff in Hself. destruct Hself as [Hdev _].
      cbn [LibvirtController.boot_loop]. fold (Boot.dev k). rewrite Hdev.
      pose proof (is_child_middle P (i, k)
                    (combine (seq (S i) (List.length K)) K)) as Hc.
      pose proof (drop_child_middle P (i, k)
                    (combine (seq (S i) (List.length K)) K) ND) as Hd.
      cbn [fst] in Hc, Hd. rewrite Hc, Hd, Hstep.
      * now destruct (flat_map _ _).
      * rewrite map_app in *. simpl in ND. now apply NoDup_remove_1 in ND.
    + cbn [Datatypes.app negb].
      change (P ++ (i, k) :: combine (seq (S i) (List.length K)) K)
        with (P ++ [(i, k)] ++ combine (seq (S i) (List.length K)) K) in *.
      rewrite app_assoc in *. rewrite Hstep by exact ND.
      destruct (flat_map _ _); [|reflexivity].
      cbn [andb].
      destruct (forallb no_nested_boot K); [|reflexivity].
      now rewrite <- !app_assoc.
Qed.

Lemma reorder_boot_nested cd_first os :
  Boot.all_known os = true ->
  Boot.flat os = false ->
  LibvirtController.reorder_boot cd_first os = Raise NotFoundErr.
Proof.
  intros Hknown Hflat. destruct os as [t attrs cs|s]; [|discriminate].
  unfold Boot.all_known, Boot.kinds, Dom.getElementsByTagName in Hknown.
  unfold Boot.flat in Hflat. simpl Dom.childNodes in *.
  change (forallb no_nested_boot cs = false) in Hflat.
  rewrite <- (tagged_from_snd "boot" 0 cs) in Hknown.
  assert (ND : NoDup (map fst ([] ++ combine (seq 0 (List.length cs)) cs))).
  { cbn [Datatypes.app]. fold (LibvirtController.number cs).
    rewrite number_fst. apply seq_NoDup. }
  pose proof (boot_loop_nested cs 0 [] ND Hknown) as HL.
  cbn [Datatypes.app] in HL. rewrite Hflat in HL.
  unfold LibvirtController.reorder_boot, Dom.getElementsByTagName_ids,
    LibvirtController.number. simpl Dom.childNodes.
  now rewrite HL.
Qed.

(** X14. [set_boot_order] looks for boot elements at any depth below [os]
    but can remove only children of [os]: when all boot elements are of
    known kind and one of them lies below a child of [os], the call
    raises [NotFoundErr] and the session is untouched. *)
Theorem X14_set_boot_order_nested_boot (c : conn) (name : string) (d : domain)
    (os : Dom.node) (cd_first : bool) :
  Hv.find_domain name (domains c) = Some d ->
  Dom.first_by_tag "os" (dom_xml d) = Some os ->
  Boot.all_known os = true ->
  Boot.flat os = false ->
  LibvirtController.set_boot_order name cd_first c = (Raise NotFoundErr, c).
Proof.
  intros Hf Hos Hknown Hflat.
  rewrite (set_boot_order_run c name d cd_first Hf).
  erewrite bind_raise; [reflexivity|].
  eapply with_first_raise; [exact Hos|].
  now apply reorder_boot_nested.
Qed.

Lemma X14_set_boot_order_nested_boot_witness :
  let xml := Dom.Element "domain" []
               [Dom.Element "name" [] [Dom.Text "vm"];
                Dom.Element "os" []
                  [Sample.boot "hd";
                   Dom.Element "bootmenu" [] [Sample.boot "cdrom"]]] in
  let c := mk_conn [mk_domain "vm" "u" false xml []]
                   (fun _ => true) [] (fun _ => Ok ""%string) None [] in
  LibvirtController.set_boot_order "vm" true c = (Raise NotFoundErr, c).
Proof.
  intros xml c.
  apply (X14_set_boot_order_nested_boot c "vm"
           (mk_domain "vm" "u" false xml [])
           (Dom.Element "os" []
              [Sample.boot "hd";
               Dom.Element "bootmenu" [] [Sample.boot "cdrom"]]));
    reflexivity.
Defined.

(** ** One rewrite after another *)

Lemma defineXML_stored c doc name d :
  Hv.find_domain name (domains c) = Some d ->
  Hv.name_of doc = Some name ->
  accepts c doc = true ->
  exists c' d',
    Hv.defineXML doc c = (Ok (Some name), c')
    /\ trace c' = trace c ++ [EvDefineXML doc]
    /\ Hv.find_domain name (domains c') = Some d'
    /\ dom_xml d' = doc
    /\ dom_active d' = dom_active d
    /\ accepts c' = accepts c.
Proof.
  intros Hf Hn Ha. unfold Hv.defineXML, bind, log, set_domains, ret. simpl.
  rewrite Hn, Ha, Hf. do 2 eexists. split; [reflexivity|]. simpl.
  split; [reflexivity|].
  rewrite (find_put_domain name name d _ _ Hf)
    by (simpl; eapply find_domain_name; eauto).
  rewrite String.eqb_refl. repeat split.
Qed.

Lemma others_reordered cd_first os :
  Boot.others (BootOrder.reordered cd_first os) = Boot.others os.
Proof.
  destruct os as [t attrs cs|s]; [|reflexivity].
  unfold BootOrder.reordered, Boot.others. simpl Dom.childNodes.
  rewrite filter_app.
  replace (filter (fun c0 => negb (Boot.is_boot c0))
             (map LibvirtController.new_boot (Boot.order cd_first)))
    with (@nil Dom.node) by now destruct cd_first.
  rewrite app_nil_r.
  induction cs as [|x cs IH]; simpl; [reflexivity|].
  destruct (Boot.is_boot x) eqn:E; simpl; [exact IH|].
  rewrite E. simpl. now rewrite IH.
Qed.

Lemma flat_reordered cd_first t attrs cs :
  Boot.flat (Dom.Element t attrs cs) = true ->
  Boot.flat (BootOrder.reordered cd_first (Dom.Element t attrs cs)) = true.
Proof.
  unfold Boot.flat, BootOrder.reordered, Boot.others. simpl Dom.childNodes.
  intros H. rewrite forallb_app. apply andb_true_iff. split.
  - rewrite forallb_forall in *. intros x Hx. apply filter_In in Hx.
    apply H. tauto.
  - now destruct cd_first.
Qed.

Lemma known_reordered cd_first t attrs cs :
  Boot.flat (Dom.Element t attrs cs) = true ->
  Boot.all_known (BootOrder.reordered cd_first (Dom.Element t attrs cs)) = true.
Proof.
  intros H. unfold Boot.all_known, Boot.kinds, BootOrder.reordered.
  rewrite (boots_after_reorder cd_first t attrs cs H). now destruct cd_first.
Qed.

Lemma reordered_twice cd1 cd2 os :
  BootOrder.reordered cd2 (BootOrder.reordered cd1 os)
  = BootOrder.reordered cd2 os.
Proof.
  destruct os as [t attrs cs|s]; [|reflexivity].
  pose proof (others_reordered cd1 (Dom.Element t attrs cs)) as H.
  unfold BootOrder.reordered in *. now rewrite H.
Qed.

Lemma set_boot_order_accepted c name d os cd_first :
  Hv.find_domain name (domains c) = Some d ->
  Hv.name_of (dom_xml d) = Some name ->
  Dom.first_by_tag "os" (dom_xml d) = Some os ->
  Boot.all_known os = true ->
  Boot.flat os = true ->
  (forall doc, accepts c doc = true) ->
  exists c' d',
    LibvirtController.set_boot_order name cd_first c = (Ok tt, c')
    /\ Hv.find_domain name (domains c') = Some d'
    /\ Hv.name_of (dom_xml d') = Some name
    /\ Dom.first_by_tag "os" (dom_xml d')
       = Some (BootOrder.reordered cd_first os)
    /\ accepts c' = accepts c
    /\ trace c' = trace c ++ [EvDefineXML (dom_xml d')]
    /\ dom_active d' = dom_active d.
Proof.
  intros Hf Hname Hos Hknown Hflat Hacc.
  destruct (reorder_document cd_first _ _ Hos Hknown Hflat)
    as (xml' & Hup & Hfirst & Hn).
  destruct (defineXML_stored c xml' name d Hf ltac:(now rewrite Hn) (Hacc xml'))
    as (c' & d' & Hd & Ht & Hf' & Hx & Ha & Hacc').
  exists c', d'. rewrite (set_boot_order_run c name d cd_first Hf).
  erewrite bind_ok
    by (unfold LibvirtController.with_first; rewrite Hup; reflexivity).
  erewrite bind_ok by exact Hd. rewrite Hx.
  repeat split; try assumption. now rewrite Hn.
Qed.

(** X15. On a hypervisor that accepts every descriptor, and for a domain
    as in C2, the last [set_boot_order] wins.  After a call with
    [cd_first1] and a call with [cd_first2] the [os] element has, white
    space and other text aside, the elements a single call with
    [cd_first2] gives: its boot elements are the two of that order, and
    its other child elements are the original ones, with their names,
    attributes and nesting.  In particular repeating a call changes no
    element of the [os] element. *)
Theorem X15_set_boot_order_last_wins (c : conn) (name : string) (d : domain)
    (os : Dom.node) (cd_first1 cd_first2 : bool) :
  Hv.find_domain name (domains c) = Some d ->
  Hv.name_of (dom_xml d) = Some name ->
  Dom.first_by_tag "os" (dom_xml d) = Some os ->
  Boot.all_known os = true ->
  Boot.flat os = true ->
  (forall doc, accepts c doc = true) ->
  exists c2 xml2 os2 c2' xml2' os2',
    (LibvirtController.set_boot_order name cd_first1 ;;
     LibvirtController.set_boot_order name cd_first2) c = (Ok tt, c2)
    /\ Calls.descriptor name c2 = Some xml2
    /\ Dom.first_by_tag "os" xml2 = Some os2
    /\ LibvirtController.set_boot_order name cd_first2 c = (Ok tt, c2')
    /\ Calls.descriptor name c2' = Some xml2'
    /\ Dom.first_by_tag "os" xml2' = Some os2'
    /\ Boot.kinds os2 = Boot.order cd_first2
    /\ skeleton os2 = skeleton os2'
    /\ flat_map skeleton (Boot.others os2)
       = flat_map skeleton (Boot.others os).
Proof.
  intros Hf Hname Hos Hknown Hflat Hacc.
  pose proof (first_by_tag_named _ _ _ Hos) as Hnamed.
  destruct os as [t attrs cs|s]; [|discriminate].
  destruct (set_boot_order_accepted c name d _ cd_first1 Hf Hname Hos Hknown
              Hflat Hacc) as (c1 & d1 & E1 & Hf1 & Hn1 & Hos1 & Ha1 & _).
  destruct (set_boot_order_accepted c1 name d1 _ cd_first2 Hf1 Hn1 Hos1
              (known_reordered cd_first1 t attrs cs Hflat)
              (flat_reordered cd_first1 t attrs cs Hflat)
              ltac:(intros doc; rewrite Ha1; apply Hacc))
    as (c2 & d2 & E2 & Hf2 & _ & Hos2 & _).
  destruct (set_boot_order_accepted c name d _ cd_first2 Hf Hname Hos Hknown
              Hflat Hacc) as (c2' & d2' & E2' & Hf2' & _ & Hos2' & _).
  rewrite reordered_twice in Hos2.
  exists c2, (dom_xml d2),
    (BootOrder.reordered cd_first2 (Dom.Element t attrs cs)),
    c2', (dom_xml d2'),
    (BootOrder.reordered cd_first2 (Dom.Element t attrs cs)).
  split; [erewrite bind_ok by exact E1; exact E2|].
  split; [unfold Calls.descriptor; now rewrite Hf2|].
  split; [exact Hos2|].
  split; [exact E2'|].
  split; [unfold Calls.descriptor; now rewrite Hf2'|].
  split; [exact Hos2'|].
  split; [|split; [reflexivity|]].
  - unfold Boot.kinds, BootOrder.reordered.
    rewrite (boots_after_reorder cd_first2 t attrs cs Hflat).
    now destruct cd_first2.
  - now rewrite others_reordered.
Qed.

Lemma X15_set_boot_order_last_wins_witness :
  exists c2 xml2 os2,
    (LibvirtController.set_boot_order "cluster-master-0" true ;;
     LibvirtController.set_boot_order "cluster-master-0" false) Sample.session
    = (Ok tt, c2)
    /\ Calls.descriptor "cluster-master-0" c2 = Some xml2
    /\ Dom.first_by_tag "os" xml2 = Some os2
    /\ Boot.kinds os2 = ["hd"; "cdrom"]%string.
Proof.
  destruct (X15_set_boot_order_last_wins Sample.session "cluster-master-0"
              Sample.master
              (Dom.Element "os" []
                 [Sample.os_type; Sample.boot "hd"; Sample.boot "cdrom";
                  Sample.boot "hd"])
              true false eq_refl eq_refl eq_refl eq_refl eq_refl
              (fun _ => eq_refl))
    as (c2 & xml2 & os2 & c2' & xml2' & os2' & E & Hd & Hos & _ & _ & _
        & Hk & _).
  exists c2, xml2, os2. split; [exact E|]. split; [exact Hd|].
  split; [exact Hos|exact Hk].
Defined.

Lemma set_ram_kib_accepted c name d mem cur kib :
  Hv.find_domain name (domains c) = Some d ->
  Hv.name_of (dom_xml d) = Some name ->
  Dom.first_by_tag "memory" (dom_xml d) = Some mem ->
  Dom.head_text mem <> None ->
  Dom.first_by_tag "currentMemory" (dom_xml d) = Some cur ->
  Dom.head_text cur <> None ->
  kib <> 0%Z ->
  (forall doc, accepts c doc = true) ->
  exists c' d' mem' cur',
    LibvirtController.set_ram_kib name kib c = (Ok tt, c')
    /\ Hv.find_domain name (domains c') = Some d'
    /\ Hv.name_of (dom_xml d') = Some name
    /\ Dom.first_by_tag "memory" (dom_xml d') = Some mem'
    /\ Dom.head_text mem' = Some (PyInt.str kib)
    /\ Dom.first_by_tag "currentMemory" (dom_xml d') = Some cur'
    /\ Dom.head_text cur' = Some (PyInt.str kib)
    /\ accepts c' = accepts c.
Proof.
  intros Hf Hname Hmem Hmh Hcur Hch Hkib Hacc.
  destruct (set_ram_document kib (dom_xml d) mem cur Hmem Hmh Hcur Hch Hkib)
    as (xml1 & xml2 & mem2 & cur2 & Hup1 & Hup2 & Hmem2 & Hmh2 & Hcur2 & Hch2 & Hn).
  destruct (defineXML_stored c xml2 name d Hf ltac:(now rewrite Hn) (Hacc xml2))
    as (c' & d' & Hd & _ & Hf' & Hx & _ & Hacc').
  exists c', d', mem2, cur2. rewrite (set_ram_kib_run c name d kib Hf).
  erewrite bind_ok
    by (unfold LibvirtController.with_first; rewrite Hup1; reflexivity).
  erewrite bind_ok
    by (unfold LibvirtController.with_first; rewrite Hup2; reflexivity).
  erewrite bind_ok by exact Hd. rewrite Hx.
  repeat split; try assumption. now rewrite Hn.
Qed.

Lemma get_ram_kib_reads c name d cur z :
  Hv.find_domain name (domains c) = Some d ->
  Dom.first_by_tag "currentMemory" (dom_xml d) = Some cur ->
  Dom.head_text cur = Some (PyInt.str z) ->
  LibvirtController.get_ram_kib name c = (Ok z, c).
Proof.
  intros Hf Hcur Hh.
  unfold LibvirtController.get_ram_kib, LibvirtController._get_xml.
  erewrite bind_ok by (erewrite bind_ok by eauto with ctl; eauto with ctl).
  exact (read_first_head _ _ _ _ _ Hcur Hh).
Qed.

(** X16. On a hypervisor that accepts every descriptor, and for a domain
    as in C7, a successful [set_ram_kib] leaves a descriptor on which
    [set_ram_kib] works again, and the last write wins: after writing
    [kib1] and then [kib2], both non-zero, [get_ram_kib] returns [kib2]. *)
Theorem X16_set_ram_kib_last_wins (c : conn) (name : string) (d : domain)
    (mem cur : Dom.node) (kib1 kib2 : Z) :
  Hv.find_domain name (domains c) = Some d ->
  Hv.name_of (dom_xml d) = Some name ->
  Dom.first_by_tag "memory" (dom_xml d) = Some mem ->
  Dom.head_text mem <> None ->
  Dom.first_by_tag "currentMemory" (dom_xml d) = Some cur ->
  Dom.head_text cur <> None ->
  kib1 <> 0%Z -> kib2 <> 0%Z ->
  (forall doc, accepts c doc = true) ->
  exists c2,
    (LibvirtController.set_ram_kib name kib1 ;;
     LibvirtController.set_ram_kib name kib2) c = (Ok tt, c2)
    /\ LibvirtController.get_ram_kib name c2 = (Ok kib2, c2).
Proof.
  intros Hf Hname Hmem Hmh Hcur Hch Hk1 Hk2 Hacc.
  destruct (set_ram_kib_accepted c name d mem cur kib1 Hf Hname Hmem Hmh
              Hcur Hch Hk1 Hacc)
    as (c1 & d1 & mem1 & cur1 & E1 & Hf1 & Hn1 & Hm1 & Hmh1 & Hc1 & Hch1 & Ha1).
  destruct (set_ram_kib_accepted c1 name d1 mem1 cur1 kib2 Hf1 Hn1 Hm1
              ltac:(congruence) Hc1 ltac:(congruence) Hk2
              ltac:(intros doc; rewrite Ha1; apply Hacc))
    as (c2 & d2 & mem2 & cur2 & E2 & Hf2 & _ & _ & _ & Hc2 & Hch2 & _).
  exists c2. split; [erewrite bind_ok by exact E1; exact E2|].
  exact (get_ram_kib_reads c2 name d2 cur2 kib2 Hf2 Hc2 Hch2).
Qed.

Lemma X16_set_ram_kib_last_wins_witness :
  exists c2,
    (LibvirtController.set_ram_kib "cluster-master-0" 4194304 ;;
     LibvirtController.set_ram_kib "cluster-master-0" 2097152) Sample.session
    = (Ok tt, c2)
    /\ LibvirtController.get_ram_kib "cluster-master-0" c2
       = (Ok 2097152%Z, c2).
Proof.
  apply (X16_set_ram_kib_last_wins Sample.session "cluster-master-0"
           Sample.master
           (Dom.Element "memory" [("unit", "KiB")] [Dom.Text "8388608"])
           (Dom.Element "currentMemory" [("unit", "KiB")] [Dom.Text "8388608"])
           4194304 2097152);
    try reflexivity; try discriminate.
Defined.

(** ** What a rewrite of the memory leaves alone *)

Lemma skeleton_update_in t f cs :
  Forall (fun c => forall c1, Dom.update_first t f c = Some (Ok c1) ->
                              Shape.skeleton c1 = Shape.skeleton c) cs ->
  forall cs1,
    Dom.update_in (Dom.update_first t f) cs = Some (Ok cs1) ->
    flat_map Shape.skeleton cs1 = flat_map Shape.skeleton cs.
Proof.
  intros H. induction H as [|c cs Hc _ IH]; intros cs1; simpl; [discriminate|].
  destruct (Dom.update_first t f c) as [[c1|e]|] eqn:Ec.
  - intros [= <-]. simpl. f_equal. now apply Hc.
  - discriminate.
  - destruct (Dom.update_in (Dom.update_first t f) cs) as [[cs'|e]|];
      intros [= <-]. simpl. f_equal. now apply IH.
Qed.

Lemma skeleton_update t f n :
  Shape.keeps_skeleton f ->
  forall n1, Dom.update_first t f n = Some (Ok n1) ->
             Shape.skeleton n1 = Shape.skeleton n.
Proof.
  intros Hf.
  induction n as [s|tg attrs cs IH] using node_children_ind; intros n1;
    [discriminate|].
  cbn [Dom.update_first]. destruct (String.eqb tg t).
  - intros [= E]. exact (Hf _ _ E).
  - destruct (Dom.update_in (Dom.update_first t f) cs) as [[cs1|e]|] eqn:Ei;
      intros [= <-].
    cbn [Shape.skeleton]. now rewrite (skeleton_update_in t f cs IH cs1 Ei).
Qed.

Lemma skeleton_drop_text l :
  flat_map Shape.skeleton (LibvirtController.drop_text l)
  = flat_map Shape.skeleton l.
Proof.
  induction l as [|x l IH]; simpl; [reflexivity|].
  destruct x as [tg a cs|s]; simpl; [reflexivity|exact IH].
Qed.

Lemma keeps_skeleton_replace kib :
  Shape.keeps_skeleton (LibvirtController.replace_first_text kib).
Proof.
  intros [t attrs [|[tg a k|s] rest]|s] el'; simpl; try discriminate.
  destruct (Z.eqb kib 0); intros [= <-]; simpl; now rewrite skeleton_drop_text.
Qed.

(** Looking elements up by name and dropping the text commute. *)
Lemma skeleton_elements t n :
  flat_map (Dom.elements_by_tag t) (Shape.skeleton n)
  = flat_map Shape.skeleton (Dom.elements_by_tag t n).
Proof.
  induction n as [s|tg attrs cs IH] using node_children_ind; [reflexivity|].
  cbn [Shape.skeleton flat_map Dom.elements_by_tag]. rewrite ?app_nil_r.
  rewrite flat_map_app. f_equal.
  - destruct (String.eqb tg t); [|reflexivity].
    simpl. now rewrite ?app_nil_r.
  - induction IH as [|c cs Hc _ IHcs]; [reflexivity|].
    simpl. rewrite !flat_map_app, Hc. f_equal. exact IHcs.
Qed.

Lemma skeleton_elements_list t l :
  flat_map (Dom.elements_by_tag t) (flat_map Shape.skeleton l)
  = flat_map Shape.skeleton (flat_map (Dom.elements_by_tag t) l).
Proof.
  induction l as [|x l IH]; [reflexivity|].
  simpl. now rewrite !flat_map_app, skeleton_elements, IH.
Qed.

Lemma dev_skeleton l :
  Forall (fun el => Dom.is_text el = false) l ->
  map Boot.dev (flat_map Shape.skeleton l) = map Boot.dev l.
Proof.
  intros H. induction H as [|x l Hx _ IH]; [reflexivity|].
  destruct x as [tg a cs|s]; [|discriminate]. simpl. now rewrite IH.
Qed.

Lemma elements_are_elements t l :
  Forall (fun el => Dom.is_text el = false)
         (flat_map (Dom.elements_by_tag t) l).
Proof.
  apply Forall_forall. intros el Hin. apply in_flat_map in Hin.
  destruct Hin as (c & _ & Hel).
  apply elements_by_tag_all_named in Hel. now destruct el.
Qed.

(** The boot kinds below an element are those below its skeleton. *)
Lemma kinds_skeleton t attrs cs :
  Boot.kinds (Dom.Element t attrs (flat_map Shape.skeleton cs))
  = Boot.kinds (Dom.Element t attrs cs).
Proof.
  unfold Boot.kinds, Dom.getElementsByTagName. simpl Dom.childNodes.
  rewrite skeleton_elements_list. apply dev_skeleton, elements_are_elements.
Qed.

Lemma kinds_of_skeleton os os' :
  Dom.is_text os = false -> Dom.is_text os' = false ->
  Shape.skeleton os' = Shape.skeleton os ->
  Boot.kinds os' = Boot.kinds os.
Proof.
  destruct os as [t a cs|s], os' as [t' a' cs'|s']; try discriminate.
  intros _ _ [= -> -> E].
  rewrite <- (kinds_skeleton t a cs), <- (kinds_skeleton t a cs').
  now rewrite E.
Qed.

Lemma first_skeleton t xml xml' os :
  Shape.skeleton xml' = Shape.skeleton xml ->
  Dom.first_by_tag t xml = Some os ->
  exists os', Dom.first_by_tag t xml' = Some os'
              /\ Shape.skeleton os' = Shape.skeleton os.
Proof.
  intros E Hos. unfold Dom.first_by_tag in *.
  assert (H : flat_map Shape.skeleton (Dom.elements_by_tag t xml')
              = flat_map Shape.skeleton (Dom.elements_by_tag t xml))
    by (now rewrite <- !skeleton_elements, E).
  pose proof (elements_by_tag_all_named t xml) as Hall.
  pose proof (elements_by_tag_all_named t xml') as Hall'.
  destruct (Dom.elements_by_tag t xml) as [|x l]; [discriminate|].
  injection Hos as ->.
  destruct (Dom.elements_by_tag t xml') as [|x' l'].
  - destruct os; [discriminate H|].
    specialize (Hall _ (or_introl eq_refl)). discriminate.
  - exists x'. split; [reflexivity|].
    specialize (Hall os (or_introl eq_refl)).
    specialize (Hall' x' (or_introl eq_refl)).
    destruct os as [t1 a1 c1|]; [|discriminate].
    destruct x' as [t2 a2 c2|]; [|discriminate].
    simpl in H |- *. now injection H as -> -> ->.
Qed.

Lemma with_first_inv t f xml c r c' :
  LibvirtController.with_first t f xml c = (r, c') ->
  c' = c
  /\ match r with
     | Ok xml' => Dom.update_first t f xml = Some (Ok xml')
     | Raise _ => True
     end.
Proof.
  unfold LibvirtController.with_first.
  destruct (Dom.update_first t f xml) as [[xml'|e]|]; intros [= <- <-]; auto.
Qed.

Lemma defineXML_inv doc c h c' :
  Hv.defineXML doc c = (Ok (Some h), c') ->
  Hv.name_of doc = Some h /\ accepts c doc = true.
Proof.
  unfold Hv.defineXML, bind, log, set_domains, ret. simpl.
  destruct (Hv.name_of doc) as [n|]; [|discriminate].
  destruct (accepts c doc); [|discriminate].
  destruct (Hv.find_domain n (domains c)); intros [= <- _]; auto.
Qed.

(** X17. A successful [set_ram_kib], for any value, changes nothing but
    text in the descriptor: the elements, their names, attributes and
    nesting are those of the old descriptor.  In particular the boot
    elements of the [os] element keep their kinds and order, and the
    domain keeps its active-state. *)
Theorem X17_set_ram_kib_changes_text_only (c c' : conn) (name : string)
    (d : domain) (kib : Z) :
  Hv.find_domain name (domains c) = Some d ->
  Hv.name_of (dom_xml d) = Some name ->
  LibvirtController.set_ram_kib name kib c = (Ok tt, c') ->
  exists xml',
    Calls.descriptor name c' = Some xml'
    /\ Shape.skeleton xml' = Shape.skeleton (dom_xml d)
    /\ (forall os, Dom.first_by_tag "os" (dom_xml d) = Some os ->
          exists os', Dom.first_by_tag "os" xml' = Some os'
                      /\ Boot.kinds os' = Boot.kinds os)
    /\ Calls.power_state name c' = Calls.power_state name c.
Proof.
  intros Hf Hname Hrun. rewrite (set_ram_kib_run c name d kib Hf) in Hrun.
  apply bind_inv in Hrun.
  destruct Hrun as [(xml1 & c1 & H1 & Hrun)|(e & _ & [=])].
  apply with_first_inv in H1. destruct H1 as [-> Hup1].
  apply bind_inv in Hrun.
  destruct Hrun as [(xml2 & c2 & H2 & Hrun)|(e & _ & [=])].
  apply with_first_inv in H2. destruct H2 as [-> Hup2].
  apply bind_inv in Hrun.
  destruct Hrun as [(dom & c3 & H3 & Hrun)|(e & _ & [=])].
  destruct dom as [h|]; [|discriminate Hrun].
  injection Hrun as <-.
  destruct (defineXML_inv _ _ _ _ H3) as [Hn2 Hacc].
  assert (Hn : Hv.name_of xml2 = Some name).
  { rewrite <- Hname.
    transitivity (Hv.name_of xml1).
    - apply (name_of_update "currentMemory"
               (LibvirtController.replace_first_text kib) xml1 xml2);
        [discriminate|apply keeps_tag_replace| |exact Hup2].
      intros _ x Hx. exact (name_of_replace kib xml1 x Hx).
    - apply (name_of_update "memory"
               (LibvirtController.replace_first_text kib) (dom_xml d) xml1);
        [discriminate|apply keeps_tag_replace| |exact Hup1].
      intros _ x Hx. exact (name_of_replace kib (dom_xml d) x Hx). }
  destruct (defineXML_stored c xml2 name d Hf Hn Hacc)
    as (c'' & d' & Hd & _ & Hf' & Hx & Ha & _).
  rewrite H3 in Hd. injection Hd as _ <-.
  assert (Hsk : Shape.skeleton xml2 = Shape.skeleton (dom_xml d)).
  { rewrite (skeleton_update "currentMemory" _ xml1
               (keeps_skeleton_replace kib) xml2 Hup2).
    exact (skeleton_update "memory" _ (dom_xml d)
             (keeps_skeleton_replace kib) xml1 Hup1). }
  exists xml2.
  split; [unfold Calls.descriptor; rewrite Hf'; simpl; now rewrite Hx|].
  split; [exact Hsk|]. split.
  - intros os Hos.
    destruct (first_skeleton "os" (dom_xml d) xml2 os Hsk Hos)
      as (os' & Hos' & Hsk').
    exists os'. split; [exact Hos'|].
    apply kinds_of_skeleton; [| |exact Hsk'].
    + apply first_by_tag_named in Hos. now destruct os.
    + apply first_by_tag_named in Hos'. now destruct os'.
  - unfold Calls.power_state. rewrite Hf', Hf. simpl. now rewrite Ha.
Qed.

Lemma X17_set_ram_kib_changes_text_only_witness :
  exists c' xml' os',
    LibvirtController.set_ram_kib "cluster-master-0" 4194304 Sample.session
    = (Ok tt, c')
    /\ Calls.descriptor "cluster-master-0" c' = Some xml'
    /\ Dom.first_by_tag "os" xml' = Some os'
    /\ Boot.kinds os' = ["hd"; "cdrom"; "hd"]%string.
Proof.
  destruct (LibvirtController.set_ram_kib "cluster-master-0" 4194304
              Sample.session) as [r c'] eqn:E.
  assert (Hr : r = Ok tt).
  { change r with (fst (r, c')). rewrite <- E. vm_compute. reflexivity. }
  subst r.
  destruct (X17_set_ram_kib_changes_text_only Sample.session c'
              "cluster-master-0" Sample.master 4194304 eq_refl eq_refl E)
    as (xml' & Hd & _ & Hos & _).
  destruct (Hos (Dom.Element "os" []
                   [Sample.os_type; Sample.boot "hd"; Sample.boot "cdrom";
                    Sample.boot "hd"]) eq_refl) as (os' & Hos' & Hk).
  exists c', xml', os'. repeat split; assumption.
Defined.

(** ** What a rewrite of the boot order leaves alone *)

Lemma heads_update_on t t' f n :
  t <> t' ->
  keeps_tag f ->
  (forall el el', In el (Dom.elements_by_tag t n) -> f el = Ok el' ->
     flat_map (Dom.elements_by_tag t') (Dom.childNodes el')
     = flat_map (Dom.elements_by_tag t') (Dom.childNodes el)) ->
  forall n1,
    Dom.update_first t f n = Some (Ok n1) ->
    map Dom.head_text (Dom.elements_by_tag t' n1)
    = map Dom.head_text (Dom.elements_by_tag t' n).
Proof.
  intros Ht Hf.
  induction n as [s|tg attrs cs IH] using node_children_ind; intros Hel n1;
    [discriminate|].
  cbn [Dom.update_first].
  destruct (String.eqb_spec tg t) as [->|Hne].
  - intros [= E]. pose proof (Hf _ _ E) as Htag.
    assert (Hin : In (Dom.Element t attrs cs)
                     (Dom.elements_by_tag t (Dom.Element t attrs cs))).
    { simpl. rewrite String.eqb_refl. now left. }
    pose proof (Hel _ _ Hin E) as Hch.
    destruct n1 as [t1 a1 cs1|s]; [|discriminate]. simpl in Htag.
    injection Htag as ->. simpl in Hch. simpl.
    destruct (String.eqb_spec t t'); [contradiction|]. simpl. now rewrite Hch.
  - destruct (Dom.update_in (Dom.update_first t f) cs) as [[cs1|e]|] eqn:Ei;
      intros [= <-].
    assert (IH' : Forall (fun c => forall c1,
                    Dom.update_first t f c = Some (Ok c1) ->
                    map Dom.head_text (Dom.elements_by_tag t' c1)
                    = map Dom.head_text (Dom.elements_by_tag t' c)) cs).
    { rewrite Forall_forall in *. intros c Hc. apply (IH c Hc).
      intros el el' Hin. apply Hel. simpl. apply in_or_app. right.
      apply in_flat_map. now exists c. }
    cbn [Dom.elements_by_tag]. rewrite !map_app.
    rewrite (heads_update_in t t' f cs IH' cs1 Ei). f_equal.
    destruct (String.eqb tg t'); [|reflexivity].
    simpl. f_equal. exact (update_in_head t f cs cs1 tg attrs Hf Ei).
Qed.

Lemma flat_map_filter_nil {A B} (g : A -> list B) (p : A -> bool) l :
  flat_map g l = [] -> flat_map g (filter p l) = [].
Proof.
  induction l as [|x l IH]; simpl; [reflexivity|].
  intros H. apply app_eq_nil in H. destruct H as [Hx Hl].
  destruct (p x); simpl; [rewrite Hx|]; now apply IH.
Qed.

Lemma read_first_inv t xml c z c' :
  LibvirtController.read_first t xml c = (Ok z, c') ->
  exists el s,
    Dom.first_by_tag t xml = Some el
    /\ Dom.head_text el = Some s
    /\ PyInt.parse s = Some z.
Proof.
  unfold LibvirtController.read_first.
  destruct (Dom.first_by_tag t xml) as [el|]; [|discriminate].
  unfold LibvirtController.int_of_first_child.
  destruct (Dom.childNodes el) as [|[tg a k|s] rest] eqn:Hc; try discriminate.
  destruct (PyInt.parse s) as [z'|] eqn:Ep; [|discriminate].
  intros [= <- _]. exists el, s. split; [reflexivity|].
  split; [unfold Dom.head_text; now rewrite Hc|exact Ep].
Qed.

Lemma read_first_of_head t xml el s z c :
  Dom.first_by_tag t xml = Some el ->
  Dom.head_text el = Some s ->
  PyInt.parse s = Some z ->
  LibvirtController.read_first t xml c = (Ok z, c).
Proof.
  intros Hfirst Hh Hp. unfold LibvirtController.read_first. rewrite Hfirst.
  unfold LibvirtController.int_of_first_child. unfold Dom.head_text in Hh.
  destruct (Dom.childNodes el) as [|[tg a k|s'] rest]; try discriminate.
  injection Hh as ->. now rewrite Hp.
Qed.

Lemma new_boots_no_elements t' l :
  t' <> "boot"%string ->
  flat_map (Dom.elements_by_tag t') (map LibvirtController.new_boot l) = [].
Proof.
  intros H. induction l as [|x l IH]; [reflexivity|].
  cbn [map flat_map]. rewrite IH. unfold LibvirtController.new_boot.
  cbn [Dom.elements_by_tag flat_map].
  destruct (String.eqb_spec "boot" t'); [congruence|reflexivity].
Qed.

(** Reading an integer element named [t'] after the boot order was
    rewritten, when no such element lies below [os]. *)
Lemma read_after_reorder t' cd_first xml xml' os z c c' :
  t' <> "os"%string -> t' <> "boot"%string ->
  Dom.elements_by_tag "os" xml = [os] ->
  Boot.all_known os = true ->
  Boot.flat os = true ->
  Dom.getElementsByTagName t' os = [] ->
  Dom.update_first "os" (LibvirtController.reorder_boot cd_first) xml
  = Some (Ok xml') ->
  LibvirtController.read_first t' xml c = (Ok z, c) ->
  LibvirtController.read_first t' xml' c' = (Ok z, c').
Proof.
  intros Ht1 Ht2 Hone Hknown Hflat Hnone Hup Hread.
  destruct (read_first_inv _ _ _ _ _ Hread) as (el & s & Hfirst & Hh & Hp).
  assert (Hheads : map Dom.head_text (Dom.elements_by_tag t' xml')
                   = map Dom.head_text (Dom.elements_by_tag t' xml)).
  { apply (heads_update_on "os" t' (LibvirtController.reorder_boot cd_first) xml);
      [congruence|apply keeps_tag_reorder| |exact Hup].
    intros x x' Hin Hx. rewrite Hone in Hin. destruct Hin as [<-|[]].
    destruct os as [t attrs cs|]; [|discriminate Hx].
    rewrite (reorder_boot_ok cd_first t attrs cs Hknown Hflat) in Hx.
    injection Hx as <-. unfold Dom.getElementsByTagName in Hnone.
    simpl Dom.childNodes in *. rewrite Hnone, flat_map_app.
    unfold Boot.others. simpl Dom.childNodes.
    rewrite (flat_map_filter_nil _ _ cs Hnone).
    now rewrite (new_boots_no_elements t' _ Ht2). }
  destruct (heads_first _ _ el Hheads Hfirst) as (el1 & Hfirst1 & Hh1).
  apply (read_first_of_head t' xml' el1 s z c' Hfirst1); [congruence|exact Hp].
Qed.

Lemma get_ram_kib_run c name d :
  Hv.find_domain name (domains c) = Some d ->
  LibvirtController.get_ram_kib name c
  = LibvirtController.read_first "currentMemory" (dom_xml d) c.
Proof.
  intros Hf. unfold LibvirtController.get_ram_kib, LibvirtController._get_xml.
  erewrite bind_ok by (erewrite bind_ok by eauto with ctl; eauto with ctl).
  reflexivity.
Qed.

Lemma get_cpu_cores_run c name d :
  Hv.find_domain name (domains c) = Some d ->
  LibvirtController.get_cpu_cores name c
  = LibvirtController.read_first "vcpu" (dom_xml d) c.
Proof.
  intros Hf. unfold LibvirtController.get_cpu_cores, LibvirtController._get_xml.
  erewrite bind_ok by (erewrite bind_ok by eauto with ctl; eauto with ctl).
  reflexivity.
Qed.

Lemma read_first_state t xml c r c' :
  LibvirtController.read_first t xml c = (r, c') -> c' = c.
Proof.
  unfold LibvirtController.read_first.
  destruct (Dom.first_by_tag t xml); now intros [= _ <-].
Qed.

(** X18. On a hypervisor that accepts every descriptor, for a domain as
    in C2 whose descriptor has one [os] element with no [currentMemory]
    and no [vcpu] element below it, [set_boot_order] succeeds and
    disturbs neither reading: what [get_ram_kib] and [get_cpu_cores]
    returned before the call they return after it, and the domain keeps
    its active-state. *)
Theorem X18_set_boot_order_keeps_memory_and_cpus (c : conn) (name : string)
    (d : domain) (os : Dom.node) (cd_first : bool) :
  Hv.find_domain name (domains c) = Some d ->
  Hv.name_of (dom_xml d) = Some name ->
  Dom.elements_by_tag "os" (dom_xml d) = [os] ->
  Boot.all_known os = true ->
  Boot.flat os = true ->
  Dom.getElementsByTagName "currentMemory" os = [] ->
  Dom.getElementsByTagName "vcpu" os = [] ->
  (forall doc, accepts c doc = true) ->
  exists c',
    LibvirtController.set_boot_order name cd_first c = (Ok tt, c')
    /\ (forall z, LibvirtController.get_ram_kib name c = (Ok z, c) ->
                  LibvirtController.get_ram_kib name c' = (Ok z, c'))
    /\ (forall n, LibvirtController.get_cpu_cores name c = (Ok n, c) ->
                  LibvirtController.get_cpu_cores name c' = (Ok n, c'))
    /\ Calls.power_state name c' = Calls.power_state name c.
Proof.
  intros Hf Hname Hone Hknown Hflat Hmem Hcpu Hacc.
  assert (Hos : Dom.first_by_tag "os" (dom_xml d) = Some os)
    by (unfold Dom.first_by_tag; now rewrite Hone).
  destruct (reorder_document cd_first _ _ Hos Hknown Hflat)
    as (xml' & Hup & _ & Hn).
  destruct (defineXML_stored c xml' name d Hf ltac:(now rewrite Hn) (Hacc xml'))
    as (c' & d' & Hd & _ & Hf' & Hx & Ha & _).
  exists c'. rewrite (set_boot_order_run c name d cd_first Hf).
  erewrite bind_ok
    by (unfold LibvirtController.with_first; rewrite Hup; reflexivity).
  erewrite bind_ok by exact Hd.
  split; [reflexivity|]. split; [|split].
  - intros z Hz. rewrite (get_ram_kib_run c name d Hf) in Hz.
    rewrite (get_ram_kib_run c' name d' Hf'), Hx.
    apply (read_after_reorder "currentMemory" cd_first (dom_xml d) xml' os z c c');
      try assumption; discriminate.
  - intros n Hn'. rewrite (get_cpu_cores_run c name d Hf) in Hn'.
    rewrite (get_cpu_cores_run c' name d' Hf'), Hx.
    apply (read_after_reorder "vcpu" cd_first (dom_xml d) xml' os n c c');
      try assumption; discriminate.
  - unfold Calls.power_state. rewrite Hf', Hf. simpl. now rewrite Ha.
Qed.

Lemma X18_set_boot_order_keeps_memory_and_cpus_witness :
  exists c',
    LibvirtController.set_boot_order "cluster-master-0" true Sample.session
    = (Ok tt, c')
    /\ LibvirtController.get_ram_kib "cluster-master-0" c' = (Ok 8388608%Z, c')
    /\ LibvirtController.get_cpu_cores "cluster-master-0" c' = (Ok 4%Z, c').
Proof.
  destruct (X18_set_boot_order_keeps_memory_and_cpus Sample.session
              "cluster-master-0" Sample.master
              (Dom.Element "os" []
                 [Sample.os_type; Sample.boot "hd"; Sample.boot "cdrom";
                  Sample.boot "hd"])
              true eq_refl eq_refl eq_refl eq_refl eq_refl eq_refl eq_refl
              (fun _ => eq_refl))
    as (c' & E & Hram & Hcpu & _).
  exists c'. split; [exact E|]. split.
  - apply Hram. vm_compute. reflexivity.
  - apply Hcpu. vm_compute. reflexivity.
Defined.

(** ** A start that gets its address *)

(** X19. Starting a stopped domain whose lease table shows an address
    within the 73 polls of the first wait: one power-on, then one lease
    query per answer up to the first that carries an address, then a
    normal return with the domain running.  No power-off is issued and
    there is no second power-on. *)
Theorem X19_start_node_first_wait_succeeds (c : conn) (name : string)
    (d : domain) (k : nat) :
  Hv.find_domain name (domains c) = Some d ->
  dom_active d = false ->
  k < waiting.polls_within 360 5 ->
  (forall j, j < k ->
     Polling.has_address (Polling.answer (dom_polls d) j) = false) ->
  Polling.has_address (Polling.answer (dom_polls d) k) = true ->
  exists c',
    LibvirtController.start_node name c = (Ok tt, c')
    /\ trace c' = trace c ++ EvCreate name :: Polling.queries name (S k)
    /\ LibvirtController.is_active name c' = (Ok true, c')
    /\ Calls.power_ons name (trace c') = 1 + Calls.power_ons name (trace c)
    /\ Calls.power_offs name (trace c') = Calls.power_offs name (trace c).
Proof.
  intros Hf Hoff Hk Hno Hyes.
  destruct (create_inactive c name d Hf Hoff) as (c1 & Ec1 & Tc1 & Fc1).
  destruct (wait_until_address name _ k c1 (Hv.set_active true d) Fc1 Hk Hno Hyes)
    as (c' & Ew & Tw & _).
  destruct (wait_effect name (waiting.polls_within 360 5) c1)
    as (r & c2 & evs & E2 & _ & _ & _ & P & _).
  rewrite Ew in E2. injection E2 as _ <-.
  exists c'.
  assert (Ht : trace c' = trace c ++ EvCreate name :: Polling.queries name (S k)).
  { rewrite Tw, Tc1, <- app_assoc. reflexivity. }
  split.
  { unfold LibvirtController.start_node. do 2 step. rewrite Hoff. cbn [negb].
    erewrite try_ok; [reflexivity|].
    erewrite bind_ok by exact Ec1. exact Ew. }
  split; [exact Ht|].
  split.
  { apply is_active_state. rewrite P.
    now rewrite (power_state_of _ _ _ Fc1). }
  rewrite Ht, power_ons_app, power_offs_app.
  assert (Hq : forallb Calls.is_lease_query (Polling.queries name (S k)) = true).
  { unfold Polling.queries. generalize (S k). intros n.
    induction n; simpl; auto. }
  destruct (lease_queries_no_power name _ Hq) as [On Off].
  unfold Calls.power_ons, Calls.power_offs in *. cbn [filter Calls.is_power_on
    Calls.is_power_off]. rewrite String.eqb_refl. cbn [List.length].
  rewrite On, Off. lia.
Qed.

Lemma X19_start_node_first_wait_succeeds_witness :
  exists c',
    LibvirtController.start_node "cluster-master-1" Sample.session = (Ok tt, c')
    /\ trace c' = [EvCreate "cluster-master-1";
                   EvInterfaceAddresses "cluster-master-1";
                   EvInterfaceAddresses "cluster-master-1"].
Proof.
  destruct (X19_start_node_first_wait_succeeds Sample.session
              "cluster-master-1" Sample.flaky 1 eq_refl eq_refl)
    as (c' & E & T & _).
  - vm_compute. lia.
  - intros j Hj. assert (j = 0) as -> by lia. reflexivity.
  - reflexivity.
  - exists c'. split; assumption.
Defined.

(** ** What descriptor rewrites leave alone *)

Lemma defineXML_frame c doc name d :
  Hv.find_domain name (domains c) = Some d ->
  Hv.name_of doc = Some name ->
  exists r c',
    Hv.defineXML doc c = (Ok r, c')
    /\ trace c' = trace c ++ [EvDefineXML doc]
    /\ Frame.names c' = Frame.names c
    /\ (forall m, m <> name -> Calls.descriptor m c' = Calls.descriptor m c)
    /\ (forall m, Calls.power_state m c' = Calls.power_state m c).
Proof.
  intros Hf Hn. unfold Hv.defineXML, bind, log, set_domains, ret. simpl.
  rewrite Hn, Hf. destruct (accepts c doc).
  - do 2 eexists. split; [reflexivity|]. simpl. split; [reflexivity|].
    pose proof (find_domain_name _ _ _ Hf) as Hname.
    unfold Frame.names, Calls.descriptor, Calls.power_state. simpl.
    split; [now apply put_domain_names|].
    split; intros m; [intros Hm|];
      rewrite (find_put_domain name m d _ _ Hf) by exact Hname;
      destruct (String.eqb_spec name m) as [<-|]; try reflexivity;
      try contradiction.
    now rewrite Hf.
  - do 2 eexists. split; [reflexivity|]. simpl. repeat split.
Qed.

(** X20. [set_boot_order] and [set_ram_kib] on a known domain whose
    descriptor is a [domain] element that names it, whatever their
    arguments and outcome, make at most one call that changes anything,
    the submission of a descriptor: of the calls the session logs
    (power-on, forced power-off, lease query, descriptor submission, shell
    command, close) they make that submission or none; the lookup and the
    reading of the descriptor are not logged.  They never power anything
    on or off, never add, remove or reorder domains, and never change the
    descriptor of another domain. *)
Theorem X20_descriptor_rewrites_are_local (c : conn) (name : string)
    (d : domain) :
  Hv.find_domain name (domains c) = Some d ->
  Dom.tag_of (dom_xml d) = Some "domain"%string ->
  Hv.name_of (dom_xml d) = Some name ->
  let local (op : M unit) :=
    exists r c',
      op c = (r, c')
      /\ (trace c' = trace c \/ exists doc, trace c' = trace c ++ [EvDefineXML doc])
      /\ Frame.names c' = Frame.names c
      /\ (forall m, m <> name -> Calls.descriptor m c' = Calls.descriptor m c)
      /\ (forall m, Calls.power_state m c' = Calls.power_state m c) in
  (forall cd_first, local (LibvirtController.set_boot_order name cd_first))
  /\ (forall kib, local (LibvirtController.set_ram_kib name kib)).
Proof.
  intros Hf Hroot Hname local.
  assert (Hstay : forall (r : result unit), local (fun c0 => (r, c0))).
  { intros r. exists r, c. repeat split; auto. }
  assert (Hsubmit : forall doc msg,
            Hv.name_of doc = Some name ->
            local (dom <- Hv.defineXML doc ;;
                   match dom with
                   | None => raise (PlainException msg)
                   | Some _ => ret tt
                   end)).
  { intros doc msg Hn.
    destruct (defineXML_frame c doc name d Hf Hn) as (r & c' & E & T & N & D & P).
    exists (match r with
            | None => Raise (PlainException msg)
            | Some _ => Ok tt
            end), c'.
    split; [erewrite bind_ok by exact E; now destruct r|].
    split; [right; now exists doc|]. repeat split; assumption. }
  assert (Hnot : forall t, t <> "domain"%string ->
                           Dom.is_element_named t (dom_xml d) = false).
  { intros t Ht. destruct (dom_xml d) as [tg a cs|s]; [|reflexivity].
    simpl in *. injection Hroot as ->. now apply String.eqb_neq. }
  split.
  - intros cd_first. unfold local.
    rewrite (set_boot_order_run c name d cd_first Hf).
    destruct (LibvirtController.with_first "os"
                (LibvirtController.reorder_boot cd_first) (dom_xml d) c)
      as [[xml'|e] c1] eqn:E; destruct (with_first_inv _ _ _ _ _ _ E) as [-> Hup].
    + erewrite bind_ok by exact E. apply Hsubmit.
      rewrite <- Hname.
      apply (name_of_update "os" (LibvirtController.reorder_boot cd_first)
               (dom_xml d) xml'); [discriminate|apply keeps_tag_reorder| |exact Hup].
      intros Hos. rewrite Hnot in Hos by discriminate. discriminate.
    + erewrite bind_raise by exact E. apply Hstay.
  - intros kib. unfold local.
    rewrite (set_ram_kib_run c name d kib Hf).
    destruct (LibvirtController.with_first "memory"
                (LibvirtController.replace_first_text kib) (dom_xml d) c)
      as [[xml1|e] c1] eqn:E1; destruct (with_first_inv _ _ _ _ _ _ E1) as [-> Hup1].
    2:{ erewrite bind_raise by exact E1. apply Hstay. }
    erewrite bind_ok by exact E1.
    destruct (LibvirtController.with_first "currentMemory"
                (LibvirtController.replace_first_text kib) xml1 c)
      as [[xml2|e] c2] eqn:E2; destruct (with_first_inv _ _ _ _ _ _ E2) as [-> Hup2].
    2:{ erewrite bind_raise by exact E2. apply Hstay. }
    erewrite bind_ok by exact E2. apply Hsubmit.
    rewrite <- Hname. transitivity (Hv.name_of xml1).
    + apply (name_of_update "currentMemory"
               (LibvirtController.replace_first_text kib) xml1 xml2);
        [discriminate|apply keeps_tag_replace| |exact Hup2].
      intros _ x Hx. exact (name_of_replace kib xml1 x Hx).
    + apply (name_of_update "memory"
               (LibvirtController.replace_first_text kib) (dom_xml d) xml1);
        [discriminate|apply keeps_tag_replace| |exact Hup1].
      intros _ x Hx. exact (name_of_replace kib (dom_xml d) x Hx).
Qed.

Lemma X20_descriptor_rewrites_are_local_witness :
  exists r c',
    LibvirtController.set_ram_kib "cluster-master-0" 0 Sample.session = (r, c')
    /\ Frame.names c' = Frame.names Sample.session
    /\ Calls.descriptor "cluster-worker-0" c'
       = Calls.descriptor "cluster-worker-0" Sample.session.
Proof.
  destruct (proj2 (X20_descriptor_rewrites_are_local Sample.session
                     "cluster-master-0" Sample.master eq_refl eq_refl eq_refl)
                  0%Z) as (r & c' & E & _ & N & D & _).
  exists r, c'. split; [exact E|]. split; [exact N|].
  apply D. discriminate.
Defined.
